(** * Simpiler mobile services: CompilationService and BoardCommunicationService

    A shallow embedding of [mobile/src/services/CompilationService.js] (which
    holds both the [CompilationService] and the [BoardCommunicationService]
    classes) and the properties of device discovery, connection management,
    firmware upload, serial fan-out, binary download and the ESP registry.

    JavaScript [async] methods are modelled sequentially, each [await]
    completing before the next statement runs and no two methods of a service
    interleaving, in a state-and-exception monad over the service fields, the
    persisted storage, the file system and a trace of every call that leaves
    the service (native drivers, timers, callbacks, console).  What the
    outside world answers, and which of its calls fail, is an [Env].

    The native modules ([UsbSerial], [BleManager], [EspOta]), [AsyncStorage],
    [FileSystem] and [fetch] are not part of the repository: they appear as
    the calls made to them.  Callbacks handed to the service (progress,
    serial monitor) are calls to the outside as well; they are taken not to
    call back into the service while they run. *)

From Stdlib Require Import ZArith Ascii String List Lia.
From stdpp Require Import gmap strings list pretty.
Import ListNotations.
Open Scope Z_scope.
Open Scope string_scope.
Open Scope list_scope.

(** ** JavaScript values and objects *)

(** The values that occur in device descriptors: strings, numbers (integral
    ones, which is all that ids, ports and vendor ids are) and [undefined]. *)
Inductive value : Type :=
| VUndefined
| VStr (s : string)
| VNum (n : Z).

#[global] Instance value_eq_dec : EqDecision value.
Proof. solve_decision. Defined.

(** A plain object: own properties by name. *)
Abbreviation obj := (gmap string value).

(** [o.k]: a missing property reads as [undefined]. *)
Definition prop (o : obj) (k : string) : value := default VUndefined (o !! k).

(** [{ ...a, ...b }]: the properties of both, those of [b] winning. *)
Definition spread (a b : obj) : obj := b ∪ a.

(** [JSON.parse(JSON.stringify(o))]: properties holding [undefined] are
    dropped, everything else comes back. *)
Definition json_roundtrip (o : obj) : obj :=
  filter (fun kv => kv.2 <> VUndefined) o.

(** Truthiness, as [||], [&&] and [if] see it. *)
Definition truthy (v : value) : bool :=
  match v with
  | VUndefined => false
  | VStr s => negb (String.eqb s "")
  | VNum n => negb (n =? 0)%Z
  end.

(** [a || b] *)
Definition js_or (a b : value) : value := if truthy a then a else b.

(** [a === b] on these values. *)
Definition strict_eq (a b : value) : bool := bool_decide (a = b).

(** [`${v}`] *)
Definition to_string (v : value) : string :=
  match v with
  | VUndefined => "undefined"
  | VStr s => s
  | VNum n => pretty n
  end.

(** [hay.includes(needle)] *)
Fixpoint includes (hay needle : string) : bool :=
  String.prefix needle hay ||
  match hay with
  | EmptyString => false
  | String _ rest => includes rest needle
  end.

(** ** Base64, as [FileSystem.readAsStringAsync(_, {encoding: Base64})] yields it *)

Definition base64_alphabet : string :=
  "ABCDEFGHIJKLMNOPQRSTUVWXYZabcdefghijklmnopqrstuvwxyz0123456789+/".

Definition base64_digit (n : N) : ascii :=
  match String.get (N.to_nat n) base64_alphabet with
  | Some c => c
  | None => "="%char
  end.

Definition sextet (n : N) (k : N) : ascii :=
  base64_digit (N.land (N.shiftr n (6 * k)) 63).

(** Three bytes give four digits; a tail of one or two bytes is padded with
    [=] to a full group of four. *)
Fixpoint base64_encode (bs : list Byte.byte) : string :=
  match bs with
  | [] => ""
  | [a] =>
      let n := N.shiftl (Byte.to_N a) 16 in
      String (sextet n 3) (String (sextet n 2) "==")
  | [a; b] =>
      let n := N.lor (N.shiftl (Byte.to_N a) 16) (N.shiftl (Byte.to_N b) 8) in
      String (sextet n 3) (String (sextet n 2) (String (sextet n 1) "="))
  | a :: b :: c :: rest =>
      let n := N.lor (N.lor (N.shiftl (Byte.to_N a) 16) (N.shiftl (Byte.to_N b) 8))
                     (Byte.to_N c) in
      String (sextet n 3) (String (sextet n 2) (String (sextet n 1)
        (String (sextet n 0) (base64_encode rest))))
  end.

(** ** Boards *)

(** [Platform.OS] *)
Inductive Platform : Type := android | ios | other_os.

#[global] Instance Platform_eq_dec : EqDecision Platform.
Proof. solve_decision. Defined.

(** A board descriptor, as [getAvailableBoards] builds it and
    [connectToBoard] takes it. *)
Record Board : Type := mkBoard {
  id : value;
  name : value;
  type : string;
  details : obj;
}.

#[global] Instance Board_eq_dec : EqDecision Board.
Proof. solve_decision. Defined.

(** ** The outside world *)

(** Everything that leaves the service, in program order. *)
Inductive Event : Type :=
(* UsbSerial *)
| UsbGetDeviceList
| UsbConnectDevice (dev : value)
| UsbOpenDevice (dev : value) (baudRate : Z)
| UsbSetDataListener
| UsbCloseDevice (dev : value)
| UsbDisconnectDevice (dev : value)
| UsbSetDTR (dev : value) (level : bool)
| UsbSetRTS (dev : value) (level : bool)
| UsbWriteBase64 (dev : value) (chunk : string)
| UsbWrite (dev : value) (data : string)
(* BleManager *)
| BleScanForPeripherals
| BleConnectToDevice (dev : value)
| BleStartNotification (dev : value) (service characteristic : string)
| BleAddListener (dev : value) (characteristic : string)
| BleDisconnectFromDevice (dev : value)
| BleWriteBase64 (dev : value) (service characteristic : string) (chunk : string)
| BleWrite (dev : value) (service characteristic : string) (data : string)
(* EspOta *)
| EspUploadBinary (ip port : value) (binaryPath : string)
(* AsyncStorage *)
| StorageGetItem (key : string)
| StorageSetItem (key : string)
(* FileSystem *)
| FsGetInfo (path : string)
| FsMakeDirectory (path : string)
| FsReadAsStringBase64 (path : string)
| FsDownload (url fileUri : string) (bearer : option string)
(* fetch *)
| FetchGet (url : string) (bearer : option string)
(* setTimeout(resolve, ms) *)
| Timeout (ms : Z)
(* progressCallback(num / den): the quotient is kept as its two operands *)
| ProgressCallback (num den : Z)
(* a subscribed serial-monitor callback called with a chunk *)
| SerialCallback (handler : nat) (data : string)
(* console.error(label, error) *)
| ConsoleError (label : string).

#[global] Instance Event_eq_dec : EqDecision Event.
Proof. solve_decision. Defined.

(** What can be thrown: [new Error(msg)] by the services themselves, or
    whatever the outside call [call] rejected with. *)
Inductive exn : Type :=
| JsError (msg : string)
| Rejected (call : Event).

#[global] Instance exn_eq_dec : EqDecision exn.
Proof. solve_decision. Defined.

(** An HTTP response, as far as the services look at it. *)
Record Response : Type := mkResponse {
  ok : bool;
  body : obj;
}.

(** The answers of the outside world.  Each may depend on everything that
    happened so far (the trace), so a call can succeed once and fail later. *)
Record Env : Type := mkEnv {
  OS : Platform;
  API_BASE_URL : string;
  documentDirectory : string;
  (* does this call throw (reject)? *)
  rejects : list Event -> Event -> bool;
  (* UsbSerial.getDeviceList() *)
  usb_device_list : list Event -> list obj;
  (* BleManager.scanForPeripherals() *)
  ble_peripherals : list Event -> list obj;
  (* fetch(url) *)
  http_response : list Event -> string -> Response;
  (* the bytes the server sends for a binary url *)
  http_download : list Event -> string -> list Byte.byte;
  (* the progress values EspOta.uploadBinary reports, as num / den, and what
     it resolves to *)
  esp_upload_progress : list Event -> list (Z * Z);
  esp_upload_result : list Event -> bool;
  (* new Date().toISOString() *)
  now : list Event -> string;
}.

(** The module-level bindings: [UsbSerial] is loaded on Android, [BleManager]
    on iOS, [EspOta] on every platform; the others stay [null]. *)
Definition UsbSerial (e : Env) : bool :=
  match OS e with android => true | _ => false end.
Definition BleManager (e : Env) : bool :=
  match OS e with ios => true | _ => false end.
Definition EspOta (e : Env) : bool := true.

(** ** State *)

(** [AsyncStorage], at the three keys the services use.  Each JSON key holds
    what the services wrote there: an array of objects. *)
Record Storage : Type := mkStorage {
  auth_token : option string;
  esp_devices : option (list obj);
  compiled_binaries : option (list obj);
}.

Record State : Type := mkState {
  (* BoardCommunicationService fields *)
  connectedDevice : option Board;
  connectionType : option string;
  serialMonitorCallbacks : list nat;
  (* persisted *)
  storage : Storage;
  files : gmap string (list Byte.byte);
  directories : list string;
  (* everything that left the service so far, oldest first *)
  trace : list Event;
}.

Definition set_connection (d : option Board) (t : option string) (s : State) : State :=
  mkState d t (serialMonitorCallbacks s) (storage s) (files s) (directories s) (trace s).
Definition set_callbacks (l : list nat) (s : State) : State :=
  mkState (connectedDevice s) (connectionType s) l (storage s) (files s) (directories s) (trace s).
Definition set_storage (st : Storage) (s : State) : State :=
  mkState (connectedDevice s) (connectionType s) (serialMonitorCallbacks s) st
          (files s) (directories s) (trace s).
Definition set_files (f : gmap string (list Byte.byte)) (s : State) : State :=
  mkState (connectedDevice s) (connectionType s) (serialMonitorCallbacks s) (storage s)
          f (directories s) (trace s).
Definition set_directories (d : list string) (s : State) : State :=
  mkState (connectedDevice s) (connectionType s) (serialMonitorCallbacks s) (storage s)
          (files s) d (trace s).
Definition log (ev : Event) (s : State) : State :=
  mkState (connectedDevice s) (connectionType s) (serialMonitorCallbacks s) (storage s)
          (files s) (directories s) (trace s ++ [ev]).

(** The service as its constructor leaves it, on an empty device. *)
Definition initial : State :=
  mkState None None [] (mkStorage None None None) ∅ [] [].

(** ** The monad: state, and exceptions that keep the state *)

Inductive Result (A : Type) : Type :=
| Ok (a : A)
| Throw (e : exn).
Arguments Ok {A} a.
Arguments Throw {A} e.

Definition M (A : Type) : Type := State -> Result A * State.

Definition ret {A} (a : A) : M A := fun s => (Ok a, s).
Definition throw {A} (e : exn) : M A := fun s => (Throw e, s).
Definition bind {A B} (m : M A) (k : A -> M B) : M B :=
  fun s => match m s with
           | (Ok a, s') => k a s'
           | (Throw e, s') => (Throw e, s')
           end.
(** [try { m } catch (error) { h(error) }] *)
Definition try_catch {A} (m : M A) (h : exn -> M A) : M A :=
  fun s => match m s with
           | (Ok a, s') => (Ok a, s')
           | (Throw e, s') => h e s'
           end.
Definition gets {A} (f : State -> A) : M A := fun s => (Ok (f s), s).
Definition modify (f : State -> State) : M unit := fun s => (Ok tt, f s).

Declare Scope js_scope.
Delimit Scope js_scope with js.
Notation "x <- c ;; k" := (bind c (fun x => k))
  (at level 100, c at next level, right associativity) : js_scope.
Notation "c ;; k" := (bind c (fun _ => k))
  (at level 100, right associativity) : js_scope.
Open Scope js_scope.

(** [for (const x of l) body(x)] *)
Fixpoint for_of {A} (l : list A) (body : A -> M unit) : M unit :=
  match l with
  | [] => ret tt
  | x :: rest => body x ;; for_of rest body
  end.

(** [for (let i = start; i < start + count; i++) body(i)] *)
Fixpoint for_range (count : nat) (start : Z) (body : Z -> M unit) : M unit :=
  match count with
  | O => ret tt
  | S k => body start ;; for_range k (start + 1) body
  end.

Definition lift {A} (r : Result A) : M A := fun s => (r, s).

(** [for (const x of l) { acc = body(x, acc) }], for a loop that grows a
    local array. *)
Fixpoint for_of_acc {A B} (l : list A) (acc : B) (body : A -> B -> M B) : M B :=
  match l with
  | [] => ret acc
  | x :: rest => acc' <- body x acc ;; for_of_acc rest acc' body
  end.

Definition set_esp_devices (l : list obj) (st : Storage) : Storage :=
  mkStorage (auth_token st) (Some l) (compiled_binaries st).
Definition set_compiled_binaries (l : list obj) (st : Storage) : Storage :=
  mkStorage (auth_token st) (esp_devices st) (Some l).

(** [Math.ceil(len / chunkSize)] for a string length and a positive chunk
    size: both are far below 2^53, where the quotient of doubles rounds to the
    same integer as exact division does. *)
Definition ceil_div (len chunkSize : Z) : Z := (len + chunkSize - 1) / chunkSize.

(** [ct === t] for the [connectionType] field. *)
Definition is_type (ct : option string) (t : string) : bool := bool_decide (ct = Some t).

(** ** The services *)

Section Services.

Context (env : Env).

(** A call that leaves the service: it is recorded, and the outside world
    decides whether it throws. *)
Definition call (ev : Event) : M unit :=
  fun s => if rejects env (trace s) ev
           then (Throw (Rejected ev), log ev s)
           else (Ok tt, log ev s).

(** A call that cannot fail ([setTimeout], [console.error]). *)
Definition emit (ev : Event) : M unit := modify (log ev).

(** [await new Promise(resolve => setTimeout(resolve, ms))] *)
Definition sleep (ms : Z) : M unit := emit (Timeout ms).

(** *** AsyncStorage and FileSystem *)

Definition AsyncStorage_getItem {A} (key : string) (field : Storage -> option A)
  : M (option A) :=
  call (StorageGetItem key) ;;
  gets (fun s => field (storage s)).

Definition AsyncStorage_setItem (key : string) (write : Storage -> Storage) : M unit :=
  call (StorageSetItem key) ;;
  modify (fun s => set_storage (write (storage s)) s).

(** [(await FileSystem.getInfoAsync(path)).exists] *)
Definition FileSystem_getInfoAsync (path : string) : M bool :=
  call (FsGetInfo path) ;;
  gets (fun s => bool_decide (is_Some (files s !! path))
                 || bool_decide (path ∈ directories s)).

Definition FileSystem_makeDirectoryAsync (path : string) : M unit :=
  call (FsMakeDirectory path) ;;
  modify (fun s => set_directories (path :: directories s) s).

(** [FileSystem.readAsStringAsync(path, { encoding: Base64 })] *)
Definition FileSystem_readAsStringAsync (path : string) : M string :=
  call (FsReadAsStringBase64 path) ;;
  f <- gets files ;;
  match f !! path with
  | Some bytes => ret (base64_encode bytes)
  | None => throw (Rejected (FsReadAsStringBase64 path))
  end.

(** [createDownloadResumable(url, fileUri, {headers}).downloadAsync()], giving
    the [uri] of the file written. *)
Definition FileSystem_downloadAsync (url fileUri : string) (bearer : option string)
  : M string :=
  tr <- gets trace ;;
  call (FsDownload url fileUri bearer) ;;
  modify (fun s => set_files (<[fileUri := http_download env tr url]> (files s)) s) ;;
  ret fileUri.

(** *** CompilationService *)

(** [token ? { Authorization: `Bearer ${token}` } : {}] *)
Definition bearer_of (token : option string) : option string :=
  match token with
  | Some t => if String.eqb t "" then None else Some t
  | None => None
  end.

Definition getCompilationStatus (compilationId : string) : M obj :=
  try_catch
    (token <- AsyncStorage_getItem "auth_token" auth_token ;;
     let url := API_BASE_URL env +:+ "/v1/compile/" +:+ compilationId in
     tr <- gets trace ;;
     call (FetchGet url (bearer_of token)) ;;
     let response := http_response env tr url in
     if negb (ok response) then
       let errorData := body response in
       throw (JsError (to_string (js_or (prop errorData "message")
                                        (VStr "Failed to get compilation status"))))
     else ret (body response))
    (fun error => emit (ConsoleError "Get compilation status error:") ;; throw error).

Definition downloadBinary (compilationId fileName : string) : M string :=
  try_catch
    (token <- AsyncStorage_getItem "auth_token" auth_token ;;
     (* Create directory if it doesn't exist *)
     let binariesDir := documentDirectory env +:+ "binaries" in
     dirInfo_exists <- FileSystem_getInfoAsync binariesDir ;;
     (if negb dirInfo_exists then FileSystem_makeDirectoryAsync binariesDir
      else ret tt) ;;
     (* Download the binary *)
     let fileUri := binariesDir +:+ "/" +:+ fileName in
     uri <- FileSystem_downloadAsync
              (API_BASE_URL env +:+ "/v1/binaries/" +:+ compilationId)
              fileUri (bearer_of token) ;;
     (* Save binary info to AsyncStorage *)
     binariesJson <- AsyncStorage_getItem "compiled_binaries" compiled_binaries ;;
     let binaries := default [] binariesJson in
     timestamp <- gets (fun s => now env (trace s)) ;;
     status <- getCompilationStatus compilationId ;;
     let binaries :=
       binaries ++ [ <[ "id" := VStr compilationId ]>
                    (<[ "fileName" := VStr fileName ]>
                    (<[ "uri" := VStr uri ]>
                    (<[ "timestamp" := VStr timestamp ]>
                    (<[ "boardType" := prop status "board_type" ]> ∅)))) ] in
     AsyncStorage_setItem "compiled_binaries"
       (set_compiled_binaries (json_roundtrip <$> binaries)) ;;
     ret uri)
    (fun error => emit (ConsoleError "Download binary error:") ;; throw error).

(** *** BoardCommunicationService *)

Definition usb_board (device : obj) : Board :=
  mkBoard (prop device "deviceId")
          (js_or (prop device "productName")
                 (VStr ("USB Device (" +:+ to_string (prop device "vendorId") +:+ ":"
                        +:+ to_string (prop device "productId") +:+ ")")))
          "usb" device.

Definition ble_board (device : obj) : Board :=
  mkBoard (prop device "id")
          (js_or (prop device "name")
                 (VStr ("BLE Device (" +:+ to_string (prop device "id") +:+ ")")))
          "ble" device.

Definition wifi_board (device : obj) : Board :=
  mkBoard (prop device "ip")
          (js_or (prop device "name")
                 (VStr ("ESP Device (" +:+ to_string (prop device "ip") +:+ ")")))
          "wifi" device.

(** The filter for likely Arduino BLE devices:
    [device.name && (device.name.includes('Arduino') || ...)].  A truthy
    name that is not a string has no [includes] method. *)
Definition likely_arduino (device : obj) : Result bool :=
  match prop device "name" with
  | VUndefined => Ok false
  | VStr n =>
      Ok (truthy (VStr n) &&
          (includes n "Arduino" || includes n "ESP32" ||
           includes n "ESP8266" || includes n "BLE"))
  | VNum n =>
      if truthy (VNum n)
      then Throw (JsError "device.name.includes is not a function")
      else Ok false
  end.

Definition getAvailableBoards : M (list Board) :=
  try_catch
    (let boards : list Board := [] in
     (* Check USB devices (Android only) *)
     boards <-
       (if bool_decide (OS env = android) && UsbSerial env then
          usbDevices <- (tr <- gets trace ;; call UsbGetDeviceList ;;
                         ret (usb_device_list env tr)) ;;
          for_of_acc usbDevices boards
            (fun device boards => ret (boards ++ [usb_board device]))
        else ret boards) ;;
     (* Check BLE devices (both platforms) *)
     boards <-
       (if BleManager env then
          bleDevices <- (tr <- gets trace ;; call BleScanForPeripherals ;;
                         ret (ble_peripherals env tr)) ;;
          for_of_acc bleDevices boards
            (fun device boards =>
               keep <- lift (likely_arduino device) ;;
               if keep then ret (boards ++ [ble_board device]) else ret boards)
        else ret boards) ;;
     (* Check WiFi devices (ESP OTA) *)
     boards <-
       (if EspOta env then
          savedEspDevices <- AsyncStorage_getItem "esp_devices" esp_devices ;;
          let espDevices := default [] savedEspDevices in
          for_of_acc espDevices boards
            (fun device boards => ret (boards ++ [wifi_board device]))
        else ret boards) ;;
     ret boards)
    (fun error => emit (ConsoleError "Error getting available boards:") ;; throw error).

Definition disconnectFromBoard : M bool :=
  try_catch
    (connected <- gets connectedDevice ;;
     match connected with
     | None => ret true
     | Some device =>
         ct <- gets connectionType ;;
         (if is_type ct "usb" && UsbSerial env then
            call (UsbCloseDevice (id device)) ;;
            call (UsbDisconnectDevice (id device))
          else if is_type ct "ble" && BleManager env then
            call (BleDisconnectFromDevice (id device))
          else ret tt) ;;
         modify (set_connection None None) ;;
         ret true
     end)
    (fun error => emit (ConsoleError "Error disconnecting from board:") ;; throw error).

Definition connectToBoard (board : Board) : M bool :=
  try_catch
    (connected <- gets connectedDevice ;;
     (if bool_decide (is_Some connected) then disconnectFromBoard else ret true) ;;
     if String.eqb (type board) "usb" && UsbSerial env then
       (* Connect to USB device *)
       call (UsbConnectDevice (id board)) ;;
       call (UsbOpenDevice (id board) 115200) ;;
       modify (set_connection (Some board) (Some "usb")) ;;
       (* Set up serial monitor *)
       call UsbSetDataListener ;;
       ret true
     else if String.eqb (type board) "ble" && BleManager env then
       (* Connect to BLE device *)
       call (BleConnectToDevice (id board)) ;;
       modify (set_connection (Some board) (Some "ble")) ;;
       (* Set up notification listener for serial data *)
       call (BleStartNotification (id board) "FFE0" "FFE1") ;;
       call (BleAddListener (id board) "FFE1") ;;
       ret true
     else if String.eqb (type board) "wifi" && EspOta env then
       (* For WiFi devices, just store the connection info *)
       modify (set_connection (Some board) (Some "wifi")) ;;
       ret true
     else throw (JsError ("Unsupported board type: " +:+ type board)))
    (fun error =>
       emit (ConsoleError "Error connecting to board:") ;;
       modify (set_connection None None) ;;
       throw error).

(** The chunk loop shared in shape by the USB and BLE branches:
    [for (let i = 0; i < totalChunks; i++) { write(binary.substr(i * chunkSize,
    chunkSize)); progressCallback((i + 1) / totalChunks); sleep(delay) }] *)
Definition upload_chunks (binary : string) (chunkSize : Z) (delay : Z)
    (write : string -> Event) : M unit :=
  let totalChunks := ceil_div (Z.of_nat (String.length binary)) chunkSize in
  for_range (Z.to_nat totalChunks) 0
    (fun i =>
       let chunk := substring (Z.to_nat (i * chunkSize)) (Z.to_nat chunkSize) binary in
       call (write chunk) ;;
       (* Report progress *)
       call (ProgressCallback (i + 1) totalChunks) ;;
       (* Small delay to prevent buffer overflow *)
       sleep delay).

Definition uploadBinary (binaryPath : string) : M bool :=
  try_catch
    (connected <- gets connectedDevice ;;
     match connected with
     | None => throw (JsError "No board connected")
     | Some device =>
         (* Check if binary exists *)
         fileInfo_exists <- FileSystem_getInfoAsync binaryPath ;;
         if negb fileInfo_exists then throw (JsError "Binary file not found") else
         ct <- gets connectionType ;;
         if is_type ct "usb" && UsbSerial env then
           (* Put the board in bootloader mode *)
           call (UsbSetDTR (id device) false) ;;
           call (UsbSetRTS (id device) true) ;;
           sleep 250 ;;
           call (UsbSetDTR (id device) true) ;;
           sleep 50 ;;
           call (UsbSetRTS (id device) false) ;;
           (* Read binary file *)
           binary <- FileSystem_readAsStringAsync binaryPath ;;
           (* Upload binary in chunks *)
           upload_chunks binary 128 10 (UsbWriteBase64 (id device)) ;;
           (* Reset the board *)
           call (UsbSetDTR (id device) false) ;;
           sleep 250 ;;
           call (UsbSetDTR (id device) true) ;;
           ret true
         else if is_type ct "ble" && BleManager env then
           (* Read binary file *)
           binary <- FileSystem_readAsStringAsync binaryPath ;;
           (* Upload binary in chunks; BLE has small MTU size *)
           upload_chunks binary 20 50 (BleWriteBase64 (id device) "FFE0" "FFE1") ;;
           ret true
         else if is_type ct "wifi" && EspOta env then
           (* For ESP32/ESP8266 OTA updates *)
           tr <- gets trace ;;
           call (EspUploadBinary (prop (details device) "ip")
                                 (js_or (prop (details device) "port") (VNum 8266))
                                 binaryPath) ;;
           for_of (esp_upload_progress env tr)
                  (fun p => call (ProgressCallback p.1 p.2)) ;;
           ret (esp_upload_result env tr)
         else throw (JsError ("Unsupported connection type: "
                              +:+ match ct with Some t => t | None => "null" end))
     end)
    (fun error => emit (ConsoleError "Error uploading binary:") ;; throw error).

Definition sendData (data : string) : M bool :=
  try_catch
    (connected <- gets connectedDevice ;;
     match connected with
     | None => throw (JsError "No board connected")
     | Some device =>
         ct <- gets connectionType ;;
         if is_type ct "usb" && UsbSerial env then
           call (UsbWrite (id device) data) ;; ret true
         else if is_type ct "ble" && BleManager env then
           call (BleWrite (id device) "FFE0" "FFE1" data) ;; ret true
         else throw (JsError ("Cannot send data over "
                              +:+ match ct with Some t => t | None => "null" end
                              +:+ " connection"))
     end)
    (fun error => emit (ConsoleError "Error sending data:") ;; throw error).

(** *** Serial monitor *)

(** Callbacks are functions compared by identity: the service holds their
    references (numbers here); calling one is a [SerialCallback] event, and
    the outside world says whether it throws. *)
Definition addSerialMonitorCallback (callback : nat) : M unit :=
  modify (fun s => set_callbacks (serialMonitorCallbacks s ++ [callback]) s).

Definition removeSerialMonitorCallback (callback : nat) : M unit :=
  modify (fun s =>
    match list_find (fun c => c = callback) (serialMonitorCallbacks s) with
    | Some (index, _) => set_callbacks (delete index (serialMonitorCallbacks s)) s
    | None => s
    end).

(** The listener both [UsbSerial.setDataListener] and [BleManager.addListener]
    are given: [(data) => this.serialMonitorCallbacks.forEach(callback =>
    callback(data))]. *)
Definition dataListener (data : string) : M unit :=
  callbacks <- gets serialMonitorCallbacks ;;
  for_of callbacks (fun callback => call (SerialCallback callback data)).

(** The driver calls the listener once per chunk, in arrival order; what the
    listener throws goes back to the driver, one outcome per chunk. *)
Fixpoint receive (chunks : list string) (s : State) : list (Result unit) * State :=
  match chunks with
  | [] => ([], s)
  | data :: rest =>
      let (r, s') := dataListener data s in
      let (rs, s'') := receive rest s' in
      (r :: rs, s'')
  end.

(** *** The ESP device registry *)

Definition addEspDevice (device : obj) : M bool :=
  try_catch
    (savedEspDevices <- AsyncStorage_getItem "esp_devices" esp_devices ;;
     let espDevices := default [] savedEspDevices in
     (* Check if device already exists *)
     let espDevices :=
       match list_find (fun d => prop d "ip" = prop device "ip") espDevices with
       | Some (existingIndex, existing) =>
           <[ existingIndex := spread existing device ]> espDevices
       | None => espDevices ++ [device]
       end in
     AsyncStorage_setItem "esp_devices" (set_esp_devices (json_roundtrip <$> espDevices)) ;;
     ret true)
    (fun error => emit (ConsoleError "Error adding ESP device:") ;; throw error).

Definition removeEspDevice (ip : value) : M bool :=
  try_catch
    (savedEspDevices <- AsyncStorage_getItem "esp_devices" esp_devices ;;
     let espDevices := default [] savedEspDevices in
     let filteredDevices := filter (fun d => prop d "ip" <> ip) espDevices in
     AsyncStorage_setItem "esp_devices" (set_esp_devices (json_roundtrip <$> filteredDevices)) ;;
     ret true)
    (fun error => emit (ConsoleError "Error removing ESP device:") ;; throw error).

End Services.

(** ** Observations the properties are stated with *)

(** The persisted registry, as every reader parses it. *)
Definition registry (s : State) : list obj := default [] (esp_devices (storage s)).

Definition ips (l : list obj) : list value := (fun d => prop d "ip") <$> l.

(** What [addEspDevice] computes from the parsed list before it writes. *)
Definition merged (device : obj) (espDevices : list obj) : list obj :=
  match list_find (fun d => prop d "ip" = prop device "ip") espDevices with
  | Some (existingIndex, existing) =>
      <[ existingIndex := spread existing device ]> espDevices
  | None => espDevices ++ [device]
  end.

(** The state after the events [evs] left the service and nothing else
    changed. *)
Definition log_all (evs : list Event) (s : State) : State :=
  mkState (connectedDevice s) (connectionType s) (serialMonitorCallbacks s) (storage s)
          (files s) (directories s) (trace s ++ evs).

(** One chunk handed to the handlers [hs], one after the other. *)
Definition delivered (data : string) (hs : list nat) : list Event :=
  (fun h => SerialCallback h data) <$> hs.

(** Each chunk of [chunks] handed to the handlers it reached, chunk after
    chunk. *)
Definition fanned_out (chunks : list string) (reached : list (list nat)) : list Event :=
  concat (zip_with delivered chunks reached).

(** No handler of [hs] throws when they are handed [data] one after the
    other, the calls recorded so far being [tr]. *)
Definition none_throws (env : Env) (data : string) (tr : list Event) (hs : list nat)
  : Prop :=
  forall before h after,
    hs = before ++ h :: after ->
    rejects env (tr ++ delivered data before) (SerialCallback h data) = false.

(** The peripherals the BLE loop keeps, or what it throws at the first
    peripheral whose name has no [includes]. *)
Fixpoint arduino_like (devices : list obj) : Result (list obj) :=
  match devices with
  | [] => Ok []
  | device :: rest =>
      match likely_arduino device with
      | Throw e => Throw e
      | Ok keep =>
          match arduino_like rest with
          | Throw e => Throw e
          | Ok kept => Ok (if keep then device :: kept else kept)
          end
      end
  end.

(** The message [getAvailableBoards] logs before it rethrows. *)
Definition scan_error : Event := ConsoleError "Error getting available boards:".

(** What each transport contributes to a scan started in state [s]. *)
Definition usb_found (env : Env) (s : State) : list Board :=
  if UsbSerial env then usb_board <$> usb_device_list env (trace s) else [].

Definition ble_found (env : Env) (s : State) : list Board :=
  if BleManager env then
    match arduino_like (ble_peripherals env (trace s)) with
    | Ok kept => ble_board <$> kept
    | Throw _ => []
    end
  else [].

Definition wifi_found (s : State) : list Board := wifi_board <$> registry s.

(** The driver calls that open a connection to [board]: none for WiFi. *)
Definition connect_calls (env : Env) (board : Board) : list Event :=
  if String.eqb (type board) "usb" && UsbSerial env then
    [UsbConnectDevice (id board); UsbOpenDevice (id board) 115200; UsbSetDataListener]
  else if String.eqb (type board) "ble" && BleManager env then
    [BleConnectToDevice (id board); BleStartNotification (id board) "FFE0" "FFE1";
     BleAddListener (id board) "FFE1"]
  else [].

(** The driver calls that close the connection recorded in [s]: none when
    nothing is connected or the connection is WiFi. *)
Definition teardown_calls (env : Env) (s : State) : list Event :=
  match connectedDevice s with
  | None => []
  | Some device =>
      if is_type (connectionType s) "usb" && UsbSerial env then
        [UsbCloseDevice (id device); UsbDisconnectDevice (id device)]
      else if is_type (connectionType s) "ble" && BleManager env then
        [BleDisconnectFromDevice (id device)]
      else []
  end.

(** None of [calls] rejects when they are made one after the other, the
    calls recorded so far being [tr]. *)
Definition none_rejects (env : Env) (tr : list Event) (calls : list Event) : Prop :=
  forall before ev after,
    calls = before ++ ev :: after -> rejects env (tr ++ before) ev = false.

(** The calls that set a connection up. *)
Definition is_connect_call (ev : Event) : bool :=
  match ev with
  | UsbConnectDevice _ | UsbOpenDevice _ _ | UsbSetDataListener
  | BleConnectToDevice _ | BleStartNotification _ _ _ | BleAddListener _ _ => true
  | _ => false
  end.





(** [m], started in [s], lets exactly the events [expected] out of the
    service when it returns and a prefix of them when it throws, and changes
    nothing but the trace. *)
Definition runs_within {A} (m : M A) (s : State) (expected : list Event) : Prop :=
  exists evs,
    (m s).2 = log_all evs s /\
    match (m s).1 with
    | Ok _ => evs = expected
    | Throw _ => evs `prefix_of` expected
    end.

(** The same for a method that logs [err] before it rethrows. *)
Definition runs_logged {A} (m : M A) (s : State) (expected : list Event) (err : Event)
  : Prop :=
  exists evs,
    match (m s).1 with
    | Ok _ => evs = expected /\ (m s).2 = log_all evs s
    | Throw _ => evs `prefix_of` expected /\ (m s).2 = log_all (evs ++ [err]) s
    end.

(** The control-line sequence that puts the board in bootloader mode, and
    the one that resets it after the transfer. *)
Definition bootloader_entry (dev : value) : list Event :=
  [UsbSetDTR dev false; UsbSetRTS dev true; Timeout 250;
   UsbSetDTR dev true; Timeout 50; UsbSetRTS dev false].

Definition board_reset (dev : value) : list Event :=
  [UsbSetDTR dev false; Timeout 250; UsbSetDTR dev true].

Definition total_chunks (binary : string) (chunkSize : Z) : Z :=
  ceil_div (Z.of_nat (String.length binary)) chunkSize.

Definition chunk_at (binary : string) (chunkSize : Z) (i : Z) : string :=
  substring (Z.to_nat (i * chunkSize)) (Z.to_nat chunkSize) binary.

(** What one round of the chunk loop lets out. *)
Definition chunk_events (binary : string) (chunkSize delay : Z)
    (write : string -> Event) (i : Z) : list Event :=
  [write (chunk_at binary chunkSize i);
   ProgressCallback (i + 1) (total_chunks binary chunkSize);
   Timeout delay].

(** What the whole chunk loop lets out. *)
Definition transfer (binary : string) (chunkSize delay : Z)
    (write : string -> Event) : list Event :=
  concat (chunk_events binary chunkSize delay write
            <$> seqZ 0 (total_chunks binary chunkSize)).

(** The Base64 text of the file at [path]. *)
Definition stored_binary (s : State) (path : string) : string :=
  base64_encode (default [] (files s !! path)).

Definition usb_upload_events (dev : value) (path binary : string) : list Event :=
  [FsGetInfo path] ++ bootloader_entry dev ++ [FsReadAsStringBase64 path] ++
  transfer binary 128 10 (UsbWriteBase64 dev) ++ board_reset dev.

Definition ble_upload_events (dev : value) (path binary : string) : list Event :=
  [FsGetInfo path; FsReadAsStringBase64 path] ++
  transfer binary 20 50 (BleWriteBase64 dev "FFE0" "FFE1").

Definition wifi_upload_events (env : Env) (s : State) (device : Board) (path : string)
  : list Event :=
  [FsGetInfo path;
   EspUploadBinary (prop (details device) "ip")
                   (js_or (prop (details device) "port") (VNum 8266)) path] ++
  ((fun p => ProgressCallback p.1 p.2)
     <$> esp_upload_progress env (trace s ++ [FsGetInfo path])).

(** The message [uploadBinary] logs before it rethrows. *)
Definition upload_error : Event := ConsoleError "Error uploading binary:".

(** The chunks written and the progress reported, in order. *)
Definition chunks_written (evs : list Event) : list string :=
  omap (fun ev => match ev with
                  | UsbWriteBase64 _ chunk | BleWriteBase64 _ _ _ chunk => Some chunk
                  | _ => None
                  end) evs.

Definition progress_reported (evs : list Event) : list (Z * Z) :=
  omap (fun ev => match ev with
                  | ProgressCallback num den => Some (num, den)
                  | _ => None
                  end) evs.

Definition is_control_line (ev : Event) : bool :=
  match ev with
  | UsbSetDTR _ _ | UsbSetRTS _ _ => true
  | _ => false
  end.

Definition is_chunk_write (ev : Event) : bool :=
  match ev with
  | UsbWriteBase64 _ _ | BleWriteBase64 _ _ _ _ => true
  | _ => false
  end.


(** The connection recorded in [s] is one [uploadBinary] sends chunks over,
    in chunks of [chunkSize] characters: USB (128) or BLE (20). *)
Definition chunked_connection (env : Env) (s : State) (chunkSize : Z) : Prop :=
  (is_type (connectionType s) "usb" && UsbSerial env = true /\ chunkSize = 128) \/
  (is_type (connectionType s) "usb" && UsbSerial env = false /\
   is_type (connectionType s) "ble" && BleManager env = true /\ chunkSize = 20).

(** The messages [disconnectFromBoard] and [connectToBoard] log before they
    rethrow. *)
Definition disconnect_error : Event := ConsoleError "Error disconnecting from board:".
Definition connect_error : Event := ConsoleError "Error connecting to board:".

(** The persisted list of downloaded binaries, as every reader parses it. *)
Definition binaries (s : State) : list obj := default [] (compiled_binaries (storage s)).

(** The urls downloaded by a sequence of calls, in order. *)
Definition downloads (evs : list Event) : list string :=
  omap (fun ev => match ev with
                  | FsDownload url _ _ => Some url
                  | _ => None
                  end) evs.

(** The message [downloadBinary] logs before it rethrows. *)
Definition download_error : Event := ConsoleError "Download binary error:".

(** What [downloadBinary] calls before it downloads: it reads the token and
    makes sure the binaries directory exists. *)
Definition download_prelude (env : Env) (s : State) : list Event :=
  let binariesDir := documentDirectory env +:+ "binaries" in
  [StorageGetItem "auth_token"; FsGetInfo binariesDir] ++
  (if bool_decide (is_Some (files s !! binariesDir))
      || bool_decide (binariesDir ∈ directories s)
   then [] else [FsMakeDirectory binariesDir]).

(** All the calls of a [downloadBinary] that resolves, started in [s]. *)
Definition download_events (env : Env) (s : State) (compilationId fileName : string)
  : list Event :=
  let binariesDir := documentDirectory env +:+ "binaries" in
  let bearer := bearer_of (auth_token (storage s)) in
  download_prelude env s ++
  [FsDownload (API_BASE_URL env +:+ "/v1/binaries/" +:+ compilationId)
              (binariesDir +:+ "/" +:+ fileName) bearer;
   StorageGetItem "compiled_binaries";
   StorageGetItem "auth_token";
   FetchGet (API_BASE_URL env +:+ "/v1/compile/" +:+ compilationId) bearer;
   StorageSetItem "compiled_binaries"].

(** ** Sample devices and environments *)

(** A world where nothing fails and nothing is plugged in. *)
Definition quiet (os : Platform) : Env :=
  mkEnv os "https://api.simpiler.com" "file:///data/"
        (fun _ _ => false) (fun _ => []) (fun _ => [])
        (fun _ _ => mkResponse true ∅) (fun _ _ => [])
        (fun _ => []) (fun _ => true) (fun _ => "2024-01-01T00:00:00.000Z").

Definition shed_esp : obj :=
  <[ "name" := VStr "Shed ESP" ]>
  (<[ "ip" := VStr "192.168.1.50" ]> (<[ "port" := VNum 8266 ]> ∅)).

Definition shed_esp_renamed : obj :=
  <[ "name" := VStr "Greenhouse" ]> (<[ "ip" := VStr "192.168.1.50" ]> ∅).

(** A fresh service on a device where [shed_esp] was registered before. *)
Definition shed_registered : State :=
  set_storage (mkStorage None (Some [shed_esp]) None) initial.

(** A world in which the serial-monitor callback [bad] throws on every chunk
    and nothing else fails. *)
Definition throwing_handler (bad : nat) : Env :=
  mkEnv android "https://api.simpiler.com" "file:///data/"
        (fun _ ev => match ev with
                     | SerialCallback h _ => bool_decide (h = bad)
                     | _ => false
                     end)
        (fun _ => []) (fun _ => [])
        (fun _ _ => mkResponse true ∅) (fun _ _ => [])
        (fun _ => []) (fun _ => true) (fun _ => "2024-01-01T00:00:00.000Z").

(** A fresh service with the callbacks [hs] subscribed, in that order. *)
Definition subscribed (hs : list nat) : State := set_callbacks hs initial.

(** An Android phone whose USB host refuses to enumerate; nothing else
    fails. *)
Definition usb_unavailable : Env :=
  mkEnv android "https://api.simpiler.com" "file:///data/"
        (fun _ ev => bool_decide (ev = UsbGetDeviceList))
        (fun _ => []) (fun _ => [])
        (fun _ _ => mkResponse true ∅) (fun _ _ => [])
        (fun _ => []) (fun _ => true) (fun _ => "2024-01-01T00:00:00.000Z").

Definition nano_ble : obj :=
  <[ "id" := VStr "4C:11:AE:0D:22:7A" ]> (<[ "name" := VStr "Arduino Nano 33 BLE" ]> ∅).

(** An iPhone whose BLE scan reports the same peripheral twice (it was seen
    in two advertisements); nothing fails. *)
Definition ble_seen_twice : Env :=
  mkEnv ios "https://api.simpiler.com" "file:///data/"
        (fun _ _ => false)
        (fun _ => []) (fun _ => [nano_ble; nano_ble])
        (fun _ _ => mkResponse true ∅) (fun _ _ => [])
        (fun _ => []) (fun _ => true) (fun _ => "2024-01-01T00:00:00.000Z").

Definition uno_usb : Board :=
  mkBoard (VNum 1002) (VStr "Arduino Uno") "usb"
          (<[ "deviceId" := VNum 1002 ]> (<[ "productName" := VStr "Arduino Uno" ]> ∅)).

Definition mega_usb : Board :=
  mkBoard (VNum 1003) (VStr "Arduino Mega") "usb"
          (<[ "deviceId" := VNum 1003 ]> (<[ "productName" := VStr "Arduino Mega" ]> ∅)).

Definition shed_wifi : Board := wifi_board shed_esp.

Definition nano_ble_board : Board := ble_board nano_ble.

(** A compiled binary of [n] bytes. *)
Definition payload (n : nat) : list Byte.byte := repeat Byte.x55 n.

Definition with_file (path : string) (bytes : list Byte.byte) (s : State) : State :=
  set_files (<[ path := bytes ]> (files s)) s.

(** An Android phone connected to the Uno over USB, holding a 5-byte
    binary. *)
Definition usb_ready : State :=
  with_file "fw.bin" (payload 5) (connectToBoard (quiet android) uno_usb initial).2.

(** An iPhone connected to the Nano over BLE, holding an [n]-byte binary. *)
Definition ble_ready (n : nat) : State :=
  with_file "fw.bin" (payload n) (connectToBoard (quiet ios) nano_ble_board initial).2.

(** An Android phone whose USB driver fails to close a device; nothing else
    fails. *)
Definition usb_close_fails : Env :=
  mkEnv android "https://api.simpiler.com" "file:///data/"
        (fun _ ev => match ev with UsbCloseDevice _ => true | _ => false end)
        (fun _ => []) (fun _ => [])
        (fun _ _ => mkResponse true ∅) (fun _ _ => [])
        (fun _ => []) (fun _ => true) (fun _ => "2024-01-01T00:00:00.000Z").


(** A server that answers every status request with an Uno compilation. *)
Definition uno_server : Env :=
  mkEnv android "https://api.simpiler.com" "file:///data/"
        (fun _ _ => false) (fun _ => []) (fun _ => [])
        (fun _ _ => mkResponse true (<[ "board_type" := VStr "arduino:avr:uno" ]> ∅))
        (fun _ _ => payload 5)
        (fun _ => []) (fun _ => true) (fun _ => "2024-01-01T00:00:00.000Z").

(** * The rest of the services and their callers *)

(** ** What a method may change *)

(** [m] changes nothing but the trace, whatever it returns or throws. *)
Definition only_logs {A} (m : M A) : Prop :=
  forall s, exists evs, (m s).2 = log_all evs s.

(** Whatever [m] throws satisfies [P]. *)
Definition throws_only {A} (P : exn -> Prop) (m : M A) : Prop :=
  forall s e s', m s = (Throw e, s') -> P e.

(** [m] leaves the connection fields and the subscriptions alone. *)
Definition keeps_service {A} (m : M A) : Prop :=
  forall s,
    connectedDevice (m s).2 = connectedDevice s /\
    connectionType (m s).2 = connectionType s /\
    serialMonitorCallbacks (m s).2 = serialMonitorCallbacks s.

(** The drivers the platform has loaded can serve a connection of type [ct]. *)
Definition has_driver (env : Env) (ct : string) : bool :=
  String.eqb ct "usb" && UsbSerial env
  || String.eqb ct "ble" && BleManager env
  || String.eqb ct "wifi" && EspOta env.

(** The two connection fields agree: both null, or a board together with its
    own type, one that the platform has a driver for. *)
Definition connection_consistent (env : Env) (s : State) : Prop :=
  match connectedDevice s, connectionType s with
  | None, None => True
  | Some board, Some t => t = type board /\ has_driver env t = true
  | _, _ => False
  end.

(** What [uploadBinary] and [sendData] throw themselves, apart from what an
    outside call rejected with. *)
Definition no_board_connected : exn := JsError "No board connected".
Definition binary_file_not_found : exn := JsError "Binary file not found".
Definition send_error : Event := ConsoleError "Error sending data:".

(** ** The remaining requests of CompilationService *)

Section MoreServices.

Context (env : Env).

Definition getBoardDetails (boardId : string) : M obj :=
  try_catch
    (token <- AsyncStorage_getItem env "auth_token" auth_token ;;
     let url := API_BASE_URL env +:+ "/v1/boards/" +:+ boardId in
     tr <- gets trace ;;
     call env (FetchGet url (bearer_of token)) ;;
     let response := http_response env tr url in
     if negb (ok response) then
       let errorData := body response in
       throw (JsError (to_string (js_or (prop errorData "message")
                                        (VStr "Failed to get board details"))))
     else ret (body response))
    (fun error => emit (ConsoleError "Get board details error:") ;; throw error).

End MoreServices.

(** ** The callers in EditorScreen *)

(** A JavaScript string as the regular expression sees it: its UTF-16 code
    units, one number below 65536 each. *)
Definition code_units : Type := list N.

(** [u] is the code unit of a letter or a digit: the class [[a-zA-Z0-9]]. *)
Definition is_alphanumeric (u : N) : bool :=
  ((48 <=? u) && (u <=? 57) || (65 <=? u) && (u <=? 90) || (97 <=? u) && (u <=? 122))%N.

(** [name.replace(/[^a-zA-Z0-9]/g, '_')]: every code unit that is not a
    letter or a digit becomes an underscore.  The result holds letters, digits
    and underscores only, so it is given as a string of the model. *)
Fixpoint replace_non_alphanumeric (name : code_units) : string :=
  match name with
  | [] => EmptyString
  | u :: rest =>
      String (if is_alphanumeric u then ascii_of_N u else "_"%char)
             (replace_non_alphanumeric rest)
  end.

(** [`${project.name.replace(/[^a-zA-Z0-9]/g, '_')}.bin`], the file name the
    compile handler downloads a binary under. *)
Definition binary_file_name (projectName : code_units) : string :=
  replace_non_alphanumeric projectName +:+ ".bin".

(** The code units of a string of the model. *)
Definition code_units_of (text : string) : code_units :=
  N_of_ascii <$> list_ascii_of_string text.

(** [binaries.find(b => b.id === compilationId)], the lookup the upload
    handler makes before it calls [uploadBinary(binary.uri, ...)]. *)
Definition find_binary (compilationId : string) (binaries : list obj) : option obj :=
  snd <$> list_find (fun b => prop b "id" = VStr compilationId) binaries.

(** ** Sequences of calls *)

(** One awaited call to a method of the two services, or one chunk arriving
    from the driver. *)
Inductive Operation : Type :=
| DoScan
| DoConnect (board : Board)
| DoDisconnect
| DoUpload (binaryPath : string)
| DoSend (data : string)
| DoSubscribe (callback : nat)
| DoUnsubscribe (callback : nat)
| DoReceive (data : string)
| DoAddEsp (device : obj)
| DoRemoveEsp (ip : value)
| DoDownload (compilationId fileName : string)
| DoStatus (compilationId : string).

(** The state an operation leaves, whether it returned or threw. *)
Definition perform (env : Env) (op : Operation) (s : State) : State :=
  match op with
  | DoScan => (getAvailableBoards env s).2
  | DoConnect board => (connectToBoard env board s).2
  | DoDisconnect => (disconnectFromBoard env s).2
  | DoUpload binaryPath => (uploadBinary env binaryPath s).2
  | DoSend data => (sendData env data s).2
  | DoSubscribe callback => (addSerialMonitorCallback callback s).2
  | DoUnsubscribe callback => (removeSerialMonitorCallback callback s).2
  | DoReceive data => (dataListener env data s).2
  | DoAddEsp device => (addEspDevice env device s).2
  | DoRemoveEsp ip => (removeEspDevice env ip s).2
  | DoDownload compilationId fileName => (downloadBinary env compilationId fileName s).2
  | DoStatus compilationId => (getCompilationStatus env compilationId s).2
  end.

Definition perform_all (env : Env) (ops : list Operation) (s : State) : State :=
  foldl (fun s op => perform env op s) s ops.

(** [s'] differs from [s] by calls made and nothing else. *)
Definition unchanged_but_trace (s s' : State) : Prop :=
  connectedDevice s' = connectedDevice s /\
  connectionType s' = connectionType s /\
  serialMonitorCallbacks s' = serialMonitorCallbacks s /\
  storage s' = storage s /\
  files s' = files s /\
  directories s' = directories s /\
  trace s `prefix_of` trace s'.

(** [e] is the rejection of an outside call, rethrown as it came. *)
Definition is_rejection (e : exn) : Prop := exists ev, e = Rejected ev.

(** ** More sample devices *)

Definition barn_esp : obj :=
  <[ "name" := VStr "Barn ESP" ]> (<[ "ip" := VStr "192.168.1.51" ]> ∅).

(** A fresh service on a device where [shed_esp] and [barn_esp] were
    registered before. *)
Definition two_registered : State :=
  set_storage (mkStorage None (Some [shed_esp; barn_esp]) None) initial.

(** ** What a failing method leaves behind *)

(** [m] leaves the observation [f] of the state as it was, whether it
    returns or throws. *)
Definition preserves {A B} (f : State -> B) (m : M A) : Prop :=
  forall s, f (m s).2 = f s.

(** [m] leaves [f] as it was whenever it throws. *)
Definition preserved_on_throw {A B} (f : State -> B) (m : M A) : Prop :=
  forall s e s', m s = (Throw e, s') -> f s' = f s.

(** No outside call ever rejects. *)
Definition never_rejects (env : Env) : Prop := forall tr ev, rejects env tr ev = false.

(** A server that serves binaries but answers every status request with an
    error; nothing rejects. *)
Definition status_refused : Env :=
  mkEnv android "https://api.simpiler.com" "file:///data/"
        (fun _ _ => false) (fun _ => []) (fun _ => [])
        (fun _ _ => mkResponse false (<[ "message" := VStr "Compilation not found" ]> ∅))
        (fun _ _ => payload 5)
        (fun _ => []) (fun _ => true) (fun _ => "2024-01-01T00:00:00.000Z").

(** ** Which operation may change what *)

(** The token [AsyncStorage] holds for the server. *)
Definition token (s : State) : option string := auth_token (storage s).

Definition changes_subscriptions (op : Operation) : bool :=
  match op with DoSubscribe _ | DoUnsubscribe _ => true | _ => false end.

Definition changes_connection (op : Operation) : bool :=
  match op with DoConnect _ | DoDisconnect => true | _ => false end.

Definition changes_registry (op : Operation) : bool :=
  match op with DoAddEsp _ | DoRemoveEsp _ => true | _ => false end.

Definition changes_binaries (op : Operation) : bool :=
  match op with DoDownload _ _ => true | _ => false end.
(** * Properties *)

(** ** Objects *)

Lemma prop_json_roundtrip (o : obj) (k : string) : prop (json_roundtrip o) k = prop o k.
Proof.
  unfold prop, json_roundtrip. rewrite map_lookup_filter.
  destruct (o !! k) as [v|] eqn:Hk; simpl; [|done].
  case_guard as Hv; simpl in *; [done|]. by subst.
Qed.

Lemma prop_spread_r (a b : obj) (k : string) :
  prop a k = prop b k -> prop (spread a b) k = prop b k.
Proof.
  unfold prop, spread. rewrite lookup_union.
  destruct (b !! k), (a !! k); simpl; congruence.
Qed.

(** ** Traces *)

Lemma log_all_nil (s : State) : log_all [] s = s.
Proof. destruct s. unfold log_all. simpl. by rewrite app_nil_r. Qed.

Lemma log_log_all (ev : Event) (evs : list Event) (s : State) :
  log_all evs (log ev s) = log_all (ev :: evs) s.
Proof. unfold log_all, log. simpl. by rewrite <- app_assoc. Qed.

Lemma log_all_app (a b : list Event) (s : State) :
  log_all b (log_all a s) = log_all (a ++ b) s.
Proof. unfold log_all. simpl. by rewrite <- app_assoc. Qed.

Lemma prefix_before_event (p pre rest before after : list Event) (w : Event) :
  p `prefix_of` pre ++ rest ->
  p = before ++ w :: after ->
  w ∉ pre ->
  pre `prefix_of` before.
Proof.
  intros [k Hk] -> Hw. revert before Hk. induction pre as [|x pre IH]; intros before Hk.
  - apply prefix_nil.
  - destruct before as [|b before]; simpl in Hk; injection Hk as <- Hk.
    + exfalso. apply Hw. by left.
    + apply prefix_cons, IH; [|done]. intros Hin. apply Hw. by right.
Qed.

Lemma Forall_prefix {A} (P : A -> Prop) (p l : list A) :
  p `prefix_of` l -> Forall P l -> Forall P p.
Proof. intros [k ->] H. by apply Forall_app in H as [H _]. Qed.

(** Closes a goal that equates two outcomes differing only in how the same
    trace is bracketed. *)
Ltac settle :=
  cbv [emit modify throw bind ret gets sleep log_all log set_connection scan_error
       disconnect_error connect_error upload_error];
  simpl; rewrite <- ?app_assoc; simpl; reflexivity.

(** ** The ESP device registry *)

Lemma registry_written (l : list obj) (st : Storage) (s : State) :
  registry (set_storage (set_esp_devices l st) s) = l.
Proof. reflexivity. Qed.

Lemma ips_json_roundtrip (l : list obj) : ips (json_roundtrip <$> l) = ips l.
Proof.
  unfold ips. rewrite <- list_fmap_compose. apply list_fmap_ext.
  intros _ d _. apply prop_json_roundtrip.
Qed.

Section Registry.

Context (env : Env).

Lemma merged_NoDup (device : obj) (l : list obj) :
  NoDup (ips l) -> NoDup (ips (merged device l)).
Proof.
  intros Hnd. unfold merged.
  destruct (list_find _ l) as [[i d]|] eqn:Hf.
  - apply list_find_Some in Hf as (Hi & Hip & _).
    unfold ips. rewrite list_fmap_insert.
    rewrite list_insert_id; [done|].
    rewrite list_lookup_fmap, Hi. simpl. f_equal.
    by rewrite prop_spread_r.
  - apply list_find_None in Hf.
    unfold ips. rewrite fmap_app. simpl.
    apply NoDup_app. split; [done|]. split; [|apply NoDup_singleton].
    intros v Hv Hin. apply list_elem_of_singleton in Hin. subst v.
    apply list_elem_of_fmap in Hv as (d & Heq & Hd).
    rewrite Forall_forall in Hf. apply (Hf d Hd). done.
Qed.

Lemma filtered_NoDup (ip : value) (l : list obj) :
  NoDup (ips l) -> NoDup (ips (filter (fun d => prop d "ip" <> ip) l)).
Proof.
  intros Hnd. eapply sublist_NoDup; [exact Hnd|].
  unfold ips. apply fmap_sublist, sublist_filter.
Qed.

Lemma filtered_not_elem (ip : value) (l : list obj) :
  ip ∉ ips (filter (fun d => prop d "ip" <> ip) l).
Proof.
  intros Hin. apply list_elem_of_fmap in Hin as (d & Heq & Hd).
  apply list_elem_of_filter in Hd as [Hne _]. by apply Hne.
Qed.

(** How [addEspDevice] runs: it reads, then writes, and each of the two
    storage calls may reject. *)
Lemma addEspDevice_run (device : obj) (s : State) :
  let s1 := log (StorageGetItem "esp_devices") s in
  let s2 := log (StorageSetItem "esp_devices") s1 in
  addEspDevice env device s =
    if rejects env (trace s) (StorageGetItem "esp_devices") then
      (Throw (Rejected (StorageGetItem "esp_devices")),
       log (ConsoleError "Error adding ESP device:") s1)
    else if rejects env (trace s1) (StorageSetItem "esp_devices") then
      (Throw (Rejected (StorageSetItem "esp_devices")),
       log (ConsoleError "Error adding ESP device:") s2)
    else
      (Ok true,
       set_storage (set_esp_devices (json_roundtrip <$> merged device (registry s))
                                    (storage s)) s2).
Proof.
  cbv [addEspDevice try_catch bind AsyncStorage_getItem AsyncStorage_setItem
       call gets modify ret emit throw]. simpl.
  destruct (rejects env (trace s) _); [done|]. simpl.
  destruct (rejects env (trace s ++ _) _); done.
Qed.

Lemma removeEspDevice_run (ip : value) (s : State) :
  let s1 := log (StorageGetItem "esp_devices") s in
  let s2 := log (StorageSetItem "esp_devices") s1 in
  removeEspDevice env ip s =
    if rejects env (trace s) (StorageGetItem "esp_devices") then
      (Throw (Rejected (StorageGetItem "esp_devices")),
       log (ConsoleError "Error removing ESP device:") s1)
    else if rejects env (trace s1) (StorageSetItem "esp_devices") then
      (Throw (Rejected (StorageSetItem "esp_devices")),
       log (ConsoleError "Error removing ESP device:") s2)
    else
      (Ok true,
       set_storage (set_esp_devices
                      (json_roundtrip <$> filter (fun d => prop d "ip" <> ip) (registry s))
                      (storage s)) s2).
Proof.
  cbv [removeEspDevice try_catch bind AsyncStorage_getItem AsyncStorage_setItem
       call gets modify ret emit throw]. simpl.
  destruct (rejects env (trace s) _); [done|]. simpl.
  destruct (rejects env (trace s ++ _) _); done.
Qed.

End Registry.

(** C9: the persisted ESP registry is keyed by ip.  From a registry without
    duplicate ips, [addEspDevice] resolves exactly when neither storage call
    rejects, and then a device whose ip is already present has been merged
    into that entry in place (same length, same position) and a device with a
    fresh ip has been appended as one new entry; [removeEspDevice] resolves
    under the same condition and then leaves no entry with the given ip.
    When a storage call rejects, the method throws that rejection and the
    registry is as it was.  In every case the registry afterwards has no two
    entries with the same ip. *)
Theorem esp_registry_keyed_by_ip (env : Env) (s : State) :
  NoDup (ips (registry s)) ->
  let get := StorageGetItem "esp_devices" in
  let set := StorageSetItem "esp_devices" in
  (forall device : obj,
     let r := (addEspDevice env device s).1 in
     let s' := (addEspDevice env device s).2 in
     NoDup (ips (registry s')) /\
     if rejects env (trace s) get then
       r = Throw (Rejected get) /\ registry s' = registry s
     else if rejects env (trace s ++ [get]) set then
       r = Throw (Rejected set) /\ registry s' = registry s
     else
       r = Ok true /\
       match list_find (fun d => prop d "ip" = prop device "ip") (registry s) with
       | Some (i, existing) =>
           registry s' = <[ i := json_roundtrip (spread existing device) ]>
                           (json_roundtrip <$> registry s) /\
           length (registry s') = length (registry s)
       | None =>
           registry s' = (json_roundtrip <$> registry s) ++ [json_roundtrip device] /\
           length (registry s') = S (length (registry s))
       end) /\
  (forall ip : value,
     let r := (removeEspDevice env ip s).1 in
     let s' := (removeEspDevice env ip s).2 in
     NoDup (ips (registry s')) /\
     if rejects env (trace s) get then
       r = Throw (Rejected get) /\ registry s' = registry s
     else if rejects env (trace s ++ [get]) set then
       r = Throw (Rejected set) /\ registry s' = registry s
     else
       r = Ok true /\ (ip ∉ ips (registry s')) /\
       registry s' =
         json_roundtrip <$> filter (fun d => prop d "ip" <> ip) (registry s)).
Proof.
  intros Hnd get set. split.
  - intros device. cbv zeta. rewrite addEspDevice_run. cbv zeta. subst get set.
    change (trace (log (StorageGetItem "esp_devices") s))
      with (trace s ++ [StorageGetItem "esp_devices"]).
    destruct (rejects env (trace s) _); [by split|].
    destruct (rejects env (trace s ++ _) _); [by split|].
    cbn [fst snd]. rewrite registry_written. split.
    + rewrite ips_json_roundtrip. by apply merged_NoDup.
    + split; [done|]. unfold merged.
      destruct (list_find _ (registry s)) as [[i d]|].
      * rewrite list_fmap_insert, length_insert, length_fmap. done.
      * rewrite fmap_app, length_app, length_fmap. simpl. split; [done|lia].
  - intros ip. cbv zeta. rewrite removeEspDevice_run. cbv zeta. subst get set.
    change (trace (log (StorageGetItem "esp_devices") s))
      with (trace s ++ [StorageGetItem "esp_devices"]).
    destruct (rejects env (trace s) _); [by split|].
    destruct (rejects env (trace s ++ _) _); [by split|].
    cbn [fst snd]. rewrite registry_written, ips_json_roundtrip.
    split; [by apply filtered_NoDup|].
    split; [done|]. split; [apply filtered_not_elem|done].
Qed.

Lemma esp_registry_keyed_by_ip_witness :
  NoDup (ips (registry shed_registered)) /\
  (addEspDevice (quiet android) shed_esp_renamed shed_registered).1 = Ok true /\
  registry (addEspDevice (quiet android) shed_esp_renamed shed_registered).2 =
    [<[ "name" := VStr "Greenhouse" ]> shed_esp] /\
  (addEspDevice (quiet android) barn_esp shed_registered).1 = Ok true /\
  registry (addEspDevice (quiet android) barn_esp shed_registered).2 =
    [shed_esp; barn_esp] /\
  (removeEspDevice (quiet android) (VStr "192.168.1.50") two_registered).1 = Ok true /\
  registry (removeEspDevice (quiet android) (VStr "192.168.1.50") two_registered).2 =
    [barn_esp].
Proof.
  assert (Hnd : NoDup (ips (registry shed_registered))).
  { vm_compute. apply NoDup_singleton. }
  assert (Hnd2 : NoDup (ips (registry two_registered))).
  { vm_compute. apply (bool_decide_unpack _). vm_compute. exact I. }
  split; [exact Hnd|].
  destruct (esp_registry_keyed_by_ip (quiet android) shed_registered Hnd) as [Hadd _].
  destruct (esp_registry_keyed_by_ip (quiet android) two_registered Hnd2) as [_ Hrem].
  destruct (Hadd shed_esp_renamed) as [_ Hmerge].
  destruct (Hadd barn_esp) as [_ Happend].
  destruct (Hrem (VStr "192.168.1.50")) as [_ Hgone].
  change (rejects (quiet android) _ _) with false in Hmerge, Happend, Hgone.
  cbv iota in Hmerge, Happend, Hgone.
  destruct Hmerge as [Hr1 Hm]. destruct Happend as [Hr2 Ha].
  destruct Hgone as (Hr3 & _ & Hg).
  split; [exact Hr1|]. split.
  { assert (Hf : list_find (fun d => prop d "ip" = prop shed_esp_renamed "ip")
                   (registry shed_registered) = Some (0%nat, shed_esp))
      by (vm_compute; reflexivity).
    rewrite Hf in Hm. destruct Hm as [-> _]. vm_compute. reflexivity. }
  split; [exact Hr2|]. split.
  { assert (Hf : list_find (fun d => prop d "ip" = prop barn_esp "ip")
                   (registry shed_registered) = None)
      by (vm_compute; reflexivity).
    rewrite Hf in Ha. destruct Ha as [-> _]. vm_compute. reflexivity. }
  split; [exact Hr3|]. rewrite Hg. vm_compute. reflexivity.
Defined.

(** ** Serial fan-out *)

Section Fanout.

Context (env : Env) (data : string).

(** The [forEach] of the listener: the handlers are called in order, and the
    first one that throws ends the loop with its exception. *)
Lemma forEach_callbacks (hs : list nat) (s s' : State) (r : Result unit) :
  for_of hs (fun h => call env (SerialCallback h data)) s = (r, s') ->
  exists reached rest : list nat,
    hs = reached ++ rest /\
    s' = log_all (delivered data reached) s /\
    ((r = Ok tt /\ rest = [] /\
      forall before h after, hs = before ++ h :: after ->
        rejects env (trace s ++ delivered data before) (SerialCallback h data) = false) \/
     (exists before h,
        reached = before ++ [h] /\
        r = Throw (Rejected (SerialCallback h data)) /\
        rejects env (trace s ++ delivered data before) (SerialCallback h data) = true)).
Proof.
  revert s r s'. induction hs as [|h hs IH]; intros s r s' Hrun; simpl in Hrun.
  - injection Hrun as <- <-. exists [], []. rewrite log_all_nil.
    split; [done|]. split; [done|]. left.
    split; [done|]. split; [done|]. intros [|??] ?? Heq; discriminate Heq.
  - unfold bind at 1, call at 1 in Hrun.
    destruct (rejects env (trace s) (SerialCallback h data)) eqn:Hrej.
    + injection Hrun as <- <-.
      exists [h], hs. split; [done|]. split; [done|]. right.
      exists [], h. simpl. by rewrite app_nil_r.
    + apply IH in Hrun as (reached & rest & Hhs & Hs' & Hcases).
      exists (h :: reached), rest. split; [by rewrite Hhs|].
      split; [by rewrite Hs', log_log_all|].
      destruct Hcases as [(Hr & Hrest & Hall)|(before & h' & Hreached & Hr & Hrej')].
      * left. split; [done|]. split; [done|].
        intros [|b before] h' after Heq; injection Heq as -> Heq.
        { by rewrite app_nil_r. }
        specialize (Hall before h' after Heq). simpl in Hall.
        by rewrite <- app_assoc in Hall.
      * right. exists (h :: before), h'. split; [by rewrite Hreached|].
        split; [done|]. simpl in Hrej'. by rewrite <- app_assoc in Hrej'.
Qed.

Lemma dataListener_run (s : State) :
  dataListener env data s =
  for_of (serialMonitorCallbacks s) (fun h => call env (SerialCallback h data)) s.
Proof. reflexivity. Qed.

End Fanout.

Section Stream.

Context (env : Env).

(** A run of chunks: each chunk reaches a prefix of the subscribed handlers,
    and the chunks are handled one after the other. *)
Lemma receive_prefixes (chunks : list string) (s s' : State) (rs : list (Result unit)) :
  receive env chunks s = (rs, s') ->
  exists reached : list (list nat),
    length reached = length chunks /\
    Forall (fun hs => hs `prefix_of` serialMonitorCallbacks s) reached /\
    s' = log_all (fanned_out chunks reached) s.
Proof.
  revert s rs s'. induction chunks as [|data chunks IH]; intros s rs s' Hrun.
  - injection Hrun as <- <-. exists []. by rewrite log_all_nil.
  - simpl in Hrun.
    destruct (dataListener env data s) as [r s1] eqn:Hone.
    destruct (receive env chunks s1) as [rs' s2] eqn:Hrest.
    injection Hrun as <- <-.
    rewrite dataListener_run in Hone.
    apply forEach_callbacks in Hone as (hs & rest & Hhs & -> & _).
    apply IH in Hrest as (reached & Hlen & Hpre & ->).
    exists (hs :: reached). split; [simpl; by rewrite Hlen|].
    split; [|by rewrite log_all_app].
    constructor; [by exists rest|exact Hpre].
Qed.

(** When no handler throws, every chunk reaches every subscribed handler. *)
Lemma receive_all (chunks : list string) (s : State) :
  (forall tr h data, data ∈ chunks -> rejects env tr (SerialCallback h data) = false) ->
  receive env chunks s =
    (replicate (length chunks) (Ok tt),
     log_all (fanned_out chunks
                (replicate (length chunks) (serialMonitorCallbacks s))) s).
Proof.
  revert s. induction chunks as [|data chunks IH]; intros s Hok.
  - simpl. by rewrite log_all_nil.
  - simpl.
    destruct (dataListener env data s) as [r s1] eqn:Hone.
    rewrite dataListener_run in Hone.
    apply forEach_callbacks in Hone as (hs & rest & Hhs & -> & Hcases).
    destruct Hcases as [(-> & -> & _)|(before & h & _ & _ & Hrej)].
    + rewrite app_nil_r in Hhs. subst hs.
      rewrite IH; [|intros; apply Hok; by right].
      by rewrite log_all_app.
    + rewrite Hok in Hrej; [discriminate Hrej|by left].
Qed.

End Stream.

Section FirstThrow.

Context (env : Env) (data : string).

Lemma delivered_cons (tr : list Event) (h : nat) (hs : list nat) :
  tr ++ delivered data (h :: hs) = (tr ++ [SerialCallback h data]) ++ delivered data hs.
Proof. by rewrite <- app_assoc. Qed.

Lemma none_throws_tail (tr : list Event) (h : nat) (hs : list nat) :
  none_throws env data tr (h :: hs) ->
  none_throws env data (tr ++ [SerialCallback h data]) hs.
Proof.
  intros Hall before h' after Heq. rewrite <- delivered_cons.
  apply (Hall (h :: before) h' after). by rewrite Heq.
Qed.

Lemma forEach_all_handled (hs : list nat) (s : State) :
  none_throws env data (trace s) hs ->
  for_of hs (fun h => call env (SerialCallback h data)) s =
    (Ok tt, log_all (delivered data hs) s).
Proof.
  revert s. induction hs as [|h hs IH]; intros s Hall.
  - simpl. by rewrite log_all_nil.
  - cbn [for_of]. unfold bind at 1, call at 1.
    pose proof (Hall [] h hs eq_refl) as Hh. simpl in Hh. rewrite app_nil_r in Hh.
    rewrite Hh. rewrite IH by (by apply none_throws_tail).
    by rewrite log_log_all.
Qed.

Lemma forEach_first_throw (before : list nat) (h : nat) (after : list nat) (s : State) :
  none_throws env data (trace s) before ->
  rejects env (trace s ++ delivered data before) (SerialCallback h data) = true ->
  for_of (before ++ h :: after) (fun h => call env (SerialCallback h data)) s =
    (Throw (Rejected (SerialCallback h data)),
     log_all (delivered data (before ++ [h])) s).
Proof.
  revert s. induction before as [|b before IH]; intros s Hall Hrej.
  - simpl in *. rewrite app_nil_r in Hrej. unfold bind at 1, call at 1. by rewrite Hrej.
  - cbn [app for_of]. unfold bind at 1, call at 1.
    pose proof (Hall [] b before eq_refl) as Hb. simpl in Hb. rewrite app_nil_r in Hb.
    rewrite Hb. rewrite IH.
    + by rewrite log_log_all.
    + by apply none_throws_tail.
    + change (trace (log (SerialCallback b data) s))
        with (trace s ++ [SerialCallback b data]).
      by rewrite <- delivered_cons.
Qed.

(** Either no handler throws, or there is a first one that does. *)
Lemma first_throw_or_none (tr : list Event) (hs : list nat) :
  none_throws env data tr hs \/
  exists before h after,
    hs = before ++ h :: after /\ none_throws env data tr before /\
    rejects env (tr ++ delivered data before) (SerialCallback h data) = true.
Proof.
  revert tr. induction hs as [|h hs IH]; intros tr.
  - left. intros [|??] ?? Heq; discriminate Heq.
  - destruct (rejects env tr (SerialCallback h data)) eqn:Hh.
    + right. exists [], h, hs. split; [done|]. split.
      * intros [|??] ?? Heq; discriminate Heq.
      * simpl. by rewrite app_nil_r.
    + destruct (IH (tr ++ [SerialCallback h data]))
        as [Hall|(before & h' & after & -> & Hall & Hrej)].
      * left. intros [|b before] h' after Heq; injection Heq as <- Heq.
        { simpl. by rewrite app_nil_r. }
        rewrite delivered_cons. by apply (Hall before h' after).
      * right. exists (h :: before), h', after. split; [done|]. split.
        -- intros [|b before'] h'' after' Heq; injection Heq as <- Heq.
           { simpl. by rewrite app_nil_r. }
           rewrite delivered_cons. by apply (Hall before' h'' after').
        -- by rewrite delivered_cons.
Qed.

End FirstThrow.

(** C1 (as the code has it): the listener hands an inbound chunk to the
    subscribed handlers in subscription order until one of them throws.  When
    no handler throws, the chunk reaches every subscribed handler and the
    listener returns.  When some handler throws, the chunk reaches every
    handler up to and including the first that throws and none after it, and
    that exception leaves the listener; one of the two is always the case.
    Chunks are handled in arrival order, each reaching a prefix of the
    subscribed handlers; when no handler ever throws, every chunk reaches
    every subscribed handler. *)
Theorem fanout_until_first_throw (env : Env) (s : State) :
  (forall data,
     none_throws env data (trace s) (serialMonitorCallbacks s) ->
     dataListener env data s =
       (Ok tt, log_all (delivered data (serialMonitorCallbacks s)) s)) /\
  (forall data before h after,
     serialMonitorCallbacks s = before ++ h :: after ->
     none_throws env data (trace s) before ->
     rejects env (trace s ++ delivered data before) (SerialCallback h data) = true ->
     dataListener env data s =
       (Throw (Rejected (SerialCallback h data)),
        log_all (delivered data (before ++ [h])) s)) /\
  (forall data,
     none_throws env data (trace s) (serialMonitorCallbacks s) \/
     exists before h after,
       serialMonitorCallbacks s = before ++ h :: after /\
       none_throws env data (trace s) before /\
       rejects env (trace s ++ delivered data before) (SerialCallback h data) = true) /\
  (forall (chunks : list string) (rs : list (Result unit)) (s' : State),
     receive env chunks s = (rs, s') ->
     exists reached : list (list nat),
       length reached = length chunks /\
       Forall (fun hs => hs `prefix_of` serialMonitorCallbacks s) reached /\
       s' = log_all (fanned_out chunks reached) s) /\
  (forall chunks : list string,
     (forall tr h data, data ∈ chunks -> rejects env tr (SerialCallback h data) = false) ->
     receive env chunks s =
       (replicate (length chunks) (Ok tt),
        log_all (fanned_out chunks
                   (replicate (length chunks) (serialMonitorCallbacks s))) s)).
Proof.
  split; [|split; [|split; [|split]]].
  - intros data Hall. rewrite dataListener_run. by apply forEach_all_handled.
  - intros data before h after Hcbs Hall Hrej. rewrite dataListener_run, Hcbs.
    by apply forEach_first_throw.
  - intros data. apply first_throw_or_none.
  - intros chunks rs s'. apply receive_prefixes.
  - intros chunks. apply receive_all.
Qed.

Lemma fanout_until_first_throw_witness :
  dataListener (throwing_handler 2) "x" (subscribed [1; 2; 3]%nat) =
    (Throw (Rejected (SerialCallback 2 "x")),
     log_all [SerialCallback 1 "x"; SerialCallback 2 "x"] (subscribed [1; 2; 3]%nat)) /\
  dataListener (throwing_handler 7) "x" (subscribed [1; 2; 3]%nat) =
    (Ok tt,
     log_all [SerialCallback 1 "x"; SerialCallback 2 "x"; SerialCallback 3 "x"]
       (subscribed [1; 2; 3]%nat)).
Proof.
  destruct (fanout_until_first_throw (throwing_handler 2) (subscribed [1; 2; 3]%nat))
    as (_ & Hthrow & _).
  destruct (fanout_until_first_throw (throwing_handler 7) (subscribed [1; 2; 3]%nat))
    as (Hall & _).
  split.
  - apply (Hthrow "x" [1%nat] 2%nat [3%nat] eq_refl); [|reflexivity].
    intros [|b [|??]] h after Heq; [|destruct after; discriminate Heq|discriminate Heq].
    injection Heq as <- _. reflexivity.
  - apply (Hall "x").
    intros before h after Heq. 
    assert (Hh : h ∈ [1; 2; 3]%nat).
    { change (h ∈ serialMonitorCallbacks (subscribed [1; 2; 3]%nat)). rewrite Heq.
      apply elem_of_app. right. apply list_elem_of_here. }
    simpl. apply bool_decide_eq_false_2. intros ->.
    repeat (apply elem_of_cons in Hh as [Hh|Hh]; [discriminate Hh|]).
    by apply elem_of_nil in Hh.
Defined.

(** C1 fails as stated: with handlers 1 and 2 subscribed and handler 1
    throwing, the chunk never reaches handler 2 and the exception leaves the
    listener. *)
Lemma fanout_stops_at_throwing_handler :
  (2%nat ∈ serialMonitorCallbacks (subscribed [1; 2]%nat)) /\
  dataListener (throwing_handler 1) "x" (subscribed [1; 2]%nat) =
    (Throw (Rejected (SerialCallback 1 "x")),
     log_all [SerialCallback 1 "x"] (subscribed [1; 2]%nat)) /\
  SerialCallback 2 "x" ∉
    trace (dataListener (throwing_handler 1) "x" (subscribed [1; 2]%nat)).2.
Proof.
  split; [|split].
  - apply (bool_decide_unpack _). vm_compute. exact I.
  - reflexivity.
  - apply (bool_decide_unpack _). vm_compute. exact I.
Qed.

(** ** Device discovery *)

Lemma for_of_acc_push {A} (f : A -> Board) (l : list A) (acc : list Board) (s : State) :
  for_of_acc l acc (fun device boards => ret (boards ++ [f device])) s =
    (Ok (acc ++ (f <$> l)), s).
Proof.
  revert acc. induction l as [|x l IH]; intros acc; simpl.
  - by rewrite app_nil_r.
  - unfold bind, ret at 1. rewrite IH. by rewrite <- app_assoc.
Qed.

Lemma for_of_acc_ble (l : list obj) (acc : list Board) (s : State) :
  for_of_acc l acc
    (fun device boards =>
       keep <- lift (likely_arduino device) ;;
       if keep then ret (boards ++ [ble_board device]) else ret boards) s =
    (match arduino_like l with
     | Ok kept => Ok (acc ++ (ble_board <$> kept))
     | Throw e => Throw e
     end, s).
Proof.
  revert acc. induction l as [|d l IH]; intros acc; simpl.
  - by rewrite app_nil_r.
  - unfold bind at 1 2, lift at 1.
    destruct (likely_arduino d) as [[|]|e]; [| |done].
    + unfold ret at 1. rewrite IH.
      destruct (arduino_like l); [|done]. simpl. by rewrite <- app_assoc.
    + unfold ret at 1. rewrite IH. by destruct (arduino_like l).
Qed.

Section Scan.

Context (env : Env).

(** The scan on Android: USB, then the registry. *)
Lemma scan_android (s : State) :
  OS env = android ->
  getAvailableBoards env s =
    if rejects env (trace s) UsbGetDeviceList then
      (Throw (Rejected UsbGetDeviceList), log_all [UsbGetDeviceList; scan_error] s)
    else if rejects env (trace s ++ [UsbGetDeviceList]) (StorageGetItem "esp_devices") then
      (Throw (Rejected (StorageGetItem "esp_devices")),
       log_all [UsbGetDeviceList; StorageGetItem "esp_devices"; scan_error] s)
    else
      (Ok ((usb_board <$> usb_device_list env (trace s)) ++ (wifi_board <$> registry s)),
       log_all [UsbGetDeviceList; StorageGetItem "esp_devices"] s).
Proof.
  intros Hos. unfold getAvailableBoards, UsbSerial, BleManager, EspOta. rewrite Hos.
  simpl. unfold try_catch, bind at 1 2.
  unfold bind at 1 2 3, gets at 1, call at 1.
  destruct (rejects env (trace s) UsbGetDeviceList); [settle|].
  unfold ret at 1. rewrite for_of_acc_push.
  unfold ret at 1, bind at 1 2, AsyncStorage_getItem, bind at 1, call at 1. simpl.
  destruct (rejects env (trace s ++ [UsbGetDeviceList]) _); [settle|].
  unfold gets at 1. rewrite for_of_acc_push. settle.
Qed.

(** The scan on iOS: BLE, then the registry. *)
Lemma scan_ios (s : State) :
  OS env = ios ->
  getAvailableBoards env s =
    if rejects env (trace s) BleScanForPeripherals then
      (Throw (Rejected BleScanForPeripherals),
       log_all [BleScanForPeripherals; scan_error] s)
    else
      match arduino_like (ble_peripherals env (trace s)) with
      | Throw e => (Throw e, log_all [BleScanForPeripherals; scan_error] s)
      | Ok kept =>
          if rejects env (trace s ++ [BleScanForPeripherals]) (StorageGetItem "esp_devices")
          then
            (Throw (Rejected (StorageGetItem "esp_devices")),
             log_all [BleScanForPeripherals; StorageGetItem "esp_devices"; scan_error] s)
          else
            (Ok ((ble_board <$> kept) ++ (wifi_board <$> registry s)),
             log_all [BleScanForPeripherals; StorageGetItem "esp_devices"] s)
      end.
Proof.
  intros Hos. unfold getAvailableBoards, UsbSerial, BleManager, EspOta. rewrite Hos.
  simpl. unfold try_catch, bind at 1 2.
  unfold ret at 1, bind at 1 2 3, gets at 1, call at 1.
  destruct (rejects env (trace s) BleScanForPeripherals); [settle|].
  unfold ret at 1. rewrite for_of_acc_ble.
  destruct (arduino_like (ble_peripherals env (trace s))) as [kept|e]; [|settle].
  unfold bind at 1 2, AsyncStorage_getItem, bind at 1, call at 1. simpl.
  destruct (rejects env (trace s ++ [BleScanForPeripherals]) _); [settle|].
  unfold gets at 1. rewrite for_of_acc_push. settle.
Qed.

(** The scan elsewhere: only the registry. *)
Lemma scan_other (s : State) :
  OS env = other_os ->
  getAvailableBoards env s =
    if rejects env (trace s) (StorageGetItem "esp_devices") then
      (Throw (Rejected (StorageGetItem "esp_devices")),
       log_all [StorageGetItem "esp_devices"; scan_error] s)
    else
      (Ok (wifi_board <$> registry s), log_all [StorageGetItem "esp_devices"] s).
Proof.
  intros Hos. unfold getAvailableBoards, UsbSerial, BleManager, EspOta. rewrite Hos.
  simpl. unfold try_catch, bind at 1 2.
  unfold ret at 1 2, bind at 1 2, AsyncStorage_getItem, bind at 1, call at 1.
  destruct (rejects env (trace s) _); [settle|].
  unfold gets at 1. rewrite for_of_acc_push. settle.
Qed.

End Scan.

Lemma scan_cases (env : Env) (s : State) :
  (exists e evs,
     getAvailableBoards env s = (Throw e, log_all (evs ++ [scan_error]) s)) \/
  (exists evs,
     getAvailableBoards env s =
       (Ok (usb_found env s ++ ble_found env s ++ wifi_found s), log_all evs s)).
Proof.
  unfold usb_found, ble_found, wifi_found, UsbSerial, BleManager.
  destruct (OS env) eqn:Hos.
  - rewrite (scan_android env s Hos).
    destruct (rejects env (trace s) _);
      [left; by exists (Rejected UsbGetDeviceList), [UsbGetDeviceList]|].
    destruct (rejects env _ _).
    + left. by exists (Rejected (StorageGetItem "esp_devices")),
                      [UsbGetDeviceList; StorageGetItem "esp_devices"].
    + right. by eexists.
  - rewrite (scan_ios env s Hos).
    destruct (rejects env (trace s) _);
      [left; by exists (Rejected BleScanForPeripherals), [BleScanForPeripherals]|].
    destruct (arduino_like _) as [kept|e];
      [|left; by exists e, [BleScanForPeripherals]].
    destruct (rejects env _ _).
    + left. by exists (Rejected (StorageGetItem "esp_devices")),
                      [BleScanForPeripherals; StorageGetItem "esp_devices"].
    + right. by eexists.
  - rewrite (scan_other env s Hos).
    destruct (rejects env (trace s) _).
    + left. by exists (Rejected (StorageGetItem "esp_devices")),
                      [StorageGetItem "esp_devices"].
    + right. by eexists.
Qed.

Lemma scan_returns (env : Env) (s s' : State) (boards : list Board) :
  getAvailableBoards env s = (Ok boards, s') ->
  boards = usb_found env s ++ ble_found env s ++ wifi_found s.
Proof.
  intros Hrun.
  destruct (scan_cases env s) as [(e' & evs & Heq)|(evs & Heq)];
    rewrite Heq in Hrun; [discriminate Hrun|].
  by injection Hrun as <- _.
Qed.

(** C2 (as the code has it): an error raised by a transport driver's
    enumeration aborts the scan.  When the USB enumeration (Android) or the
    BLE scan (iOS) rejects, [getAvailableBoards] queries no further transport,
    logs the error and rethrows it to the caller.  Every failing scan ends
    with the logged error and returns no list; a scan that does not fail
    returns the USB boards, then the BLE boards that pass the name filter,
    then the registered WiFi devices. *)
Theorem scan_aborts_on_driver_error (env : Env) (s : State) :
  (OS env = android -> rejects env (trace s) UsbGetDeviceList = true ->
   getAvailableBoards env s =
     (Throw (Rejected UsbGetDeviceList), log_all [UsbGetDeviceList; scan_error] s)) /\
  (OS env = ios -> rejects env (trace s) BleScanForPeripherals = true ->
   getAvailableBoards env s =
     (Throw (Rejected BleScanForPeripherals),
      log_all [BleScanForPeripherals; scan_error] s)) /\
  (forall e s', getAvailableBoards env s = (Throw e, s') ->
     exists evs, s' = log_all (evs ++ [scan_error]) s) /\
  (forall boards s', getAvailableBoards env s = (Ok boards, s') ->
     boards = usb_found env s ++ ble_found env s ++ wifi_found s).
Proof.
  split; [|split; [|split]].
  - intros Hos Hrej. by rewrite (scan_android env s Hos), Hrej.
  - intros Hos Hrej. by rewrite (scan_ios env s Hos), Hrej.
  - intros e s' Hrun.
    destruct (scan_cases env s) as [(e' & evs & Heq)|(evs & Heq)];
      rewrite Heq in Hrun; [|discriminate Hrun].
    injection Hrun as _ <-. by exists evs.
  - intros boards s'. apply scan_returns.
Qed.

Lemma scan_aborts_on_driver_error_witness :
  OS usb_unavailable = android /\
  rejects usb_unavailable (trace shed_registered) UsbGetDeviceList = true /\
  getAvailableBoards usb_unavailable shed_registered =
    (Throw (Rejected UsbGetDeviceList),
     log_all [UsbGetDeviceList; scan_error] shed_registered).
Proof.
  split; [reflexivity|]. split; [reflexivity|].
  apply (proj1 (scan_aborts_on_driver_error usb_unavailable shed_registered));
    reflexivity.
Defined.

(** C2 fails as stated: on an Android phone whose USB enumeration rejects,
    with one ESP device registered, the scan raises the USB error to the
    caller; the registry is never read and its device is not returned. *)
Lemma scan_aborted_by_usb_error :
  wifi_found shed_registered = [wifi_board shed_esp] /\
  getAvailableBoards usb_unavailable shed_registered =
    (Throw (Rejected UsbGetDeviceList),
     log_all [UsbGetDeviceList; scan_error] shed_registered) /\
  StorageGetItem "esp_devices" ∉
    trace (getAvailableBoards usb_unavailable shed_registered).2.
Proof.
  split; [reflexivity|]. split; [reflexivity|].
  apply (bool_decide_unpack _). vm_compute. exact I.
Qed.

(** C4 (as the code has it): [getAvailableBoards] does not deduplicate.  The
    ids of a scan result are the ids of the USB devices, then those of the BLE
    peripherals that pass the name filter, then the ips of the registered ESP
    devices, as the drivers and the registry report them; the result is free
    of duplicate ids exactly when each of these lists is and no id occurs in
    two of them. *)
Theorem scan_ids_are_concatenated (env : Env) (s s' : State) (boards : list Board) :
  getAvailableBoards env s = (Ok boards, s') ->
  id <$> boards =
    (id <$> usb_found env s) ++ (id <$> ble_found env s) ++ ips (registry s) /\
  (NoDup (id <$> boards) <->
   NoDup (id <$> usb_found env s) /\
   NoDup (id <$> ble_found env s) /\
   NoDup (ips (registry s)) /\
   (forall x, x ∈ id <$> usb_found env s ->
      x ∉ (id <$> ble_found env s) ++ ips (registry s)) /\
   (forall x, x ∈ id <$> ble_found env s -> x ∉ ips (registry s))).
Proof.
  intros Hrun. apply scan_returns in Hrun.
  assert (Hids : id <$> boards =
            (id <$> usb_found env s) ++ (id <$> ble_found env s) ++ ips (registry s)).
  { subst boards. rewrite !fmap_app. unfold wifi_found, ips.
    by rewrite <- list_fmap_compose. }
  split; [exact Hids|]. rewrite Hids, !NoDup_app. tauto.
Qed.

Lemma scan_ids_are_concatenated_witness :
  getAvailableBoards (quiet android) shed_registered =
    (Ok [wifi_board shed_esp],
     log_all [UsbGetDeviceList; StorageGetItem "esp_devices"] shed_registered) /\
  id <$> [wifi_board shed_esp] = [VStr "192.168.1.50"] /\
  NoDup (id <$> [wifi_board shed_esp]).
Proof.
  assert (Hrun : getAvailableBoards (quiet android) shed_registered =
                   (Ok [wifi_board shed_esp],
                    log_all [UsbGetDeviceList; StorageGetItem "esp_devices"]
                            shed_registered)) by reflexivity.
  split; [exact Hrun|].
  destruct (scan_ids_are_concatenated _ _ _ _ Hrun) as [Hids Hnodup].
  split; [exact Hids|]. apply Hnodup. vm_compute.
  repeat split; try apply NoDup_nil_2; try apply NoDup_singleton;
    intros x Hx; inversion Hx.
Defined.

(** C4 fails as stated: when the BLE scan reports one peripheral twice, the
    scan result holds two descriptors with that peripheral's id. *)
Lemma scan_repeats_ble_peripheral :
  getAvailableBoards ble_seen_twice initial =
    (Ok [ble_board nano_ble; ble_board nano_ble],
     log_all [BleScanForPeripherals; StorageGetItem "esp_devices"] initial) /\
  id <$> [ble_board nano_ble; ble_board nano_ble] =
    [VStr "4C:11:AE:0D:22:7A"; VStr "4C:11:AE:0D:22:7A"] /\
  ~ NoDup (id <$> [ble_board nano_ble; ble_board nano_ble]).
Proof.
  split; [by vm_compute|]. split; [reflexivity|].
  intros Hnd. apply NoDup_cons in Hnd as [Hnotin _].
  apply Hnotin. vm_compute. left.
Qed.

(** ** What a run lets out of the service *)

Section Runs.

Context (env : Env).

Lemma runs_ret {A} (a : A) (s : State) : runs_within (ret a) s [].
Proof. exists []. by rewrite log_all_nil. Qed.

Lemma runs_throw {A} (e : exn) (s : State) : runs_within (@throw A e) s [].
Proof. exists []. rewrite log_all_nil. split; [done|apply prefix_nil]. Qed.

Lemma runs_gets {A} (f : State -> A) (s : State) : runs_within (gets f) s [].
Proof. exists []. by rewrite log_all_nil. Qed.

Lemma runs_call (ev : Event) (s : State) : runs_within (call env ev) s [ev].
Proof.
  exists [ev]. unfold call.
  destruct (rejects env (trace s) ev); (split; [done|]); simpl; done.
Qed.

Lemma runs_emit (ev : Event) (s : State) : runs_within (emit ev) s [ev].
Proof. by exists [ev]. Qed.

Lemma runs_bind {A B} (m : M A) (k : A -> M B) (s : State) (l1 l2 : list Event) :
  runs_within m s l1 ->
  (forall a, (m s).1 = Ok a -> runs_within (k a) (log_all l1 s) l2) ->
  runs_within (bind m k) s (l1 ++ l2).
Proof.
  intros (evs & Hs & Hr) Hk. unfold runs_within, bind.
  destruct (m s) as [[a|e] s1]; simpl in *.
  - subst evs s1. destruct (Hk a eq_refl) as (evs2 & Hs2 & Hr2).
    exists (l1 ++ evs2). rewrite Hs2, log_all_app. split; [done|].
    destruct ((k a (log_all l1 s)).1); [by subst|by apply prefix_app].
  - exists evs. split; [done|]. by apply prefix_app_r.
Qed.

Lemma runs_for_range (body : Z -> M unit) (evs_of : Z -> list Event)
    (count : nat) (start : Z) (s : State) :
  (forall i s, runs_within (body i) s (evs_of i)) ->
  runs_within (for_range count start body) s
              (concat (evs_of <$> seqZ start (Z.of_nat count))).
Proof.
  intros Hbody. revert start s. induction count as [|n IH]; intros start s.
  - apply runs_ret.
  - rewrite seqZ_cons by lia. cbn [for_range fmap list_fmap concat].
    apply runs_bind; [apply Hbody|]. intros _ _.
    replace (Z.pred (Z.of_nat (S n))) with (Z.of_nat n) by lia.
    replace (Z.succ start) with (start + 1) by lia. apply IH.
Qed.

Lemma runs_for_of {A} (f : A -> Event) (l : list A) (s : State) :
  runs_within (for_of l (fun x => call env (f x))) s (f <$> l).
Proof.
  revert s. induction l as [|x l IH]; intros s.
  - apply runs_ret.
  - cbn [for_of fmap list_fmap].
    apply (runs_bind _ _ _ [f x]); [apply runs_call|]. intros _ _. apply IH.
Qed.

Lemma runs_upload_chunks (binary : string) (chunkSize delay : Z)
    (write : string -> Event) (s : State) :
  runs_within (upload_chunks env binary chunkSize delay write) s
              (transfer binary chunkSize delay write).
Proof.
  unfold upload_chunks, transfer. fold (total_chunks binary chunkSize).
  destruct (Z_le_gt_dec 0 (total_chunks binary chunkSize)) as [Hpos|Hneg].
  - replace (seqZ 0 (total_chunks binary chunkSize))
      with (seqZ 0 (Z.of_nat (Z.to_nat (total_chunks binary chunkSize))))
      by (by rewrite Z2Nat.id).
    apply runs_for_range. intros i s1. unfold chunk_events.
    apply (runs_bind _ _ _ [_] [_; _]); [apply runs_call|]. intros _ _.
    apply (runs_bind _ _ _ [_] [_]); [apply runs_call|]. intros _ _.
    apply runs_emit.
  - rewrite seqZ_nil by lia. replace (Z.to_nat _) with 0%nat by lia. apply runs_ret.
Qed.

Lemma runs_throw_any {A} (e : exn) (s : State) (l : list Event) :
  runs_within (@throw A e) s l.
Proof. exists []. rewrite log_all_nil. split; [done|apply prefix_nil]. Qed.

Lemma runs_try_catch {A} (m : M A) (s : State) (expected : list Event) (label : string) :
  runs_within m s expected ->
  runs_logged (try_catch m (fun error => emit (ConsoleError label) ;; throw error))
              s expected (ConsoleError label).
Proof.
  intros (evs & Hs & Hr). exists evs. unfold try_catch.
  destruct (m s) as [[a|e] s1]; simpl in *; [done|].
  split; [done|]. subst s1. settle.
Qed.

End Runs.

(** One step of a run: an outside call, a timer or log line, or a read of the
    service's own state. *)
Ltac run_step :=
  lazymatch goal with
  | |- runs_within (bind (call _ ?ev) _) _ (_ :: ?rest) =>
      apply (runs_bind _ _ _ [ev] rest); [apply runs_call | intros _ _]
  | |- runs_within (bind (sleep ?ms) _) _ (_ :: ?rest) =>
      apply (runs_bind _ _ _ [Timeout ms] rest); [apply runs_emit | intros _ _]
  | |- runs_within (bind (emit ?ev) _) _ (_ :: ?rest) =>
      apply (runs_bind _ _ _ [ev] rest); [apply runs_emit | intros _ _]
  | |- runs_within (bind (gets _) _) _ ?rest =>
      let a := fresh "a" in
      let Ha := fresh "Ha" in
      apply (runs_bind _ _ _ [] rest);
      [apply runs_gets | intros a Ha; simpl in Ha; injection Ha as <-]
  end.

Section Upload.

Context (env : Env).

Lemma runs_getInfo (path : string) (s : State) :
  runs_within (FileSystem_getInfoAsync env path) s [FsGetInfo path].
Proof.
  unfold FileSystem_getInfoAsync.
  apply (runs_bind _ _ _ [_] []); [apply runs_call|]. intros _ _. apply runs_gets.
Qed.

Lemma runs_readAsString (path : string) (s : State) :
  runs_within (FileSystem_readAsStringAsync env path) s [FsReadAsStringBase64 path].
Proof.
  unfold FileSystem_readAsStringAsync.
  apply (runs_bind _ _ _ [_] []); [apply runs_call|]. intros _ _.
  apply (runs_bind _ _ _ [] []); [apply runs_gets|]. intros f _.
  destruct (f !! path); [apply runs_ret|apply runs_throw].
Qed.

Lemma readAsString_value (path binary : string) (s : State) :
  (FileSystem_readAsStringAsync env path s).1 = Ok binary ->
  binary = stored_binary s path.
Proof.
  unfold FileSystem_readAsStringAsync, stored_binary, bind at 1, call.
  destruct (rejects env (trace s) _); simpl; [done|].
  unfold bind, gets. simpl. destruct (files s !! path); simpl; [|done].
  by intros [= <-].
Qed.

(** Every USB upload lets out a prefix of the full USB sequence, and all of
    it when it resolves. *)
Lemma upload_usb_runs (path : string) (device : Board) (s : State) :
  connectedDevice s = Some device ->
  is_type (connectionType s) "usb" && UsbSerial env = true ->
  runs_logged (uploadBinary env path) s
    (usb_upload_events (id device) path (stored_binary s path)) upload_error.
Proof.
  intros Hdev Husb. unfold uploadBinary. apply runs_try_catch.
  unfold usb_upload_events, bootloader_entry. simpl app.
  run_step. rewrite Hdev.
  apply (runs_bind _ _ _ [_] _); [apply runs_getInfo|]. intros exists_ _.
  destruct exists_; simpl negb; cbv iota; [|apply runs_throw_any].
  run_step. simpl connectionType. rewrite Husb.
  do 6 run_step.
  apply (runs_bind _ _ _ [_] _); [apply runs_readAsString|]. intros binary Hbin.
  apply readAsString_value in Hbin. simpl in Hbin.
  change (stored_binary _ path) with (stored_binary s path) in Hbin. subst binary.
  apply runs_bind; [apply runs_upload_chunks|]. intros _ _.
  unfold board_reset. do 3 run_step. apply runs_ret.
Qed.

(** Every BLE upload lets out a prefix of the BLE sequence, and all of it
    when it resolves. *)
Lemma upload_ble_runs (path : string) (device : Board) (s : State) :
  connectedDevice s = Some device ->
  is_type (connectionType s) "usb" && UsbSerial env = false ->
  is_type (connectionType s) "ble" && BleManager env = true ->
  runs_logged (uploadBinary env path) s
    (ble_upload_events (id device) path (stored_binary s path)) upload_error.
Proof.
  intros Hdev Husb Hble. unfold uploadBinary. apply runs_try_catch.
  unfold ble_upload_events. simpl app.
  run_step. rewrite Hdev.
  apply (runs_bind _ _ _ [_] _); [apply runs_getInfo|]. intros exists_ _.
  destruct exists_; simpl negb; cbv iota; [|apply runs_throw_any].
  run_step. simpl connectionType. rewrite Husb, Hble.
  apply (runs_bind _ _ _ [_] _); [apply runs_readAsString|]. intros binary Hbin.
  apply readAsString_value in Hbin. simpl in Hbin.
  change (stored_binary _ path) with (stored_binary s path) in Hbin. subst binary.
  rewrite <- (app_nil_r (transfer _ _ _ _)).
  apply runs_bind; [apply runs_upload_chunks|]. intros _ _. apply runs_ret.
Qed.

(** A WiFi upload is one call to the OTA module, which reports progress. *)
Lemma upload_wifi_runs (path : string) (device : Board) (s : State) :
  connectedDevice s = Some device ->
  is_type (connectionType s) "usb" && UsbSerial env = false ->
  is_type (connectionType s) "ble" && BleManager env = false ->
  is_type (connectionType s) "wifi" && EspOta env = true ->
  runs_logged (uploadBinary env path) s (wifi_upload_events env s device path)
              upload_error.
Proof.
  intros Hdev Husb Hble Hwifi. unfold uploadBinary. apply runs_try_catch.
  unfold wifi_upload_events. simpl app.
  run_step. rewrite Hdev.
  apply (runs_bind _ _ _ [_] _); [apply runs_getInfo|]. intros exists_ _.
  destruct exists_; simpl negb; cbv iota; [|apply runs_throw_any].
  run_step. simpl connectionType. rewrite Husb, Hble, Hwifi.
  run_step. run_step. simpl trace. rewrite !app_nil_r.
  rewrite <- (app_nil_r (_ <$> _)).
  apply runs_bind; [apply (runs_for_of env (fun p => ProgressCallback p.1 p.2))|].
  intros _ _. apply runs_ret.
Qed.

(** With any other connection type the upload stops after the file check. *)
Lemma upload_unsupported_runs (path : string) (device : Board) (s : State) :
  connectedDevice s = Some device ->
  is_type (connectionType s) "usb" && UsbSerial env = false ->
  is_type (connectionType s) "ble" && BleManager env = false ->
  is_type (connectionType s) "wifi" && EspOta env = false ->
  runs_logged (uploadBinary env path) s [FsGetInfo path] upload_error.
Proof.
  intros Hdev Husb Hble Hwifi. unfold uploadBinary. apply runs_try_catch.
  run_step. rewrite Hdev.
  apply (runs_bind _ _ _ [_] []); [apply runs_getInfo|]. intros exists_ _.
  destruct exists_; simpl negb; cbv iota; [|apply runs_throw_any].
  run_step. simpl connectionType. rewrite Husb, Hble, Hwifi. apply runs_throw.
Qed.

Lemma upload_disconnected_runs (path : string) (s : State) :
  connectedDevice s = None ->
  runs_logged (uploadBinary env path) s [] upload_error.
Proof.
  intros Hdev. unfold uploadBinary. apply runs_try_catch.
  run_step. rewrite Hdev. apply runs_throw.
Qed.

End Upload.

(** ** Connections *)

Section Connections.

Context (env : Env).

(** [disconnectFromBoard], call by call. *)
Lemma disconnect_run (s : State) :
  disconnectFromBoard env s =
    match connectedDevice s with
    | None => (Ok true, s)
    | Some device =>
        if is_type (connectionType s) "usb" && UsbSerial env then
          if rejects env (trace s) (UsbCloseDevice (id device)) then
            (Throw (Rejected (UsbCloseDevice (id device))),
             log_all [UsbCloseDevice (id device); disconnect_error] s)
          else if rejects env (trace s ++ [UsbCloseDevice (id device)])
                          (UsbDisconnectDevice (id device)) then
            (Throw (Rejected (UsbDisconnectDevice (id device))),
             log_all [UsbCloseDevice (id device); UsbDisconnectDevice (id device);
                      disconnect_error] s)
          else
            (Ok true,
             set_connection None None
               (log_all [UsbCloseDevice (id device); UsbDisconnectDevice (id device)] s))
        else if is_type (connectionType s) "ble" && BleManager env then
          if rejects env (trace s) (BleDisconnectFromDevice (id device)) then
            (Throw (Rejected (BleDisconnectFromDevice (id device))),
             log_all [BleDisconnectFromDevice (id device); disconnect_error] s)
          else
            (Ok true,
             set_connection None None (log_all [BleDisconnectFromDevice (id device)] s))
        else (Ok true, set_connection None None s)
    end.
Proof.
  unfold disconnectFromBoard, try_catch, bind at 1, gets at 1.
  destruct (connectedDevice s) as [device|]; [|reflexivity].
  unfold bind at 1 2, gets at 1.
  destruct (is_type (connectionType s) "usb" && UsbSerial env).
  { cbv [bind call modify ret emit throw]. simpl.
    destruct (rejects env (trace s) _); [settle|]. simpl.
    destruct (rejects env (trace s ++ _) _); settle. }
  destruct (is_type (connectionType s) "ble" && BleManager env).
  { cbv [bind call modify ret emit throw]. simpl.
    destruct (rejects env (trace s) _); settle. }
  reflexivity.
Qed.

(** A disconnect either goes through, or fails on one of its driver calls and
    leaves the connection recorded. *)
Lemma disconnect_cases (s : State) :
  disconnectFromBoard env s =
    (Ok true, match connectedDevice s with
              | None => s
              | Some _ => set_connection None None (log_all (teardown_calls env s) s)
              end) \/
  exists e evs,
    evs `prefix_of` teardown_calls env s /\ evs <> [] /\
    disconnectFromBoard env s = (Throw e, log_all (evs ++ [disconnect_error]) s).
Proof.
  rewrite disconnect_run. unfold teardown_calls.
  destruct (connectedDevice s) as [device|]; [|by left].
  destruct (is_type (connectionType s) "usb" && UsbSerial env).
  { destruct (rejects env (trace s) _).
    - right. exists (Rejected (UsbCloseDevice (id device))), [UsbCloseDevice (id device)].
      split; [by eexists|]. done.
    - destruct (rejects env (trace s ++ _) _).
      + right. exists (Rejected (UsbDisconnectDevice (id device))),
                      [UsbCloseDevice (id device); UsbDisconnectDevice (id device)].
        done.
      + by left. }
  destruct (is_type (connectionType s) "ble" && BleManager env).
  { destruct (rejects env (trace s) _).
    - right. exists (Rejected (BleDisconnectFromDevice (id device))),
                    [BleDisconnectFromDevice (id device)].
      done.
    - by left. }
  left. by rewrite log_all_nil.
Qed.

(** [connectToBoard] on a connected service is a disconnect followed by a
    connect on the disconnected service. *)
Lemma connect_after_disconnect (board : Board) (s s1 : State) (b : bool) :
  is_Some (connectedDevice s) ->
  disconnectFromBoard env s = (Ok b, s1) ->
  connectToBoard env board s = connectToBoard env board s1.
Proof.
  intros [d Hd] Hdis.
  assert (Hnone : connectedDevice s1 = None).
  { destruct (disconnect_cases s) as [Hok|(e & evs & _ & _ & Hthrow)];
      rewrite Hdis in *; [|discriminate Hthrow].
    rewrite Hd in Hok. by injection Hok as _ ->. }
  unfold connectToBoard, try_catch.
  set (k := if String.eqb (type board) "usb" && UsbSerial env then _ else _).
  unfold bind, gets. rewrite Hd, Hnone. simpl. by rewrite Hdis.
Qed.

Lemma connect_wifi_fresh (board : Board) (s : State) :
  type board = "wifi" -> connectedDevice s = None ->
  connectToBoard env board s = (Ok true, set_connection (Some board) (Some "wifi") s).
Proof.
  intros Hty Hnone. unfold connectToBoard, try_catch, bind at 1 2, gets at 1.
  rewrite Hnone, Hty. reflexivity.
Qed.

Lemma connect_wifi_cases (board : Board) (s : State) :
  type board = "wifi" ->
  connectToBoard env board s =
    (Ok true, set_connection (Some board) (Some "wifi")
                (log_all (teardown_calls env s) s)) \/
  exists e evs,
    evs `prefix_of` teardown_calls env s /\ evs <> [] /\
    connectToBoard env board s =
      (Throw e, set_connection None None
                  (log_all (evs ++ [disconnect_error; connect_error]) s)).
Proof.
  intros Hty. destruct (connectedDevice s) as [d|] eqn:Hd.
  - destruct (disconnect_cases s) as [Hok|(e & evs & Hpre & Hne & Hthrow)].
    + left. rewrite Hd in Hok.
      rewrite (connect_after_disconnect board s _ true) by eauto.
      rewrite connect_wifi_fresh by done. settle.
    + right. exists e, evs. split; [done|]. split; [done|].
      unfold connectToBoard, try_catch, bind at 1 2, gets at 1.
      rewrite Hd. simpl. rewrite Hthrow. settle.
  - left. rewrite connect_wifi_fresh by done.
    unfold teardown_calls. rewrite Hd. by rewrite log_all_nil.
Qed.

(** [connectToBoard] on a disconnected service, call by call. *)
Lemma connect_fresh_run (board : Board) (s : State) :
  connectedDevice s = None ->
  let failed evs e :=
    (@Throw bool e, set_connection None None (log_all (evs ++ [connect_error]) s)) in
  connectToBoard env board s =
    if String.eqb (type board) "usb" && UsbSerial env then
      if rejects env (trace s) (UsbConnectDevice (id board)) then
        failed [UsbConnectDevice (id board)] (Rejected (UsbConnectDevice (id board)))
      else if rejects env (trace s ++ [UsbConnectDevice (id board)])
                      (UsbOpenDevice (id board) 115200) then
        failed [UsbConnectDevice (id board); UsbOpenDevice (id board) 115200]
               (Rejected (UsbOpenDevice (id board) 115200))
      else if rejects env ((trace s ++ [UsbConnectDevice (id board)])
                           ++ [UsbOpenDevice (id board) 115200])
                      UsbSetDataListener then
        failed [UsbConnectDevice (id board); UsbOpenDevice (id board) 115200;
                UsbSetDataListener]
               (Rejected UsbSetDataListener)
      else
        (Ok true, set_connection (Some board) (Some "usb")
                    (log_all [UsbConnectDevice (id board);
                              UsbOpenDevice (id board) 115200;
                              UsbSetDataListener] s))
    else if String.eqb (type board) "ble" && BleManager env then
      if rejects env (trace s) (BleConnectToDevice (id board)) then
        failed [BleConnectToDevice (id board)] (Rejected (BleConnectToDevice (id board)))
      else if rejects env (trace s ++ [BleConnectToDevice (id board)])
                      (BleStartNotification (id board) "FFE0" "FFE1") then
        failed [BleConnectToDevice (id board);
                BleStartNotification (id board) "FFE0" "FFE1"]
               (Rejected (BleStartNotification (id board) "FFE0" "FFE1"))
      else if rejects env ((trace s ++ [BleConnectToDevice (id board)])
                           ++ [BleStartNotification (id board) "FFE0" "FFE1"])
                      (BleAddListener (id board) "FFE1") then
        failed [BleConnectToDevice (id board);
                BleStartNotification (id board) "FFE0" "FFE1";
                BleAddListener (id board) "FFE1"]
               (Rejected (BleAddListener (id board) "FFE1"))
      else
        (Ok true, set_connection (Some board) (Some "ble")
                    (log_all [BleConnectToDevice (id board);
                              BleStartNotification (id board) "FFE0" "FFE1";
                              BleAddListener (id board) "FFE1"] s))
    else if String.eqb (type board) "wifi" && EspOta env then
      (Ok true, set_connection (Some board) (Some "wifi") s)
    else failed [] (JsError ("Unsupported board type: " +:+ type board)).
Proof.
  intros Hnone. cbv zeta.
  unfold connectToBoard, try_catch, bind at 1 2, gets at 1.
  rewrite Hnone. simpl. unfold ret at 1.
  destruct (String.eqb (type board) "usb" && UsbSerial env).
  { cbv [bind call modify ret emit throw]. simpl.
    destruct (rejects env (trace s) _); [settle|]. simpl.
    destruct (rejects env (trace s ++ _) _); [settle|]. simpl.
    destruct (rejects env ((trace s ++ _) ++ _) _); settle. }
  destruct (String.eqb (type board) "ble" && BleManager env).
  { cbv [bind call modify ret emit throw]. simpl.
    destruct (rejects env (trace s) _); [settle|]. simpl.
    destruct (rejects env (trace s ++ _) _); [settle|]. simpl.
    destruct (rejects env ((trace s ++ _) ++ _) _); settle. }
  destruct (String.eqb (type board) "wifi" && EspOta env); settle.
Qed.

(** A connect on a disconnected service either goes through or fails on one
    of the board's connect calls (or on its type), leaving nothing recorded. *)
Lemma connect_fresh_cases (board : Board) (s : State) :
  connectedDevice s = None ->
  connectToBoard env board s =
    (Ok true, set_connection (Some board) (Some (type board))
                (log_all (connect_calls env board) s)) \/
  exists e evs,
    evs `prefix_of` connect_calls env board /\
    connectToBoard env board s =
      (Throw e, set_connection None None (log_all (evs ++ [connect_error]) s)).
Proof.
  intros Hnone. rewrite (connect_fresh_run board s Hnone). cbv zeta.
  unfold connect_calls.
  destruct (String.eqb (type board) "usb") eqn:Husb; simpl.
  { apply String.eqb_eq in Husb. destruct (UsbSerial env); simpl.
    - destruct (rejects env (trace s) _);
        [right; eexists _, [_]; split; [by eexists|done]|].
      destruct (rejects env (trace s ++ _) _);
        [right; eexists _, [_; _]; split; [by eexists|done]|].
      destruct (rejects env ((trace s ++ _) ++ _) _);
        [right; eexists _, [_; _; _]; split; [done|done]|].
      left. by rewrite Husb.
    - destruct (String.eqb (type board) "ble" && BleManager env) eqn:Hble;
        [rewrite Husb in Hble; discriminate Hble|].
      destruct (String.eqb (type board) "wifi" && EspOta env) eqn:Hwifi;
        [rewrite Husb in Hwifi; discriminate Hwifi|].
      right. eexists _, []. split; [apply prefix_nil|done]. }
  destruct (String.eqb (type board) "ble") eqn:Hble; simpl.
  { apply String.eqb_eq in Hble. destruct (BleManager env); simpl.
    - destruct (rejects env (trace s) _);
        [right; eexists _, [_]; split; [by eexists|done]|].
      destruct (rejects env (trace s ++ _) _);
        [right; eexists _, [_; _]; split; [by eexists|done]|].
      destruct (rejects env ((trace s ++ _) ++ _) _);
        [right; eexists _, [_; _; _]; split; [done|done]|].
      left. by rewrite Hble.
    - destruct (String.eqb (type board) "wifi" && EspOta env) eqn:Hwifi;
        [rewrite Hble in Hwifi; discriminate Hwifi|].
      right. eexists _, []. split; [apply prefix_nil|done]. }
  destruct (String.eqb (type board) "wifi") eqn:Hwifi; simpl.
  { apply String.eqb_eq in Hwifi. left. by rewrite Hwifi, log_all_nil. }
  right. eexists _, []. split; [apply prefix_nil|done].
Qed.

(** Every connect: the previous connection is torn down, then the new one is
    set up; a failure of either leaves nothing recorded. *)
Lemma connect_cases (board : Board) (s : State) :
  connectToBoard env board s =
    (Ok true, set_connection (Some board) (Some (type board))
                (log_all (teardown_calls env s ++ connect_calls env board) s)) \/
  (exists e evs,
     evs `prefix_of` teardown_calls env s /\ evs <> [] /\
     connectToBoard env board s =
       (Throw e, set_connection None None
                   (log_all (evs ++ [disconnect_error; connect_error]) s))) \/
  (exists e evs,
     evs `prefix_of` connect_calls env board /\
     connectToBoard env board s =
       (Throw e, set_connection None None
                   (log_all (teardown_calls env s ++ evs ++ [connect_error]) s))).
Proof.
  destruct (connectedDevice s) as [d|] eqn:Hd.
  - destruct (disconnect_cases s) as [Hok|(e & evs & Hpre & Hne & Hthrow)].
    + rewrite Hd in Hok.
      rewrite (connect_after_disconnect board s _ true) by eauto.
      destruct (connect_fresh_cases board
                  (set_connection None None (log_all (teardown_calls env s) s)))
        as [Hc|(e & evs & Hpre & Hc)]; [done| |]; rewrite Hc.
      * left. settle.
      * right. right. exists e, evs. split; [done|settle].
    + right. left. exists e, evs. split; [done|]. split; [done|].
      unfold connectToBoard, try_catch, bind at 1 2, gets at 1.
      rewrite Hd. simpl. rewrite Hthrow. settle.
  - assert (Ht : teardown_calls env s = []) by (unfold teardown_calls; by rewrite Hd).
    rewrite Ht.
    destruct (connect_fresh_cases board s Hd) as [Hc|(e & evs & Hpre & Hc)]; rewrite Hc.
    + left. done.
    + right. right. exists e, evs. split; done.
Qed.

(** With a WiFi connection recorded, an upload whose file check passes calls
    the OTA module with the device's address. *)
Lemma upload_wifi_calls_ota (path : string) (device : Board) (s : State) :
  connectedDevice s = Some device ->
  connectionType s = Some "wifi" ->
  rejects env (trace s) (FsGetInfo path) = false ->
  is_Some (files s !! path) ->
  exists rest,
    trace (uploadBinary env path s).2 =
      trace s ++
      [FsGetInfo path;
       EspUploadBinary (prop (details device) "ip")
                       (js_or (prop (details device) "port") (VNum 8266)) path] ++
      rest.
Proof.
  intros Hdev Hct Hinfo Hfile.
  unfold uploadBinary, try_catch, bind at 1, gets at 1. rewrite Hdev.
  unfold bind at 1, FileSystem_getInfoAsync, bind at 1, call at 1. rewrite Hinfo.
  unfold gets at 1. simpl files. rewrite (bool_decide_eq_true_2 _ Hfile). simpl.
  unfold bind at 1, gets at 1.
  change (connectionType (log (FsGetInfo path) s)) with (connectionType s).
  rewrite Hct.
  change (is_type (Some "wifi") "usb") with false.
  change (is_type (Some "wifi") "ble") with false.
  change (is_type (Some "wifi") "wifi") with true. simpl.
  unfold bind at 1 2, gets at 1, call at 1. simpl trace.
  destruct (rejects env (trace s ++ _) _).
  { eexists. cbv [emit modify throw bind]. cbn [trace log log_all fst snd].
    rewrite <- !app_assoc. reflexivity. }
  unfold bind at 1.
  set (s2 := log _ (log _ s)).
  destruct (runs_for_of env (fun p => ProgressCallback p.1 p.2)
              (esp_upload_progress env (trace s ++ [FsGetInfo path])) s2)
    as (evs & Hs2 & _).
  destruct (for_of _ _ s2) as [[[]|e] s3]; simpl in Hs2; subst s3; subst s2;
    eexists; cbv [emit modify throw bind ret]; cbn [trace log log_all fst snd];
    rewrite <- !app_assoc; reflexivity.
Qed.

End Connections.

Lemma is_type_Some (t u : string) : is_type (Some t) u = String.eqb t u.
Proof.
  unfold is_type. destruct (String.eqb_spec t u) as [->|Hne].
  - by rewrite bool_decide_eq_true.
  - rewrite bool_decide_eq_false. congruence.
Qed.





Lemma connect_calls_are_connect_calls (env : Env) (board : Board) :
  Forall (fun ev => is_connect_call ev = true) (connect_calls env board).
Proof.
  unfold connect_calls.
  destruct (_ && _); [by repeat constructor|].
  destruct (_ && _); by repeat constructor.
Qed.







Section Teardown.

Context (env : Env).

Lemma first_reject_or_none (tr : list Event) (calls : list Event) :
  none_rejects env tr calls \/
  exists before ev after,
    calls = before ++ ev :: after /\ none_rejects env tr before /\
    rejects env (tr ++ before) ev = true.
Proof.
  revert tr. induction calls as [|c calls IH]; intros tr.
  - left. intros [|??] ?? Heq; discriminate Heq.
  - destruct (rejects env tr c) eqn:Hc.
    + right. exists [], c, calls. split; [done|]. split.
      * intros [|??] ?? Heq; discriminate Heq.
      * by rewrite app_nil_r.
    + destruct (IH (tr ++ [c])) as [Hall|(before & ev & after & -> & Hall & Hrej)].
      * left. intros [|b before] ev after Heq; injection Heq as <- Heq.
        { by rewrite app_nil_r. }
        rewrite (cons_middle c), app_assoc. by apply (Hall before ev after).
      * right. exists (c :: before), ev, after. split; [done|]. split.
        -- intros [|b before'] ev' after' Heq; injection Heq as <- Heq.
           { by rewrite app_nil_r. }
           rewrite (cons_middle c), app_assoc. by apply (Hall before' ev' after').
        -- by rewrite (cons_middle c), app_assoc.
Qed.

(** A teardown none of whose calls rejects. *)
Lemma disconnect_none_rejects (s : State) :
  none_rejects env (trace s) (teardown_calls env s) ->
  disconnectFromBoard env s =
    (Ok true, match connectedDevice s with
              | None => s
              | Some _ => set_connection None None (log_all (teardown_calls env s) s)
              end).
Proof.
  intros Hall. rewrite disconnect_run. unfold teardown_calls in *.
  destruct (connectedDevice s) as [device|]; [|done].
  destruct (is_type (connectionType s) "usb" && UsbSerial env).
  { pose proof (Hall [] _ _ eq_refl) as H1. rewrite app_nil_r in H1.
    pose proof (Hall [_] _ _ eq_refl) as H2. by rewrite H1, H2. }
  destruct (is_type (connectionType s) "ble" && BleManager env).
  { pose proof (Hall [] _ _ eq_refl) as H1. rewrite app_nil_r in H1. by rewrite H1. }
  by rewrite log_all_nil.
Qed.

(** A teardown whose first rejected call is [ev]. *)
Lemma disconnect_first_reject (s : State) (before : list Event) (ev : Event)
    (after : list Event) :
  teardown_calls env s = before ++ ev :: after ->
  none_rejects env (trace s) before ->
  rejects env (trace s ++ before) ev = true ->
  is_Some (connectedDevice s) /\
  disconnectFromBoard env s =
    (Throw (Rejected ev), log_all (before ++ [ev; disconnect_error]) s).
Proof.
  intros Hcalls Hall Hrej. rewrite disconnect_run. unfold teardown_calls in *.
  destruct (connectedDevice s) as [device|]; [|by destruct before].
  split; [eauto|].
  destruct (is_type (connectionType s) "usb" && UsbSerial env).
  { destruct before as [|b [|b' before]].
    - injection Hcalls as <- <-. rewrite app_nil_r in Hrej. by rewrite Hrej.
    - injection Hcalls as <- <- <-.
      pose proof (Hall [] _ _ eq_refl) as H1. rewrite app_nil_r in H1.
      by rewrite H1, Hrej.
    - injection Hcalls as _ _ Hcalls. by destruct before. }
  destruct (is_type (connectionType s) "ble" && BleManager env).
  { destruct before as [|b before].
    - injection Hcalls as <- <-. rewrite app_nil_r in Hrej. by rewrite Hrej.
    - injection Hcalls as _ Hcalls. by destruct before. }
  by destruct before.
Qed.

End Teardown.

(** C10 (as the code has it): connecting to a board of type 'wifi' makes no
    call to that board.  When no USB or BLE connection has to be closed first,
    it makes no outside call at all and always succeeds, recording the board
    with connection type 'wifi'.  Otherwise its only calls are the close and
    disconnect calls of the previous connection, and it fails exactly when
    one of those fails: when none of them rejects it succeeds after all of
    them, and when one rejects it throws the rejection of the first that
    does, having made no call after it, and leaves nothing connected; it
    throws in no other case.  The network call to the device is made by the
    upload: once the binary is found, [uploadBinary] calls the OTA module with
    the device's ip and port. *)
Theorem wifi_connect_defers_io (env : Env) (board : Board) (s : State) :
  type board = "wifi" ->
  (teardown_calls env s = [] ->
   connectToBoard env board s =
     (Ok true, set_connection (Some board) (Some "wifi") s)) /\
  (none_rejects env (trace s) (teardown_calls env s) ->
   connectToBoard env board s =
     (Ok true, set_connection (Some board) (Some "wifi")
                 (log_all (teardown_calls env s) s))) /\
  (forall before ev after,
     teardown_calls env s = before ++ ev :: after ->
     none_rejects env (trace s) before ->
     rejects env (trace s ++ before) ev = true ->
     connectToBoard env board s =
       (Throw (Rejected ev),
        set_connection None None
          (log_all (before ++ [ev; disconnect_error; connect_error]) s))) /\
  (forall e s',
     connectToBoard env board s = (Throw e, s') ->
     connectedDevice s' = None /\ connectionType s' = None /\
     exists before ev after,
       teardown_calls env s = before ++ ev :: after /\
       none_rejects env (trace s) before /\
       rejects env (trace s ++ before) ev = true /\
       e = Rejected ev) /\
  (forall path s1,
     connectToBoard env board s = (Ok true, s1) ->
     rejects env (trace s1) (FsGetInfo path) = false ->
     is_Some (files s1 !! path) ->
     exists rest,
       trace (uploadBinary env path s1).2 =
         trace s1 ++
         [FsGetInfo path;
          EspUploadBinary (prop (details board) "ip")
                          (js_or (prop (details board) "port") (VNum 8266)) path] ++
         rest).
Proof.
  intros Hty.
  assert (Hok : none_rejects env (trace s) (teardown_calls env s) ->
                connectToBoard env board s =
                  (Ok true, set_connection (Some board) (Some "wifi")
                              (log_all (teardown_calls env s) s))).
  { intros Hall. destruct (connectedDevice s) as [d|] eqn:Hd.
    - pose proof (disconnect_none_rejects env s Hall) as Hdis. rewrite Hd in Hdis.
      rewrite (connect_after_disconnect env board s _ true) by eauto.
      by rewrite connect_wifi_fresh.
    - rewrite connect_wifi_fresh by done.
      unfold teardown_calls. rewrite Hd. by rewrite log_all_nil. }
  assert (Hthrow : forall before ev after,
            teardown_calls env s = before ++ ev :: after ->
            none_rejects env (trace s) before ->
            rejects env (trace s ++ before) ev = true ->
            connectToBoard env board s =
              (Throw (Rejected ev),
               set_connection None None
                 (log_all (before ++ [ev; disconnect_error; connect_error]) s))).
  { intros before ev after Hcalls Hall Hrej.
    destruct (disconnect_first_reject env s before ev after Hcalls Hall Hrej)
      as [[d Hd] Hdis].
    unfold connectToBoard, try_catch, bind at 1 2, gets at 1.
    rewrite Hd. simpl. rewrite Hdis. settle. }
  split; [|split; [exact Hok|split; [exact Hthrow|split]]].
  - intros Hnil. rewrite Hok; rewrite Hnil; [by rewrite log_all_nil|].
    intros [|??] ?? Heq; discriminate Heq.
  - intros e s' Hrun.
    destruct (first_reject_or_none env (trace s) (teardown_calls env s))
      as [Hall|(before & ev & after & Hcalls & Hall & Hrej)].
    + rewrite (Hok Hall) in Hrun. discriminate Hrun.
    + rewrite (Hthrow before ev after Hcalls Hall Hrej) in Hrun.
      injection Hrun as <- <-. split; [done|]. split; [done|].
      by exists before, ev, after.
  - intros path s1 Hconn Hinfo Hfile.
    destruct (first_reject_or_none env (trace s) (teardown_calls env s))
      as [Hall|(before & ev & after & Hcalls & Hall & Hrej)].
    + rewrite (Hok Hall) in Hconn. injection Hconn as <-.
      by apply upload_wifi_calls_ota.
    + rewrite (Hthrow before ev after Hcalls Hall Hrej) in Hconn. discriminate Hconn.
Qed.

Lemma wifi_connect_defers_io_witness :
  type shed_wifi = "wifi" /\
  teardown_calls (quiet ios) initial = [] /\
  connectToBoard (quiet ios) shed_wifi initial =
    (Ok true, set_connection (Some shed_wifi) (Some "wifi") initial) /\
  connectToBoard (quiet android) shed_wifi usb_ready =
    (Ok true,
     set_connection (Some shed_wifi) (Some "wifi")
       (log_all [UsbCloseDevice (VNum 1002); UsbDisconnectDevice (VNum 1002)] usb_ready)) /\
  connectToBoard usb_close_fails shed_wifi usb_ready =
    (Throw (Rejected (UsbCloseDevice (VNum 1002))),
     set_connection None None
       (log_all [UsbCloseDevice (VNum 1002); disconnect_error; connect_error] usb_ready)).
Proof.
  assert (Hty : type shed_wifi = "wifi") by reflexivity.
  assert (Hnil : teardown_calls (quiet ios) initial = []) by reflexivity.
  split; [exact Hty|]. split; [exact Hnil|].
  destruct (wifi_connect_defers_io (quiet ios) shed_wifi initial Hty) as (Hfresh & _).
  destruct (wifi_connect_defers_io (quiet android) shed_wifi usb_ready Hty)
    as (_ & Hclean & _).
  destruct (wifi_connect_defers_io usb_close_fails shed_wifi usb_ready Hty)
    as (_ & _ & Hfail & _).
  split; [exact (Hfresh Hnil)|]. split.
  - apply Hclean. intros before ev after _. reflexivity.
  - apply (Hfail [] (UsbCloseDevice (VNum 1002)) [UsbDisconnectDevice (VNum 1002)]).
    + reflexivity.
    + intros [|??] ?? Heq; discriminate Heq.
    + reflexivity.
Defined.

(** C10 fails as stated.  With the Uno connected over USB, connecting to a
    WiFi board calls the USB driver to close and disconnect the Uno; and when
    the driver fails to close the device, the WiFi connect fails, leaving
    nothing connected. *)
Lemma wifi_connect_fails_on_teardown :
  type shed_wifi = "wifi" /\
  connectToBoard (quiet android) uno_usb initial =
    (Ok true, set_connection (Some uno_usb) (Some "usb")
                (log_all [UsbConnectDevice (VNum 1002); UsbOpenDevice (VNum 1002) 115200;
                          UsbSetDataListener] initial)) /\
  connectToBoard (quiet android) shed_wifi
      (connectToBoard (quiet android) uno_usb initial).2 =
    (Ok true, set_connection (Some shed_wifi) (Some "wifi")
                (log_all [UsbConnectDevice (VNum 1002); UsbOpenDevice (VNum 1002) 115200;
                          UsbSetDataListener;
                          UsbCloseDevice (VNum 1002); UsbDisconnectDevice (VNum 1002)]
                         initial)) /\
  connectToBoard usb_close_fails uno_usb initial =
    (Ok true, set_connection (Some uno_usb) (Some "usb")
                (log_all [UsbConnectDevice (VNum 1002); UsbOpenDevice (VNum 1002) 115200;
                          UsbSetDataListener] initial)) /\
  connectToBoard usb_close_fails shed_wifi
      (connectToBoard usb_close_fails uno_usb initial).2 =
    (Throw (Rejected (UsbCloseDevice (VNum 1002))),
     log_all [UsbConnectDevice (VNum 1002); UsbOpenDevice (VNum 1002) 115200;
              UsbSetDataListener; UsbCloseDevice (VNum 1002);
              disconnect_error; connect_error] initial).
Proof. repeat split; vm_compute; reflexivity. Qed.

(** ** Firmware upload *)

Lemma transfer_Forall (P : Event -> Prop) (binary : string) (chunkSize delay : Z)
    (write : string -> Event) :
  (forall chunk, P (write chunk)) ->
  (forall num den, P (ProgressCallback num den)) ->
  P (Timeout delay) ->
  Forall P (transfer binary chunkSize delay write).
Proof.
  intros Hw Hp Ht. unfold transfer. apply Forall_concat, Forall_fmap, Forall_forall.
  intros i _. simpl. unfold chunk_events. repeat constructor; auto.
Qed.

Section UploadCases.

Context (env : Env).

(** What an upload lets out, by connection type. *)
Lemma upload_cases (path : string) (device : Board) (s : State) :
  connectedDevice s = Some device ->
  exists expected,
    runs_logged (uploadBinary env path) s expected upload_error /\
    (is_type (connectionType s) "usb" && UsbSerial env = true ->
     expected = usb_upload_events (id device) path (stored_binary s path)) /\
    (is_type (connectionType s) "usb" && UsbSerial env = false ->
     Forall (fun ev => is_control_line ev = false) expected).
Proof.
  intros Hdev.
  destruct (is_type (connectionType s) "usb" && UsbSerial env) eqn:Husb.
  { exists (usb_upload_events (id device) path (stored_binary s path)).
    split; [by apply upload_usb_runs|]. split; [done|discriminate]. }
  destruct (is_type (connectionType s) "ble" && BleManager env) eqn:Hble.
  { exists (ble_upload_events (id device) path (stored_binary s path)).
    split; [by apply upload_ble_runs|]. split; [discriminate|]. intros _.
    unfold ble_upload_events. apply Forall_app. split; [by repeat constructor|].
    by apply transfer_Forall. }
  destruct (is_type (connectionType s) "wifi" && EspOta env) eqn:Hwifi.
  { exists (wifi_upload_events env s device path).
    split; [by apply upload_wifi_runs|]. split; [discriminate|]. intros _.
    unfold wifi_upload_events. apply Forall_app. split; [by repeat constructor|].
    apply Forall_fmap, Forall_forall. done. }
  exists [FsGetInfo path].
  split; [by apply (upload_unsupported_runs env path device)|]. split; [discriminate|].
  intros _. by repeat constructor.
Qed.

End UploadCases.

(** C7: a USB upload first runs the bootloader-entry sequence (DTR low, RTS
    high, 250 ms, DTR high, 50 ms, RTS low), so that every chunk written comes
    after it; an upload that resolves has then sent the chunks and, after the
    last one, toggled DTR once more (low, 250 ms, high).  An upload over any
    other connection touches no control line. *)
Theorem usb_upload_toggles_control_lines (env : Env) (path : string) (device : Board)
    (s s' : State) (r : Result bool) :
  connectedDevice s = Some device ->
  uploadBinary env path s = (r, s') ->
  exists evs,
    trace s' = trace s ++ evs ++ match r with Ok _ => [] | Throw _ => [upload_error] end /\
    (is_type (connectionType s) "usb" && UsbSerial env = true ->
     (forall before ev after,
        evs = before ++ ev :: after -> is_chunk_write ev = true ->
        [FsGetInfo path] ++ bootloader_entry (id device) ++ [FsReadAsStringBase64 path]
          `prefix_of` before) /\
     (forall b, r = Ok b ->
        evs = [FsGetInfo path] ++ bootloader_entry (id device) ++
              [FsReadAsStringBase64 path] ++
              transfer (stored_binary s path) 128 10 (UsbWriteBase64 (id device)) ++
              board_reset (id device))) /\
    (is_type (connectionType s) "usb" && UsbSerial env = false ->
     Forall (fun ev => is_control_line ev = false) evs).
Proof.
  intros Hdev Hrun.
  destruct (upload_cases env path device s Hdev) as (expected & (evs & Hlog) & Husb & Hother).
  rewrite Hrun in Hlog. simpl in Hlog. exists evs.
  assert (Hpre : evs `prefix_of` expected).
  { destruct r; destruct Hlog as [Hevs _]; [by subst|done]. }
  split; [|split].
  - destruct r; destruct Hlog as [_ ->]; simpl; by rewrite ?app_nil_r.
  - intros Hcond. specialize (Husb Hcond). subst expected. split.
    + intros before ev after Hevs Hwrite.
      unfold usb_upload_events in Hpre.
      rewrite (app_assoc [FsGetInfo path]), (app_assoc _ [_]) in Hpre.
      rewrite (app_assoc [FsGetInfo path]).
      eapply prefix_before_event; [exact Hpre|exact Hevs|].
      intros Hin. simpl in Hin.
      repeat (apply elem_of_cons in Hin as [->|Hin]; [discriminate Hwrite|]).
      by apply elem_of_nil in Hin.
    + intros b ->. by destruct Hlog as [-> _].
  - intros Hcond. eapply Forall_prefix; [exact Hpre|]. by apply Hother.
Qed.

Lemma usb_upload_toggles_control_lines_witness :
  connectedDevice usb_ready = Some uno_usb /\
  uploadBinary (quiet android) "fw.bin" usb_ready =
    (Ok true, (uploadBinary (quiet android) "fw.bin" usb_ready).2) /\
  is_type (connectionType usb_ready) "usb" && UsbSerial (quiet android) = true /\
  trace (uploadBinary (quiet android) "fw.bin" usb_ready).2 =
    trace usb_ready ++
    [FsGetInfo "fw.bin";
     UsbSetDTR (VNum 1002) false; UsbSetRTS (VNum 1002) true; Timeout 250;
     UsbSetDTR (VNum 1002) true; Timeout 50; UsbSetRTS (VNum 1002) false;
     FsReadAsStringBase64 "fw.bin";
     UsbWriteBase64 (VNum 1002) "VVVVVVU="; ProgressCallback 1 1; Timeout 10;
     UsbSetDTR (VNum 1002) false; Timeout 250; UsbSetDTR (VNum 1002) true].
Proof.
  assert (Hdev : connectedDevice usb_ready = Some uno_usb) by reflexivity.
  assert (Hrun : uploadBinary (quiet android) "fw.bin" usb_ready =
                   (Ok true, (uploadBinary (quiet android) "fw.bin" usb_ready).2))
    by (vm_compute; reflexivity).
  assert (Husb : is_type (connectionType usb_ready) "usb" && UsbSerial (quiet android)
                 = true) by reflexivity.
  split; [exact Hdev|]. split; [exact Hrun|]. split; [exact Husb|].
  destruct (usb_upload_toggles_control_lines _ _ _ _ _ _ Hdev Hrun)
    as (evs & Htrace & Hcase & _).
  destruct (Hcase Husb) as [_ Hall].
  rewrite Htrace, (Hall true eq_refl), app_nil_r. reflexivity.
Defined.

(** *** Base64 text and its chunks *)

Lemma base64_length (bs : list Byte.byte) :
  String.length (base64_encode bs) = (4 * ((length bs + 2) / 3))%nat.
Proof.
  assert (H : forall n (l : list Byte.byte), (length l <= n)%nat ->
            String.length (base64_encode l) = (4 * ((length l + 2) / 3))%nat).
  { induction n as [|n IH]; intros l Hl.
    - destruct l; [reflexivity|simpl in Hl; lia].
    - destruct l as [|a [|b [|c rest]]]; try reflexivity.
      cbn [base64_encode String.length length].
      rewrite IH by (simpl in Hl; lia).
      replace (S (S (S (length rest))) + 2)%nat with (length rest + 2 + 1 * 3)%nat by lia.
      rewrite Nat.div_add by lia. lia. }
  by apply (H (length bs)).
Qed.









Section Transfer.

Context (binary : string) (chunkSize delay : Z) (write : string -> Event).
Context (Hwrite : forall chunk rest,
           chunks_written (write chunk :: rest) = chunk :: chunks_written rest).
Context (Hquiet : forall chunk rest,
           progress_reported (write chunk :: rest) = progress_reported rest).

Lemma chunks_written_rounds (l : list Z) :
  chunks_written (concat (chunk_events binary chunkSize delay write <$> l)) =
    chunk_at binary chunkSize <$> l.
Proof.
  induction l as [|i l IH]; [reflexivity|].
  cbn [fmap list_fmap concat]. unfold chunk_events at 1. cbn [app].
  rewrite Hwrite. f_equal. exact IH.
Qed.

Lemma progress_reported_rounds (l : list Z) :
  progress_reported (concat (chunk_events binary chunkSize delay write <$> l)) =
    (fun i => (i + 1, total_chunks binary chunkSize)) <$> l.
Proof.
  induction l as [|i l IH]; [reflexivity|].
  cbn [fmap list_fmap concat]. unfold chunk_events at 1. cbn [app].
  rewrite Hquiet. cbn [progress_reported omap list_omap].
  f_equal. exact IH.
Qed.

End Transfer.

Section Resolved.

Context (env : Env).

(** What a chunked upload that resolves has let out: something before the
    chunk loop, the loop, something after, with all chunk writes and progress
    reports in the loop. *)
Lemma upload_resolved (path : string) (device : Board) (s s' : State)
    (chunkSize : Z) (b : bool) :
  connectedDevice s = Some device ->
  chunked_connection env s chunkSize ->
  uploadBinary env path s = (Ok b, s') ->
  exists (before after : list Event) (delay : Z) (write : string -> Event),
    trace s' = trace s ++ before ++
                 transfer (stored_binary s path) chunkSize delay write ++ after /\
    chunks_written before = [] /\ progress_reported before = [] /\
    chunks_written after = [] /\ progress_reported after = [] /\
    (forall chunk rest,
       chunks_written (write chunk :: rest) = chunk :: chunks_written rest) /\
    (forall chunk rest,
       progress_reported (write chunk :: rest) = progress_reported rest).
Proof.
  intros Hdev [[Husb ->]|(Husb & Hble & ->)] Hrun.
  - destruct (upload_usb_runs env path device s Hdev Husb) as (evs & Hlog).
    rewrite Hrun in Hlog. simpl in Hlog. destruct Hlog as [-> ->].
    exists ([FsGetInfo path] ++ bootloader_entry (id device) ++ [FsReadAsStringBase64 path]),
           (board_reset (id device)), 10, (UsbWriteBase64 (id device)).
    split; [|done]. unfold usb_upload_events. simpl. by rewrite <- ?app_assoc.
  - destruct (upload_ble_runs env path device s Hdev Husb Hble) as (evs & Hlog).
    rewrite Hrun in Hlog. simpl in Hlog. destruct Hlog as [-> ->].
    exists [FsGetInfo path; FsReadAsStringBase64 path], [], 50,
           (BleWriteBase64 (id device) "FFE0" "FFE1").
    split; [|done]. unfold ble_upload_events. simpl. by rewrite ?app_nil_r.
Qed.

End Resolved.



(** C3 (as the code has it): in a USB or BLE upload that resolves, each
    round of the chunk loop writes the next chunk of the Base64 text, then
    calls the progress callback with (chunks written so far) / (number of
    chunks), then pauses.  Over BLE (20-character chunks) a binary whose
    Base64 text has 300 characters goes out in 15 chunks with progress 1/15,
    2/15, ..., 15/15; a binary of 300 bytes has 400 characters of Base64 text
    and goes out in 20 chunks with progress 1/20, ..., 20/20. *)
Theorem progress_counts_chunks (env : Env) (path : string) (device : Board)
    (s s' : State) (chunkSize : Z) :
  connectedDevice s = Some device ->
  chunked_connection env s chunkSize ->
  uploadBinary env path s = (Ok true, s') ->
  let binary := stored_binary s path in
  let totalChunks := ceil_div (Z.of_nat (String.length binary)) chunkSize in
  exists (before after : list Event) (delay : Z) (write : string -> Event),
    trace s' =
      trace s ++ before ++
      concat ((fun i => [write (chunk_at binary chunkSize i);
                         ProgressCallback (i + 1) totalChunks;
                         Timeout delay]) <$> seqZ 0 totalChunks) ++
      after /\
    chunks_written before = [] /\ progress_reported before = [] /\
    chunks_written after = [] /\ progress_reported after = [] /\
    (forall chunk, chunks_written [write chunk] = [chunk]) /\
    (chunkSize = 20 -> String.length binary = 300%nat ->
     totalChunks = 15 /\
     progress_reported (drop (length (trace s)) (trace s')) =
       (fun k => (k, 15)) <$> seqZ 1 15) /\
    (chunkSize = 20 -> length (default [] (files s !! path)) = 300%nat ->
     totalChunks = 20 /\
     progress_reported (drop (length (trace s)) (trace s')) =
       (fun k => (k, 20)) <$> seqZ 1 20).
Proof.
  intros Hdev Hconn Hrun binary totalChunks.
  destruct (upload_resolved env path device s s' chunkSize true Hdev Hconn Hrun)
    as (before & after & delay & write & Htrace & Hb1 & Hb2 & Ha1 & Ha2 & Hw & Hq).
  exists before, after, delay, write.
  split; [exact Htrace|]. do 4 (split; [assumption|]).
  split; [intros chunk; by rewrite Hw|].
  assert (Hprogress : progress_reported (drop (length (trace s)) (trace s')) =
                        (fun i => (i + 1, totalChunks)) <$> seqZ 0 totalChunks).
  { rewrite Htrace, drop_app_length. unfold progress_reported in *.
    rewrite !omap_app, Hb2, Ha2, app_nil_r. simpl.
    by apply progress_reported_rounds. }
  split.
  - intros -> Hlen.
    assert (Htotal : totalChunks = 15)
      by (unfold totalChunks, ceil_div; fold binary; rewrite Hlen; reflexivity).
    split; [exact Htotal|]. rewrite Hprogress, Htotal. reflexivity.
  - intros -> Hlen.
    assert (Htotal : totalChunks = 20).
    { unfold totalChunks, ceil_div, binary, stored_binary.
      rewrite base64_length, Hlen. reflexivity. }
    split; [exact Htotal|]. rewrite Hprogress, Htotal. reflexivity.
Qed.

Lemma progress_counts_chunks_witness :
  connectedDevice (ble_ready 225) = Some nano_ble_board /\
  chunked_connection (quiet ios) (ble_ready 225) 20 /\
  uploadBinary (quiet ios) "fw.bin" (ble_ready 225) =
    (Ok true, (uploadBinary (quiet ios) "fw.bin" (ble_ready 225)).2) /\
  String.length (stored_binary (ble_ready 225) "fw.bin") = 300%nat /\
  progress_reported (drop (length (trace (ble_ready 225)))
                          (trace (uploadBinary (quiet ios) "fw.bin" (ble_ready 225)).2))
    = [(1, 15); (2, 15); (3, 15); (4, 15); (5, 15); (6, 15); (7, 15); (8, 15);
       (9, 15); (10, 15); (11, 15); (12, 15); (13, 15); (14, 15); (15, 15)].
Proof.
  assert (Hdev : connectedDevice (ble_ready 225) = Some nano_ble_board) by reflexivity.
  assert (Hconn : chunked_connection (quiet ios) (ble_ready 225) 20)
    by (right; repeat split; reflexivity).
  assert (Hrun : uploadBinary (quiet ios) "fw.bin" (ble_ready 225) =
                   (Ok true, (uploadBinary (quiet ios) "fw.bin" (ble_ready 225)).2))
    by (vm_compute; reflexivity).
  assert (Hlen : String.length (stored_binary (ble_ready 225) "fw.bin") = 300%nat)
    by (vm_compute; reflexivity).
  split; [exact Hdev|]. split; [exact Hconn|]. split; [exact Hrun|].
  split; [exact Hlen|].
  destruct (progress_counts_chunks _ _ _ _ _ _ Hdev Hconn Hrun)
    as (before & after & delay & write & _ & _ & _ & _ & _ & _ & H300 & _).
  destruct (H300 eq_refl Hlen) as [_ Hprogress]. rewrite Hprogress. reflexivity.
Defined.

(** C3 fails as stated.  A 300-byte binary uploaded over BLE goes out in 20
    chunks, not 15, with progress 1/20, ..., 20/20.  And progress is not
    bytes sent over total bytes: of a 16-byte binary (24 characters of Base64
    text) the first chunk carries 20 of the 24 characters, yet the progress
    reported after it is 1/2. *)
Lemma upload_300_bytes_sends_20_chunks :
  length (payload 300) = 300%nat /\
  (uploadBinary (quiet ios) "fw.bin" (ble_ready 300)).1 = Ok true /\
  length (chunks_written
            (drop (length (trace (ble_ready 300)))
                  (trace (uploadBinary (quiet ios) "fw.bin" (ble_ready 300)).2)))
    = 20%nat /\
  progress_reported
    (drop (length (trace (ble_ready 300)))
          (trace (uploadBinary (quiet ios) "fw.bin" (ble_ready 300)).2))
    = (fun k => (k, 20)) <$> seqZ 1 20 /\
  length (payload 16) = 16%nat /\
  (uploadBinary (quiet ios) "fw.bin" (ble_ready 16)).1 = Ok true /\
  chunks_written
    (drop (length (trace (ble_ready 16)))
          (trace (uploadBinary (quiet ios) "fw.bin" (ble_ready 16)).2))
    = ["VVVVVVVVVVVVVVVVVVVV"; "VQ=="] /\
  progress_reported
    (drop (length (trace (ble_ready 16)))
          (trace (uploadBinary (quiet ios) "fw.bin" (ble_ready 16)).2))
    = [(1, 2); (2, 2)].
Proof. repeat split; vm_compute; reflexivity. Qed.

(** ** Downloading binaries *)

(** Reading a run that returned backwards, one statement at a time. *)
Lemma bind_ok {A B} (m : M A) (k : A -> M B) (s s' : State) (b : B) :
  bind m k s = (Ok b, s') -> exists a s1, m s = (Ok a, s1) /\ k a s1 = (Ok b, s').
Proof. unfold bind. destruct (m s) as [[a|e] s1]; [eauto|discriminate]. Qed.

Lemma try_catch_ok {A} (m : M A) (label : string) (s s' : State) (a : A) :
  try_catch m (fun error => emit (ConsoleError label) ;; throw error) s = (Ok a, s') ->
  m s = (Ok a, s').
Proof. unfold try_catch. destruct (m s) as [[a'|e] s1]; [done|discriminate]. Qed.

Lemma call_ok (env : Env) (ev : Event) (s s' : State) (u : unit) :
  call env ev s = (Ok u, s') -> s' = log ev s.
Proof. unfold call. destruct (rejects env (trace s) ev); [discriminate|]. by intros [= _ <-]. Qed.

Lemma json_roundtrip_idemp (o : obj) : json_roundtrip (json_roundtrip o) = json_roundtrip o.
Proof.
  apply map_eq. intros k. unfold json_roundtrip. rewrite !map_lookup_filter.
  destruct (o !! k) as [v|]; simpl; [|done].
  case_guard; simpl; [|done]. by case_guard.
Qed.

Section Download.

Context (env : Env).

Lemma getCompilationStatus_ok (compilationId : string) (s s' : State) (status : obj) :
  getCompilationStatus env compilationId s = (Ok status, s') ->
  exists evs,
    s' = log_all evs s /\ downloads evs = [].
Proof.
  intros H. apply try_catch_ok in H.
  apply bind_ok in H as (token & s1 & Htok & H).
  unfold AsyncStorage_getItem in Htok.
  apply bind_ok in Htok as (u & s0 & Hcall & Hget). apply call_ok in Hcall. subst s0.
  injection Hget as <- <-.
  apply bind_ok in H as (tr & s2 & Htr & H). injection Htr as <- <-.
  apply bind_ok in H as (u2 & s3 & Hcall & H). apply call_ok in Hcall. subst s3.
  cbv zeta in H. destruct (negb (ok _)); [discriminate H|]. injection H as _ <-.
  eexists [_; _]. split; [settle|reflexivity].
Qed.

End Download.

Section DownloadCalls.

Context (env : Env).

Lemma getCompilationStatus_ok_trace (compilationId : string) (s s' : State) (status : obj) :
  getCompilationStatus env compilationId s = (Ok status, s') ->
  s' = log_all [StorageGetItem "auth_token";
                FetchGet (API_BASE_URL env +:+ "/v1/compile/" +:+ compilationId)
                         (bearer_of (auth_token (storage s)))] s.
Proof.
  intros H. apply try_catch_ok in H.
  apply bind_ok in H as (token & s1 & Htok & H).
  unfold AsyncStorage_getItem in Htok.
  apply bind_ok in Htok as (u & s0 & Hcall & Hget). apply call_ok in Hcall. subst s0.
  injection Hget as <- <-.
  apply bind_ok in H as (tr & s2 & Htr & H). injection Htr as <- <-.
  apply bind_ok in H as (u2 & s3 & Hcall & H). apply call_ok in Hcall. subst s3.
  cbv zeta in H. destruct (negb (ok _)); [discriminate H|]. injection H as _ <-.
  settle.
Qed.

(** A download that resolves, call by call: where the artifact comes from,
    where it goes, and what is recorded. *)
Lemma download_ok_trace (compilationId fileName uri : string) (s s' : State) :
  downloadBinary env compilationId fileName s = (Ok uri, s') ->
  uri = (documentDirectory env +:+ "binaries") +:+ "/" +:+ fileName /\
  trace s' = trace s ++ download_events env s compilationId fileName /\
  files s' = <[uri := http_download env (trace s ++ download_prelude env s)
                        (API_BASE_URL env +:+ "/v1/binaries/" +:+ compilationId)]>
               (files s) /\
  exists record,
    prop record "id" = VStr compilationId /\
    prop record "fileName" = VStr fileName /\
    prop record "uri" = VStr uri /\
    binaries s' = (json_roundtrip <$> binaries s) ++ [record].
Proof.
  intros H. apply try_catch_ok in H.
  apply bind_ok in H as (token & s1 & Htok & H).
  unfold AsyncStorage_getItem in Htok.
  apply bind_ok in Htok as (u & s0 & Hcall & Hget). apply call_ok in Hcall. subst s0.
  injection Hget as <- <-.
  apply bind_ok in H as (dir_exists & s2 & Hinfo & H).
  unfold FileSystem_getInfoAsync in Hinfo.
  apply bind_ok in Hinfo as (u1 & s0 & Hcall & Hget). apply call_ok in Hcall. subst s0.
  injection Hget as <- <-.
  apply bind_ok in H as (u2 & s3 & Hmk & H).
  change (files (log (FsGetInfo (documentDirectory env +:+ "binaries"))
                   (log (StorageGetItem "auth_token") s))) with (files s) in Hmk.
  change (directories (log (FsGetInfo (documentDirectory env +:+ "binaries"))
                         (log (StorageGetItem "auth_token") s)))
    with (directories s) in Hmk.
  assert (Hs3 : trace s3 = trace s ++ download_prelude env s /\
                storage s3 = storage s /\ files s3 = files s).
  { unfold download_prelude. cbv zeta.
    destruct (bool_decide _ || bool_decide _); cbn [negb] in Hmk.
    - injection Hmk as _ <-. split; [|done]. simpl. by rewrite <- !app_assoc.
    - unfold FileSystem_makeDirectoryAsync in Hmk.
      apply bind_ok in Hmk as (u3 & s0 & Hcall & Hmod). apply call_ok in Hcall. subst s0.
      injection Hmod as _ <-. split; [|done]. simpl. by rewrite <- !app_assoc. }
  destruct Hs3 as (Ht3 & Hst3 & Hf3). clear Hmk.
  apply bind_ok in H as (uri' & s4 & Hdl & H).
  unfold FileSystem_downloadAsync in Hdl.
  apply bind_ok in Hdl as (tr & s0 & Htr & Hdl). injection Htr as <- <-.
  apply bind_ok in Hdl as (u4 & s0 & Hcall & Hdl). apply call_ok in Hcall. subst s0.
  apply bind_ok in Hdl as (u5 & s0 & Hmod & Hret). injection Hmod as _ <-.
  injection Hret as <- <-.
  apply bind_ok in H as (binariesJson & s5 & Hbin & H).
  unfold AsyncStorage_getItem in Hbin.
  apply bind_ok in Hbin as (u6 & s0 & Hcall & Hget). apply call_ok in Hcall. subst s0.
  injection Hget as <- <-.
  apply bind_ok in H as (timestamp & s6 & Hnow & H). injection Hnow as <- <-.
  apply bind_ok in H as (status & s7 & Hstatus & H).
  apply getCompilationStatus_ok_trace in Hstatus. subst s7.
  apply bind_ok in H as (u8 & s8 & Hset & H). injection H as <- <-.
  unfold AsyncStorage_setItem in Hset.
  apply bind_ok in Hset as (u9 & s0 & Hcall & Hmod). apply call_ok in Hcall. subst s0.
  injection Hmod as _ <-.
  split; [reflexivity|]. split; [|split].
  - unfold download_events. cbv zeta. simpl. rewrite Ht3, Hst3.
    by rewrite <- !app_assoc.
  - simpl. by rewrite Ht3, Hf3.
  - eexists. unfold binaries at 1. simpl. rewrite fmap_app. simpl.
    rewrite Hst3. fold (binaries s).
    split; [|split; [|split; [|reflexivity]]]; by rewrite prop_json_roundtrip.
Qed.

Lemma downloads_download_events (s : State) (compilationId fileName : string) :
  downloads (download_events env s compilationId fileName) =
    [API_BASE_URL env +:+ "/v1/binaries/" +:+ compilationId].
Proof.
  unfold download_events, download_prelude, downloads. cbv zeta.
  rewrite !omap_app. by destruct (bool_decide _ || bool_decide _).
Qed.

End DownloadCalls.

(** C6 (as the code has it): [downloadBinary] looks nothing up before it
    downloads.  Every call that resolves has, after reading the token and
    making sure the binaries directory exists, downloaded the artifact from
    the server into documentDirectory/binaries/<fileName>, which then holds
    what the server sent, and only then read the persisted list
    'compiled_binaries' and appended a record carrying the compilation id and
    that uri.  A second call for the same id that resolves has made the same
    calls again, downloading the artifact once more into the same file, and
    has appended a second record with that id. *)
Theorem download_never_served_from_cache (env : Env) (compilationId fileName : string)
    (uri1 : string) (s s1 : State) :
  downloadBinary env compilationId fileName s = (Ok uri1, s1) ->
  let url := API_BASE_URL env +:+ "/v1/binaries/" +:+ compilationId in
  let destination := (documentDirectory env +:+ "binaries") +:+ "/" +:+ fileName in
  uri1 = destination /\
  trace s1 = trace s ++ download_events env s compilationId fileName /\
  downloads (drop (length (trace s)) (trace s1)) = [url] /\
  files s1 !! destination = Some (http_download env (trace s ++ download_prelude env s) url) /\
  exists record1,
    prop record1 "id" = VStr compilationId /\
    prop record1 "uri" = VStr destination /\
    binaries s1 = (json_roundtrip <$> binaries s) ++ [record1] /\
    forall uri2 s2,
      downloadBinary env compilationId fileName s1 = (Ok uri2, s2) ->
      uri2 = uri1 /\
      trace s2 = trace s1 ++ download_events env s1 compilationId fileName /\
      downloads (drop (length (trace s1)) (trace s2)) = [url] /\
      files s2 !! destination =
        Some (http_download env (trace s1 ++ download_prelude env s1) url) /\
      exists record2,
        prop record2 "id" = VStr compilationId /\
        prop record2 "uri" = VStr destination /\
        binaries s2 =
          (json_roundtrip <$> binaries s) ++ [json_roundtrip record1; record2].
Proof.
  intros H1 url destination.
  apply download_ok_trace in H1 as (-> & Ht1 & Hf1 & r1 & Hid1 & _ & Huri1 & Hb1).
  split; [done|]. split; [done|].
  split; [by rewrite Ht1, drop_app_length, downloads_download_events|].
  split; [by rewrite Hf1, lookup_insert_eq|].
  exists r1. split; [done|]. split; [done|]. split; [done|].
  intros uri2 s2 H2.
  apply download_ok_trace in H2 as (-> & Ht2 & Hf2 & r2 & Hid2 & _ & Huri2 & Hb2).
  split; [done|]. split; [done|].
  split; [by rewrite Ht2, drop_app_length, downloads_download_events|].
  split; [by rewrite Hf2, lookup_insert_eq|].
  exists r2. split; [done|]. split; [done|].
  rewrite Hb2, Hb1, fmap_app, <- list_fmap_compose, <- app_assoc. simpl.
  f_equal. apply list_fmap_ext. intros _ o _. apply json_roundtrip_idemp.
Qed.

Lemma download_never_served_from_cache_witness :
  downloadBinary uno_server "c42" "blink.bin" initial =
    (Ok "file:///data/binaries/blink.bin",
     (downloadBinary uno_server "c42" "blink.bin" initial).2) /\
  trace (downloadBinary uno_server "c42" "blink.bin" initial).2 =
    [StorageGetItem "auth_token"; FsGetInfo "file:///data/binaries";
     FsMakeDirectory "file:///data/binaries";
     FsDownload "https://api.simpiler.com/v1/binaries/c42"
                "file:///data/binaries/blink.bin" None;
     StorageGetItem "compiled_binaries"; StorageGetItem "auth_token";
     FetchGet "https://api.simpiler.com/v1/compile/c42" None;
     StorageSetItem "compiled_binaries"] /\
  downloads
    (drop (length (trace (downloadBinary uno_server "c42" "blink.bin" initial).2))
          (trace (downloadBinary uno_server "c42" "blink.bin"
                    (downloadBinary uno_server "c42" "blink.bin" initial).2).2))
    = ["https://api.simpiler.com/v1/binaries/c42"].
Proof.
  assert (H1 : downloadBinary uno_server "c42" "blink.bin" initial =
                 (Ok "file:///data/binaries/blink.bin",
                  (downloadBinary uno_server "c42" "blink.bin" initial).2))
    by (vm_compute; reflexivity).
  assert (H2 : downloadBinary uno_server "c42" "blink.bin"
                 (downloadBinary uno_server "c42" "blink.bin" initial).2 =
               (Ok "file:///data/binaries/blink.bin",
                (downloadBinary uno_server "c42" "blink.bin"
                   (downloadBinary uno_server "c42" "blink.bin" initial).2).2))
    by (vm_compute; reflexivity).
  split; [exact H1|].
  destruct (download_never_served_from_cache _ _ _ _ _ _ H1)
    as (_ & Htrace & _ & _ & record1 & _ & _ & _ & Hagain).
  split; [rewrite Htrace; vm_compute; reflexivity|].
  destruct (Hagain _ _ H2) as (_ & _ & Hdl & _). exact Hdl.
Defined.

(** C6 fails as stated: two requests for the binary of compilation c42 issue
    two downloads of the same url and leave two records with that id. *)
Lemma binary_downloaded_twice :
  (downloadBinary uno_server "c42" "blink.bin" initial).1 =
    Ok "file:///data/binaries/blink.bin" /\
  (downloadBinary uno_server "c42" "blink.bin"
     (downloadBinary uno_server "c42" "blink.bin" initial).2).1 =
    Ok "file:///data/binaries/blink.bin" /\
  downloads
    (trace (downloadBinary uno_server "c42" "blink.bin"
              (downloadBinary uno_server "c42" "blink.bin" initial).2).2)
    = ["https://api.simpiler.com/v1/binaries/c42";
       "https://api.simpiler.com/v1/binaries/c42"] /\
  (fun record => prop record "id")
    <$> binaries (downloadBinary uno_server "c42" "blink.bin"
                    (downloadBinary uno_server "c42" "blink.bin" initial).2).2
    = [VStr "c42"; VStr "c42"].
Proof. repeat split; vm_compute; reflexivity. Qed.

(** * Further properties of the services *)

(** ** Methods that only make calls *)

Section OnlyLogs.

Context (env : Env).

Lemma only_logs_ret {A} (a : A) : only_logs (ret a).
Proof. intros s. exists []. by rewrite log_all_nil. Qed.

Lemma only_logs_throw {A} (e : exn) : only_logs (@throw A e).
Proof. intros s. exists []. by rewrite log_all_nil. Qed.

Lemma only_logs_lift {A} (r : Result A) : only_logs (lift r).
Proof. intros s. exists []. by rewrite log_all_nil. Qed.

Lemma only_logs_gets {A} (f : State -> A) : only_logs (gets f).
Proof. intros s. exists []. by rewrite log_all_nil. Qed.

Lemma only_logs_call (ev : Event) : only_logs (call env ev).
Proof. intros s. exists [ev]. unfold call. by destruct (rejects env (trace s) ev). Qed.

Lemma only_logs_emit (ev : Event) : only_logs (emit ev).
Proof. intros s. by exists [ev]. Qed.

Lemma only_logs_bind {A B} (m : M A) (k : A -> M B) :
  only_logs m -> (forall a, only_logs (k a)) -> only_logs (bind m k).
Proof.
  intros Hm Hk s. destruct (Hm s) as (evs & Hs). unfold bind.
  destruct (m s) as [[a|e] s1]; simpl in *; [|by exists evs].
  destruct (Hk a s1) as (evs2 & Hs2). exists (evs ++ evs2).
  by rewrite Hs2, Hs, log_all_app.
Qed.

Lemma only_logs_try_catch {A} (m : M A) (h : exn -> M A) :
  only_logs m -> (forall e, only_logs (h e)) -> only_logs (try_catch m h).
Proof.
  intros Hm Hh s. destruct (Hm s) as (evs & Hs). unfold try_catch.
  destruct (m s) as [[a|e] s1]; simpl in *; [by exists evs|].
  destruct (Hh e s1) as (evs2 & Hs2). exists (evs ++ evs2).
  by rewrite Hs2, Hs, log_all_app.
Qed.

Lemma only_logs_for_of {A} (l : list A) (body : A -> M unit) :
  (forall x, only_logs (body x)) -> only_logs (for_of l body).
Proof.
  intros Hbody. induction l as [|x l IH]; [apply only_logs_ret|].
  apply only_logs_bind; [apply Hbody|]. intros _. exact IH.
Qed.

Lemma only_logs_for_of_acc {A B} (l : list A) (acc : B) (body : A -> B -> M B) :
  (forall x b, only_logs (body x b)) -> only_logs (for_of_acc l acc body).
Proof.
  intros Hbody. revert acc. induction l as [|x l IH]; intros acc; [apply only_logs_ret|].
  apply only_logs_bind; [apply Hbody|]. intros acc'. apply IH.
Qed.

Lemma only_logs_for_range (count : nat) (start : Z) (body : Z -> M unit) :
  (forall i, only_logs (body i)) -> only_logs (for_range count start body).
Proof.
  intros Hbody. revert start. induction count as [|n IH]; intros start;
    [apply only_logs_ret|].
  apply only_logs_bind; [apply Hbody|]. intros _. apply IH.
Qed.

End OnlyLogs.

(** Proves [only_logs] of a method built from calls, reads and loops. *)
Ltac only_logs :=
  repeat first
    [ apply only_logs_try_catch | apply only_logs_bind | apply only_logs_ret
    | apply only_logs_throw | apply only_logs_gets | apply only_logs_call
    | apply only_logs_emit | apply only_logs_lift
    | apply only_logs_for_of | apply only_logs_for_of_acc | apply only_logs_for_range
    | progress intros
    | match goal with
      | |- only_logs (match ?x with _ => _ end) => destruct x
      | |- only_logs (let _ := _ in _) => cbv zeta
      end ].

Section OnlyLogsMethods.

Context (env : Env).

Lemma uploadBinary_only_logs (path : string) : only_logs (uploadBinary env path).
Proof.
  unfold uploadBinary, FileSystem_getInfoAsync, FileSystem_readAsStringAsync,
    upload_chunks, sleep. only_logs.
Qed.

Lemma sendData_only_logs (data : string) : only_logs (sendData env data).
Proof. unfold sendData. only_logs. Qed.

Lemma getAvailableBoards_only_logs : only_logs (getAvailableBoards env).
Proof. unfold getAvailableBoards, AsyncStorage_getItem. only_logs. Qed.

Lemma dataListener_only_logs (data : string) : only_logs (dataListener env data).
Proof. unfold dataListener. only_logs. Qed.

Lemma getCompilationStatus_only_logs (compilationId : string) :
  only_logs (getCompilationStatus env compilationId).
Proof. unfold getCompilationStatus, AsyncStorage_getItem. only_logs. Qed.

Lemma getBoardDetails_only_logs (boardId : string) :
  only_logs (getBoardDetails env boardId).
Proof. unfold getBoardDetails, AsyncStorage_getItem. only_logs. Qed.

End OnlyLogsMethods.

Lemma only_logs_unchanged {A} (m : M A) (s : State) :
  only_logs m -> unchanged_but_trace s (m s).2.
Proof.
  intros Hm. destruct (Hm s) as (evs & ->). repeat split. by exists evs.
Qed.

(** X1: uploading, sending, scanning, delivering a chunk and asking the
    server for a status or for board details change nothing in the service
    or on the device but the record of calls made: whether they return or
    throw, the connection, the subscriptions, the persisted storage and the
    files are as before. *)
Theorem requests_change_only_the_trace (env : Env) (s : State) :
  (forall path, unchanged_but_trace s (uploadBinary env path s).2) /\
  (forall data, unchanged_but_trace s (sendData env data s).2) /\
  unchanged_but_trace s (getAvailableBoards env s).2 /\
  (forall data, unchanged_but_trace s (dataListener env data s).2) /\
  (forall compilationId,
     unchanged_but_trace s (getCompilationStatus env compilationId s).2) /\
  (forall boardId, unchanged_but_trace s (getBoardDetails env boardId s).2).
Proof.
  split; [intros path; apply only_logs_unchanged, uploadBinary_only_logs|].
  split; [intros data; apply only_logs_unchanged, sendData_only_logs|].
  split; [apply only_logs_unchanged, getAvailableBoards_only_logs|].
  split; [intros data; apply only_logs_unchanged, dataListener_only_logs|].
  split; [intros id; apply only_logs_unchanged, getCompilationStatus_only_logs|].
  intros id; apply only_logs_unchanged, getBoardDetails_only_logs.
Qed.

(** ** Error paths of upload and send *)

(** X2: [uploadBinary] with no board connected throws 'No board connected'
    without making any call; with a board connected but no file at the path it
    throws 'Binary file not found' after the file check alone, before any
    driver call: no control line is toggled and nothing is written. *)
Theorem upload_needs_board_and_file (env : Env) (path : string) (s : State) :
  (connectedDevice s = None ->
   uploadBinary env path s = (Throw no_board_connected, log_all [upload_error] s)) /\
  (is_Some (connectedDevice s) ->
   rejects env (trace s) (FsGetInfo path) = false ->
   files s !! path = None -> path ∉ directories s ->
   uploadBinary env path s =
     (Throw binary_file_not_found, log_all [FsGetInfo path; upload_error] s)).
Proof.
  split.
  - intros Hnone. unfold uploadBinary, try_catch, bind at 1, gets at 1.
    rewrite Hnone. reflexivity.
  - intros [device Hdev] Hinfo Hfile Hdir.
    unfold uploadBinary, try_catch, bind at 1, gets at 1. rewrite Hdev.
    unfold bind at 1, FileSystem_getInfoAsync, bind at 1, call at 1. rewrite Hinfo.
    unfold gets at 1.
    change (files (log (FsGetInfo path) s)) with (files s).
    change (directories (log (FsGetInfo path) s)) with (directories s).
    rewrite Hfile.
    rewrite (bool_decide_eq_false_2 (is_Some None)) by (intros [? ?]; discriminate).
    rewrite (bool_decide_eq_false_2 _ Hdir). simpl. settle.
Qed.

Lemma upload_needs_board_and_file_witness :
  connectedDevice initial = None /\
  uploadBinary (quiet android) "fw.bin" initial =
    (Throw no_board_connected, log_all [upload_error] initial) /\
  is_Some (connectedDevice usb_ready) /\
  uploadBinary (quiet android) "missing.bin" usb_ready =
    (Throw binary_file_not_found,
     log_all [FsGetInfo "missing.bin"; upload_error] usb_ready).
Proof.
  destruct (upload_needs_board_and_file (quiet android) "fw.bin" initial) as [Hnone _].
  destruct (upload_needs_board_and_file (quiet android) "missing.bin" usb_ready)
    as [_ Hfile].
  split; [reflexivity|]. split; [exact (Hnone eq_refl)|].
  assert (Hdev : is_Some (connectedDevice usb_ready)) by (vm_compute; eauto).
  split; [exact Hdev|].
  apply (Hfile Hdev); [reflexivity|by vm_compute|].
  vm_compute. intros H. inversion H.
Defined.

(** X3: [sendData] over a WiFi connection makes no call and throws 'Cannot
    send data over wifi connection'; with nothing connected it throws 'No
    board connected'.  Whenever it resolves it resolved to true after exactly
    one write of the data, unchanged, to the connected device: a USB write, or
    a BLE write on service FFE0, characteristic FFE1. *)
Theorem sendData_by_connection (env : Env) (data : string) (s : State) :
  (connectedDevice s = None ->
   sendData env data s = (Throw no_board_connected, log_all [send_error] s)) /\
  (is_Some (connectedDevice s) -> connectionType s = Some "wifi" ->
   sendData env data s =
     (Throw (JsError "Cannot send data over wifi connection"),
      log_all [send_error] s)) /\
  (forall r s', sendData env data s = (Ok r, s') ->
     r = true /\
     exists device,
       connectedDevice s = Some device /\
       (s' = log_all [UsbWrite (id device) data] s \/
        s' = log_all [BleWrite (id device) "FFE0" "FFE1" data] s)).
Proof.
  split; [|split].
  - intros Hnone. unfold sendData, try_catch, bind at 1, gets at 1.
    rewrite Hnone. reflexivity.
  - intros [device Hdev] Hct.
    unfold sendData, try_catch, bind at 1, gets at 1. rewrite Hdev.
    unfold bind at 1, gets at 1. rewrite Hct. reflexivity.
  - intros r s'. unfold sendData, try_catch, bind at 1, gets at 1.
    destruct (connectedDevice s) as [device|]; [|discriminate].
    unfold bind at 1, gets at 1.
    destruct (is_type (connectionType s) "usb" && UsbSerial env).
    { unfold bind, call, ret. destruct (rejects env (trace s) _); [discriminate|].
      intros [= <- <-]. split; [done|]. exists device. split; [done|]. by left. }
    destruct (is_type (connectionType s) "ble" && BleManager env); [|discriminate].
    unfold bind, call, ret. destruct (rejects env (trace s) _); [discriminate|].
    intros [= <- <-]. split; [done|]. exists device. split; [done|]. by right.
Qed.

Lemma sendData_by_connection_witness :
  connectedDevice initial = None /\
  sendData (quiet android) "ping" initial =
    (Throw no_board_connected, log_all [send_error] initial) /\
  sendData (quiet android) "ping" usb_ready =
    (Ok true, log_all [UsbWrite (VNum 1002) "ping"] usb_ready).
Proof.
  destruct (sendData_by_connection (quiet android) "ping" initial) as (Hnone & _ & _).
  split; [reflexivity|]. split; [exact (Hnone eq_refl)|].
  assert (Hrun : sendData (quiet android) "ping" usb_ready =
                   (Ok true, (sendData (quiet android) "ping" usb_ready).2))
    by (vm_compute; reflexivity).
  destruct (sendData_by_connection (quiet android) "ping" usb_ready) as (_ & _ & Hok).
  destruct (Hok _ _ Hrun) as (_ & device & Hdev & [Hs|Hs]).
  - rewrite Hrun, Hs. injection Hdev as <-. reflexivity.
  - exfalso. assert (Ht : trace (sendData (quiet android) "ping" usb_ready).2 =
                            trace (log_all [BleWrite (id device) "FFE0" "FFE1" "ping"]
                                           usb_ready)) by (by rewrite Hs).
    vm_compute in Ht. discriminate Ht.
Defined.

(** ** Connecting and disconnecting *)

Lemma disconnect_resolved (env : Env) (s s1 : State) (b : bool) :
  disconnectFromBoard env s = (Ok b, s1) ->
  b = true /\ connectedDevice s1 = None.
Proof.
  rewrite disconnect_run.
  destruct (connectedDevice s) as [device|] eqn:Hd; [|by intros [= <- <-]].
  destruct (is_type (connectionType s) "usb" && UsbSerial env).
  { destruct (rejects env (trace s) _); [discriminate|].
    destruct (rejects env (trace s ++ _) _); [discriminate|].
    by intros [= <- <-]. }
  destruct (is_type (connectionType s) "ble" && BleManager env).
  { destruct (rejects env (trace s) _); [discriminate|]. by intros [= <- <-]. }
  by intros [= <- <-].
Qed.

Lemma disconnect_rejected (env : Env) (s s1 : State) (e : exn) :
  disconnectFromBoard env s = (Throw e, s1) ->
  exists ev, e = Rejected ev /\ ev ∈ teardown_calls env s.
Proof.
  rewrite disconnect_run. unfold teardown_calls.
  destruct (connectedDevice s) as [device|] eqn:Hd; [|discriminate].
  destruct (is_type (connectionType s) "usb" && UsbSerial env) eqn:Husb.
  { destruct (rejects env (trace s) _).
    - intros [= <- <-]. eexists. split; [done|]. set_solver.
    - destruct (rejects env (trace s ++ _) _); [|discriminate].
      intros [= <- <-]. eexists. split; [done|]. set_solver. }
  destruct (is_type (connectionType s) "ble" && BleManager env) eqn:Hble;
    [|discriminate].
  destruct (rejects env (trace s) _); [|discriminate].
  intros [= <- <-]. eexists. split; [done|]. set_solver.
Qed.

(** X4: [disconnectFromBoard] with nothing connected makes no call and
    resolves to true; and once it has resolved, nothing is connected, so
    another disconnect, in any circumstances, is such a no-op. *)
Theorem disconnect_is_idempotent (env : Env) (s : State) :
  (connectedDevice s = None -> disconnectFromBoard env s = (Ok true, s)) /\
  (forall b s1,
     disconnectFromBoard env s = (Ok b, s1) ->
     b = true /\ connectedDevice s1 = None /\
     forall env', disconnectFromBoard env' s1 = (Ok true, s1)).
Proof.
  assert (Hnone : forall env' s0, connectedDevice s0 = None ->
                    disconnectFromBoard env' s0 = (Ok true, s0)).
  { intros env' s0 H0. by rewrite disconnect_run, H0. }
  split; [apply Hnone|].
  intros b s1 Hrun.
  destruct (disconnect_cases env s) as [Hok|(e & evs & _ & _ & Hthrow)];
    [|rewrite Hthrow in Hrun; discriminate Hrun].
  rewrite Hok in Hrun. injection Hrun as <- <-. split; [done|].
  assert (Hs1 : connectedDevice
                  match connectedDevice s with
                  | Some _ => set_connection None None (log_all (teardown_calls env s) s)
                  | None => s
                  end = None) by (by destruct (connectedDevice s) eqn:Hd).
  split; [exact Hs1|]. intros env'. by apply Hnone.
Qed.

Lemma disconnect_is_idempotent_witness :
  connectedDevice initial = None /\
  disconnectFromBoard usb_close_fails initial = (Ok true, initial) /\
  disconnectFromBoard (quiet android) usb_ready =
    (Ok true, (disconnectFromBoard (quiet android) usb_ready).2) /\
  disconnectFromBoard usb_close_fails (disconnectFromBoard (quiet android) usb_ready).2 =
    (Ok true, (disconnectFromBoard (quiet android) usb_ready).2).
Proof.
  destruct (disconnect_is_idempotent usb_close_fails initial) as [Hnone _].
  split; [reflexivity|]. split; [exact (Hnone eq_refl)|].
  assert (Hrun : disconnectFromBoard (quiet android) usb_ready =
                   (Ok true, (disconnectFromBoard (quiet android) usb_ready).2))
    by (vm_compute; reflexivity).
  split; [exact Hrun|].
  destruct (disconnect_is_idempotent (quiet android) usb_ready) as [_ Hagain].
  destruct (Hagain _ _ Hrun) as (_ & _ & Hnoop). apply Hnoop.
Defined.

(** X5: when a driver call of [disconnectFromBoard] rejects, the method
    rethrows that rejection and leaves both connection fields as they were:
    the service still records the device as connected, and a further
    disconnect issues the same close and disconnect calls again. *)
Theorem disconnect_failure_keeps_connection (env : Env) (s s1 : State) (e : exn) :
  disconnectFromBoard env s = (Throw e, s1) ->
  is_Some (connectedDevice s) /\
  connectedDevice s1 = connectedDevice s /\
  connectionType s1 = connectionType s /\
  (exists ev, e = Rejected ev /\ ev ∈ teardown_calls env s) /\
  teardown_calls env s1 = teardown_calls env s.
Proof.
  rewrite disconnect_run. unfold teardown_calls.
  destruct (connectedDevice s) as [device|] eqn:Hd; [|discriminate].
  destruct (is_type (connectionType s) "usb" && UsbSerial env) eqn:Husb.
  { destruct (rejects env (trace s) _).
    - intros [= <- <-]. simpl. rewrite Hd, Husb.
      repeat split; eauto. eexists. split; [done|]. set_solver.
    - destruct (rejects env (trace s ++ _) _); [|discriminate].
      intros [= <- <-]. simpl. rewrite Hd, Husb.
      repeat split; eauto. eexists. split; [done|]. set_solver. }
  destruct (is_type (connectionType s) "ble" && BleManager env) eqn:Hble;
    [|discriminate].
  destruct (rejects env (trace s) _); [|discriminate].
  intros [= <- <-]. simpl. rewrite Hd, Husb, Hble.
  repeat split; eauto. eexists. split; [done|]. set_solver.
Qed.

Lemma disconnect_failure_keeps_connection_witness :
  disconnectFromBoard usb_close_fails usb_ready =
    (Throw (Rejected (UsbCloseDevice (VNum 1002))),
     (disconnectFromBoard usb_close_fails usb_ready).2) /\
  connectedDevice (disconnectFromBoard usb_close_fails usb_ready).2 = Some uno_usb.
Proof.
  assert (Hrun : disconnectFromBoard usb_close_fails usb_ready =
                   (Throw (Rejected (UsbCloseDevice (VNum 1002))),
                    (disconnectFromBoard usb_close_fails usb_ready).2))
    by (vm_compute; reflexivity).
  split; [exact Hrun|].
  destruct (disconnect_failure_keeps_connection _ _ _ _ Hrun) as (_ & Hdev & _).
  rewrite Hdev. reflexivity.
Defined.

Section ConnectOutcomes.

Context (env : Env).

Lemma connect_teardown_throws (board : Board) (s s1 : State) (e : exn) :
  is_Some (connectedDevice s) ->
  disconnectFromBoard env s = (Throw e, s1) ->
  connectToBoard env board s =
    (Throw e, set_connection None None (log connect_error s1)).
Proof.
  intros [d Hd] Hdis.
  unfold connectToBoard, try_catch, bind at 1 2, gets at 1.
  rewrite Hd. simpl. rewrite Hdis. reflexivity.
Qed.

(** What a connect on a disconnected service throws, and that it resolves
    only for a board type the platform has a driver for. *)
Lemma connect_fresh_outcome (board : Board) (s s' : State) (r : Result bool) :
  connectedDevice s = None ->
  connectToBoard env board s = (r, s') ->
  match r with
  | Ok _ => has_driver env (type board) = true
  | Throw e =>
      (e = JsError ("Unsupported board type: " +:+ type board) /\
       has_driver env (type board) = false) \/
      exists ev, e = Rejected ev /\ ev ∈ connect_calls env board
  end.
Proof.
  intros Hnone. rewrite (connect_fresh_run env board s Hnone). cbv zeta.
  unfold connect_calls, has_driver.
  destruct (String.eqb (type board) "usb" && UsbSerial env).
  { repeat (destruct (rejects env _ _);
            [intros [= <- <-]; right; eexists; split; [done|set_solver]|]).
    by intros [= <- <-]. }
  destruct (String.eqb (type board) "ble" && BleManager env).
  { repeat (destruct (rejects env _ _);
            [intros [= <- <-]; right; eexists; split; [done|set_solver]|]).
    by intros [= <- <-]. }
  destruct (String.eqb (type board) "wifi" && EspOta env).
  { by intros [= <- <-]. }
  intros [= <- <-]. by left.
Qed.

Lemma connect_outcome (board : Board) (s s' : State) (r : Result bool) :
  connectToBoard env board s = (r, s') ->
  match r with
  | Ok _ => has_driver env (type board) = true
  | Throw e =>
      (e = JsError ("Unsupported board type: " +:+ type board) /\
       has_driver env (type board) = false) \/
      exists ev, e = Rejected ev /\
                 (ev ∈ teardown_calls env s \/ ev ∈ connect_calls env board)
  end.
Proof.
  intros Hrun. destruct (connectedDevice s) as [d|] eqn:Hd.
  - destruct (disconnectFromBoard env s) as [[b|e] s1] eqn:Hdis.
    + rewrite (connect_after_disconnect env board s s1 b) in Hrun by eauto.
      assert (Hnone : connectedDevice s1 = None).
      { by destruct (disconnect_resolved env s s1 b Hdis) as (_ & ?). }
      pose proof (connect_fresh_outcome board s1 s' r Hnone Hrun) as Hout.
      destruct r; [done|]. destruct Hout as [?|(ev & ? & ?)]; [by left|].
      right. exists ev. split; [done|by right].
    + rewrite (connect_teardown_throws board s s1 e) in Hrun by eauto.
      injection Hrun as <- <-.
      destruct (disconnect_rejected env s s1 e Hdis) as (ev & ? & ?).
      right. exists ev. split; [done|by left].
  - pose proof (connect_fresh_outcome board s s' r Hd Hrun) as Hout.
    destruct r; [done|]. destruct Hout as [?|(ev & ? & ?)]; [by left|].
    right. exists ev. split; [done|by right].
Qed.

End ConnectOutcomes.

(** X6: a [connectToBoard] that throws leaves both connection fields null,
    whatever was connected before: also when what failed was closing the
    previous connection, which a failed [disconnectFromBoard] alone would have
    kept on record.  What it throws is 'Unsupported board type: <type>' or the
    rejection of one of the teardown or connect calls. *)
Theorem connect_failure_forgets_connection (env : Env) (board : Board)
    (s s' : State) (e : exn) :
  connectToBoard env board s = (Throw e, s') ->
  connectedDevice s' = None /\ connectionType s' = None /\
  (e = JsError ("Unsupported board type: " +:+ type board) \/
   exists ev, e = Rejected ev /\
              (ev ∈ teardown_calls env s \/ ev ∈ connect_calls env board)).
Proof.
  intros Hrun. split; [|split].
  - destruct (connect_cases env board s)
      as [H|[(e' & evs & _ & _ & H)|(e' & evs & _ & H)]];
      rewrite H in Hrun; [discriminate| |]; by injection Hrun as _ <-.
  - destruct (connect_cases env board s)
      as [H|[(e' & evs & _ & _ & H)|(e' & evs & _ & H)]];
      rewrite H in Hrun; [discriminate| |]; by injection Hrun as _ <-.
  - destruct (connect_outcome env board s s' (Throw e) Hrun) as [[? _]|?];
      [by left|by right].
Qed.

Lemma connect_failure_forgets_connection_witness :
  connectedDevice usb_ready = Some uno_usb /\
  connectToBoard usb_close_fails mega_usb usb_ready =
    (Throw (Rejected (UsbCloseDevice (VNum 1002))),
     (connectToBoard usb_close_fails mega_usb usb_ready).2) /\
  connectedDevice (connectToBoard usb_close_fails mega_usb usb_ready).2 = None.
Proof.
  assert (Hrun : connectToBoard usb_close_fails mega_usb usb_ready =
                   (Throw (Rejected (UsbCloseDevice (VNum 1002))),
                    (connectToBoard usb_close_fails mega_usb usb_ready).2))
    by (vm_compute; reflexivity).
  split; [reflexivity|]. split; [exact Hrun|].
  exact (proj1 (connect_failure_forgets_connection _ _ _ _ _ Hrun)).
Defined.

(** ** The connection fields over any sequence of calls *)

Section KeepsService.

Context (env : Env).

Lemma keeps_service_ret {A} (a : A) : keeps_service (ret a).
Proof. by intros s. Qed.

Lemma keeps_service_throw {A} (e : exn) : keeps_service (@throw A e).
Proof. by intros s. Qed.

Lemma keeps_service_gets {A} (f : State -> A) : keeps_service (gets f).
Proof. by intros s. Qed.

Lemma keeps_service_call (ev : Event) : keeps_service (call env ev).
Proof. intros s. unfold call. by destruct (rejects env (trace s) ev). Qed.

Lemma keeps_service_emit (ev : Event) : keeps_service (emit ev).
Proof. by intros s. Qed.

Lemma keeps_service_modify (f : State -> State) :
  (forall s, connectedDevice (f s) = connectedDevice s /\
             connectionType (f s) = connectionType s /\
             serialMonitorCallbacks (f s) = serialMonitorCallbacks s) ->
  keeps_service (modify f).
Proof. intros Hf s. apply Hf. Qed.

Lemma keeps_service_bind {A B} (m : M A) (k : A -> M B) :
  keeps_service m -> (forall a, keeps_service (k a)) -> keeps_service (bind m k).
Proof.
  intros Hm Hk s. destruct (Hm s) as (H1 & H2 & H3). unfold bind.
  destruct (m s) as [[a|e] s1]; simpl in *; [|done].
  destruct (Hk a s1) as (K1 & K2 & K3). by rewrite K1, K2, K3.
Qed.

Lemma keeps_service_try_catch {A} (m : M A) (h : exn -> M A) :
  keeps_service m -> (forall e, keeps_service (h e)) -> keeps_service (try_catch m h).
Proof.
  intros Hm Hh s. destruct (Hm s) as (H1 & H2 & H3). unfold try_catch.
  destruct (m s) as [[a|e] s1]; simpl in *; [done|].
  destruct (Hh e s1) as (K1 & K2 & K3). by rewrite K1, K2, K3.
Qed.

Lemma keeps_service_only_logs {A} (m : M A) : only_logs m -> keeps_service m.
Proof. intros Hm s. by destruct (Hm s) as (evs & ->). Qed.

End KeepsService.

Ltac keeps_service :=
  repeat first
    [ apply keeps_service_try_catch | apply keeps_service_bind | apply keeps_service_ret
    | apply keeps_service_throw | apply keeps_service_gets | apply keeps_service_call
    | apply keeps_service_emit
    | apply keeps_service_modify; by intros ?
    | progress intros
    | match goal with
      | |- keeps_service (match ?x with _ => _ end) => destruct x
      | |- keeps_service (if ?x then _ else _) => destruct x
      | |- keeps_service (let _ := _ in _) => cbv zeta
      end ].

Section KeepsServiceMethods.

Context (env : Env).

Lemma downloadBinary_keeps_service (compilationId fileName : string) :
  keeps_service (downloadBinary env compilationId fileName).
Proof.
  unfold downloadBinary, AsyncStorage_getItem, AsyncStorage_setItem,
    FileSystem_getInfoAsync, FileSystem_makeDirectoryAsync, FileSystem_downloadAsync.
  apply keeps_service_try_catch; [|keeps_service].
  do 6 (apply keeps_service_bind; [keeps_service|intros]; cbv zeta).
  apply keeps_service_bind;
    [apply keeps_service_only_logs, getCompilationStatus_only_logs|intros].
  keeps_service.
Qed.

Lemma addEspDevice_keeps_service (device : obj) : keeps_service (addEspDevice env device).
Proof. unfold addEspDevice, AsyncStorage_getItem, AsyncStorage_setItem. keeps_service. Qed.

Lemma removeEspDevice_keeps_service (ip : value) : keeps_service (removeEspDevice env ip).
Proof. unfold removeEspDevice, AsyncStorage_getItem, AsyncStorage_setItem. keeps_service. Qed.

End KeepsServiceMethods.

Lemma keeps_service_consistent {A} (env : Env) (m : M A) (s : State) :
  keeps_service m -> connection_consistent env s -> connection_consistent env (m s).2.
Proof.
  intros Hm. destruct (Hm s) as (H1 & H2 & _).
  unfold connection_consistent. by rewrite H1, H2.
Qed.

Lemma perform_consistent (env : Env) (op : Operation) (s : State) :
  connection_consistent env s -> connection_consistent env (perform env op s).
Proof.
  intros Hs. destruct op; simpl.
  - apply keeps_service_consistent; [apply keeps_service_only_logs, getAvailableBoards_only_logs|done].
  - destruct (connectToBoard env board s) as [[b|e] s'] eqn:Hrun.
    + pose proof (connect_outcome env board s s' (Ok b) Hrun) as Hdrv.
      destruct (connect_cases env board s)
        as [H|[(e' & evs & _ & _ & H)|(e' & evs & _ & H)]];
        rewrite H in Hrun; [|discriminate..]. injection Hrun as _ <-.
      unfold connection_consistent. simpl. by split.
    + destruct (connect_cases env board s)
        as [H|[(e' & evs & _ & _ & H)|(e' & evs & _ & H)]];
        rewrite H in Hrun; [discriminate| |]; by injection Hrun as _ <-.
  - destruct (disconnect_cases env s) as [H|(e & evs & _ & _ & H)]; rewrite H; simpl.
    + by destruct (connectedDevice s).
    + done.
  - apply keeps_service_consistent; [apply keeps_service_only_logs, uploadBinary_only_logs|done].
  - apply keeps_service_consistent; [apply keeps_service_only_logs, sendData_only_logs|done].
  - done.
  - unfold removeSerialMonitorCallback, modify. simpl.
    by destruct (list_find _ _) as [[index c]|].
  - apply keeps_service_consistent; [apply keeps_service_only_logs, dataListener_only_logs|done].
  - apply keeps_service_consistent; [apply addEspDevice_keeps_service|done].
  - apply keeps_service_consistent; [apply removeEspDevice_keeps_service|done].
  - apply keeps_service_consistent; [apply downloadBinary_keeps_service|done].
  - apply keeps_service_consistent; [apply keeps_service_only_logs, getCompilationStatus_only_logs|done].
Qed.

(** X7: the two connection fields never disagree.  After any sequence of
    calls to the two services, each of which may have returned or thrown,
    either both fields are null or [connectionType] is the type of
    [connectedDevice], and a type the platform has a driver for. *)
Theorem connection_stays_consistent (env : Env) (ops : list Operation) (s : State) :
  connection_consistent env s ->
  connection_consistent env (perform_all env ops s).
Proof.
  revert s. induction ops as [|op ops IH]; intros s Hs; [done|].
  simpl. apply IH. by apply perform_consistent.
Qed.

Lemma connection_stays_consistent_witness :
  connection_consistent usb_close_fails
    (perform_all usb_close_fails
       [DoConnect uno_usb; DoUpload "fw.bin"; DoConnect mega_usb; DoDisconnect] initial).
Proof.
  apply (connection_stays_consistent usb_close_fails
           [DoConnect uno_usb; DoUpload "fw.bin"; DoConnect mega_usb; DoDisconnect]
           initial).
  exact I.
Defined.

(** ** What the methods throw *)

Section ThrowsOnly.

Context (env : Env) (P : exn -> Prop).

Lemma throws_only_ret {A} (a : A) : throws_only P (ret a).
Proof. intros s e s' H. discriminate H. Qed.

Lemma throws_only_gets {A} (f : State -> A) : throws_only P (gets f).
Proof. intros s e s' H. discriminate H. Qed.

Lemma throws_only_modify (f : State -> State) : throws_only P (modify f).
Proof. intros s e s' H. discriminate H. Qed.

Lemma throws_only_emit (ev : Event) : throws_only P (emit ev).
Proof. intros s e s' H. discriminate H. Qed.

Lemma throws_only_throw {A} (e : exn) : P e -> throws_only P (@throw A e).
Proof. intros He s e' s' [= <- _]. exact He. Qed.

Lemma throws_only_call (ev : Event) : P (Rejected ev) -> throws_only P (call env ev).
Proof.
  intros He s e s'. unfold call.
  destruct (rejects env (trace s) ev); [|discriminate]. by intros [= <- _].
Qed.

Lemma throws_only_bind {A B} (m : M A) (k : A -> M B) :
  throws_only P m -> (forall a, throws_only P (k a)) -> throws_only P (bind m k).
Proof.
  intros Hm Hk s e s'. unfold bind.
  destruct (m s) as [[a|e1] s1] eqn:Hrun.
  - apply Hk.
  - intros [= <- <-]. by apply (Hm s e1 s1).
Qed.

Lemma throws_only_rethrow {A} (m : M A) (label : string) :
  throws_only P m ->
  throws_only P (try_catch m (fun error => emit (ConsoleError label) ;; throw error)).
Proof.
  intros Hm s e s'. unfold try_catch.
  destruct (m s) as [[a|e1] s1] eqn:Hrun; [discriminate|].
  intros [= <- _]. by apply (Hm s e1 s1).
Qed.

Lemma throws_only_for_of {A} (l : list A) (body : A -> M unit) :
  (forall x, throws_only P (body x)) -> throws_only P (for_of l body).
Proof.
  intros Hbody. induction l as [|x l IH]; [apply throws_only_ret|].
  apply throws_only_bind; [apply Hbody|]. intros _. exact IH.
Qed.

Lemma throws_only_for_range (count : nat) (start : Z) (body : Z -> M unit) :
  (forall i, throws_only P (body i)) -> throws_only P (for_range count start body).
Proof.
  intros Hbody. revert start. induction count as [|n IH]; intros start;
    [apply throws_only_ret|].
  apply throws_only_bind; [apply Hbody|]. intros _. apply IH.
Qed.

End ThrowsOnly.

Lemma rejected_is_rejection (ev : Event) : is_rejection (Rejected ev).
Proof. by exists ev. Qed.

(** Proves that a computation built from calls, reads and loops throws
    nothing but the rejection of one of its calls. *)
Ltac throws_rejection :=
  repeat first
    [ apply throws_only_bind | apply throws_only_ret | apply throws_only_gets
    | apply throws_only_emit | apply throws_only_modify
    | apply throws_only_call; apply rejected_is_rejection
    | apply throws_only_throw; apply rejected_is_rejection
    | apply throws_only_for_of | apply throws_only_for_range
    | progress intros
    | match goal with
      | |- throws_only _ (match ?x with _ => _ end) => destruct x
      | |- throws_only _ (let _ := _ in _) => cbv zeta
      end ].

Lemma try_catch_throw {A} (m : M A) (label : string) (s s' : State) (e : exn) :
  try_catch m (fun error => emit (ConsoleError label) ;; throw error) s = (Throw e, s') ->
  exists s1, m s = (Throw e, s1).
Proof.
  unfold try_catch. destruct (m s) as [[a|e1] s1]; [discriminate|].
  intros [= <- _]. by exists s1.
Qed.

Lemma consistent_connected (env : Env) (s : State) (device : Board) :
  connection_consistent env s -> connectedDevice s = Some device ->
  connectionType s = Some (type device) /\
  (is_type (connectionType s) "usb" && UsbSerial env
   || is_type (connectionType s) "ble" && BleManager env
   || is_type (connectionType s) "wifi" && EspOta env) = true.
Proof.
  unfold connection_consistent. intros Hs Hd. rewrite Hd in Hs.
  destruct (connectionType s) as [t|]; [|done]. destruct Hs as [-> Hdrv].
  split; [done|]. by rewrite !is_type_Some.
Qed.

(** X8: while the two connection fields agree, as they do after any
    sequence of calls, the last branch of [uploadBinary] is never taken: an
    upload never throws 'Unsupported connection type', only 'No board
    connected', 'Binary file not found' or the rejection of an outside call.
    [sendData] throws only 'No board connected', 'Cannot send data over wifi
    connection' or the rejection of its write: never a message naming a type
    other than wifi. *)
Theorem consistent_connection_errors (env : Env) (s : State) :
  connection_consistent env s ->
  (forall path e s',
     uploadBinary env path s = (Throw e, s') ->
     e = no_board_connected \/ e = binary_file_not_found \/ is_rejection e) /\
  (forall data e s',
     sendData env data s = (Throw e, s') ->
     e = no_board_connected \/
     e = JsError "Cannot send data over wifi connection" \/
     is_rejection e).
Proof.
  intros Hs. split.
  - intros path e s' Hrun. apply try_catch_throw in Hrun as (s1 & Hrun).
    unfold bind at 1, gets at 1 in Hrun.
    destruct (connectedDevice s) as [device|] eqn:Hd;
      [|injection Hrun as <- _; by left].
    destruct (consistent_connected env s device Hs Hd) as (_ & Hdrv).
    unfold bind at 1, FileSystem_getInfoAsync, bind at 1, call at 1 in Hrun.
    destruct (rejects env (trace s) (FsGetInfo path));
      [injection Hrun as <- _; right; right; apply rejected_is_rejection|].
    unfold gets at 1 in Hrun.
    destruct (negb _); [injection Hrun as <- _; right; by left|].
    unfold bind at 1, gets at 1 in Hrun.
    change (connectionType (log (FsGetInfo path) s)) with (connectionType s) in Hrun.
    right. right.
    destruct (is_type (connectionType s) "usb" && UsbSerial env).
    { revert Hrun. generalize (log (FsGetInfo path) s). intros s0 Hrun.
      refine (_ s0 e s1 Hrun). clear.
      unfold FileSystem_readAsStringAsync, upload_chunks, sleep. throws_rejection. }
    destruct (is_type (connectionType s) "ble" && BleManager env).
    { revert Hrun. generalize (log (FsGetInfo path) s). intros s0 Hrun.
      refine (_ s0 e s1 Hrun). clear.
      unfold FileSystem_readAsStringAsync, upload_chunks, sleep. throws_rejection. }
    destruct (is_type (connectionType s) "wifi" && EspOta env); [|discriminate Hdrv].
    revert Hrun. generalize (log (FsGetInfo path) s). intros s0 Hrun.
    refine (_ s0 e s1 Hrun). clear. throws_rejection.
  - intros data e s' Hrun. apply try_catch_throw in Hrun as (s1 & Hrun).
    unfold bind at 1, gets at 1 in Hrun.
    destruct (connectedDevice s) as [device|] eqn:Hd;
      [|injection Hrun as <- _; by left].
    destruct (consistent_connected env s device Hs Hd) as (Hct & Hdrv).
    unfold bind at 1, gets at 1 in Hrun.
    destruct (is_type (connectionType s) "usb" && UsbSerial env).
    { right. right. refine (_ s e s1 Hrun). clear. throws_rejection. }
    destruct (is_type (connectionType s) "ble" && BleManager env).
    { right. right. refine (_ s e s1 Hrun). clear. throws_rejection. }
    right. left. simpl in Hdrv. rewrite Hct in Hdrv, Hrun.
    rewrite is_type_Some in Hdrv. apply andb_true_iff in Hdrv as [Hw _].
    apply String.eqb_eq in Hw. rewrite Hw in Hrun. by injection Hrun as <- _.
Qed.

Lemma consistent_connection_errors_witness :
  connection_consistent (quiet android) usb_ready /\
  uploadBinary (quiet android) "missing.bin" usb_ready =
    (Throw binary_file_not_found,
     (uploadBinary (quiet android) "missing.bin" usb_ready).2).
Proof.
  assert (Hs : connection_consistent (quiet android) usb_ready)
    by (vm_compute; split; reflexivity).
  split; [exact Hs|].
  destruct (consistent_connection_errors (quiet android) usb_ready Hs) as [Hup _].
  assert (Hrun : exists e, uploadBinary (quiet android) "missing.bin" usb_ready =
                   (Throw e, (uploadBinary (quiet android) "missing.bin" usb_ready).2))
    by (eexists; vm_compute; reflexivity).
  destruct Hrun as (e & Hrun). rewrite Hrun at 1.
  destruct (Hup _ _ _ Hrun) as [->|[->|[ev ->]]].
  - vm_compute in Hrun. discriminate Hrun.
  - reflexivity.
  - vm_compute in Hrun. discriminate Hrun.
Defined.

(** ** Subscriptions *)

Lemma list_find_first {A} (P : A -> Prop) `{!forall x, Decision (P x)}
    (before after : list A) (x : A) :
  P x -> Forall (fun y => ~ P y) before ->
  list_find P (before ++ x :: after) = Some (length before, x).
Proof.
  intros Hx Hbefore. rewrite list_find_app_r by (by apply list_find_None).
  simpl. by rewrite decide_True.
Qed.

Lemma list_find_absent {A} `{!EqDecision A} (l : list A) (x : A) :
  x ∉ l -> list_find (fun y => y = x) l = None.
Proof.
  intros Hx. apply list_find_None, Forall_forall. intros y Hy ->. by apply Hx.
Qed.

Lemma set_callbacks_same (s : State) : set_callbacks (serialMonitorCallbacks s) s = s.
Proof. by destruct s. Qed.

(** X9: [removeSerialMonitorCallback] takes away one subscription of the
    callback, the earliest, and keeps every other one in order; a callback
    that is not subscribed is ignored.  So subscribing a callback that was
    not subscribed and unsubscribing it again gives the service back as it
    was, while a callback subscribed twice is still subscribed once after
    one unsubscribe. *)
Theorem unsubscribe_removes_first_subscription (callback : nat) (s : State) :
  (callback ∉ serialMonitorCallbacks s ->
   removeSerialMonitorCallback callback s = (Ok tt, s)) /\
  (forall before after,
     serialMonitorCallbacks s = before ++ callback :: after ->
     callback ∉ before ->
     removeSerialMonitorCallback callback s = (Ok tt, set_callbacks (before ++ after) s)) /\
  (callback ∉ serialMonitorCallbacks s ->
   removeSerialMonitorCallback callback (addSerialMonitorCallback callback s).2
   = (Ok tt, s)).
Proof.
  assert (Hfirst : forall s0 before after,
            serialMonitorCallbacks s0 = before ++ callback :: after ->
            callback ∉ before ->
            removeSerialMonitorCallback callback s0
            = (Ok tt, set_callbacks (before ++ after) s0)).
  { intros s0 before after Hcbs Hbefore. unfold removeSerialMonitorCallback, modify.
    rewrite Hcbs, (list_find_first (fun c => c = callback)); [|done|].
    - by rewrite delete_middle.
    - apply Forall_forall. intros y Hy ->. by apply Hbefore. }
  split; [|split].
  - intros Habsent. unfold removeSerialMonitorCallback, modify.
    by rewrite list_find_absent.
  - apply Hfirst.
  - intros Habsent.
    rewrite (Hfirst (addSerialMonitorCallback callback s).2
               (serialMonitorCallbacks s) []); [|done..].
    rewrite app_nil_r. by destruct s.
Qed.

Lemma unsubscribe_removes_first_subscription_witness :
  removeSerialMonitorCallback 7%nat (subscribed [1; 2]%nat) = (Ok tt, subscribed [1; 2]%nat) /\
  removeSerialMonitorCallback 2%nat (subscribed [1; 2; 3; 2]%nat) = (Ok tt, subscribed [1; 3; 2]%nat) /\
  removeSerialMonitorCallback 7%nat (addSerialMonitorCallback 7%nat (subscribed [1; 2]%nat)).2
  = (Ok tt, subscribed [1; 2]%nat).
Proof.
  destruct (unsubscribe_removes_first_subscription 7%nat (subscribed [1; 2]%nat))
    as (Habsent & _ & Hround).
  destruct (unsubscribe_removes_first_subscription 2%nat (subscribed [1; 2; 3; 2]%nat))
    as (_ & Hfirst & _).
  assert (H7 : 7%nat ∉ serialMonitorCallbacks (subscribed [1; 2]%nat)).
  { simpl. intros H. by repeat (apply elem_of_cons in H as [H|H]; [discriminate H|]);
      apply elem_of_nil in H. }
  split; [exact (Habsent H7)|]. split; [|exact (Hround H7)].
  apply (Hfirst [1]%nat [3; 2]%nat eq_refl).
  intros H. apply elem_of_cons in H as [H|H]; [discriminate H|]. by apply elem_of_nil in H.
Defined.

(** X10: data arriving from the device is handed to subscribed callbacks
    only.  Whatever chunks arrive and whichever handlers throw, a callback
    that is not in [serialMonitorCallbacks] is not called, and nothing else
    happens than calls to subscribed callbacks. *)
Theorem unsubscribed_callback_is_not_called (env : Env) (chunks : list string)
    (s : State) (callback : nat) :
  callback ∉ serialMonitorCallbacks s ->
  exists evs,
    (receive env chunks s).2 = log_all evs s /\
    Forall (fun ev => exists h data,
              ev = SerialCallback h data /\ h ∈ serialMonitorCallbacks s /\
              data ∈ chunks /\ h <> callback) evs.
Proof.
  intros Habsent.
  destruct (receive env chunks s) as [rs s'] eqn:Hrun.
  apply receive_prefixes in Hrun as (reached & Hlen & Hpre & ->).
  exists (fanned_out chunks reached). split; [done|].
  unfold fanned_out. clear rs.
  revert reached Hlen Hpre. induction chunks as [|data chunks IH];
    intros [|hs reached] Hlen Hpre; simpl; try done.
  apply Forall_cons in Hpre as [Hhs Hpre]. apply Forall_app. split.
  - unfold delivered. apply Forall_fmap, Forall_forall. intros h Hh. simpl.
    assert (Hin : h ∈ serialMonitorCallbacks s).
    { destruct Hhs as [rest ->]. apply elem_of_app. by left. }
    exists h, data. split; [done|]. split; [done|]. split; [by left|].
    intros ->. by apply Habsent.
  - eapply Forall_impl; [apply IH; [by injection Hlen|done]|].
    simpl. intros ev (h & d & ? & ? & ? & ?). exists h, d.
    split; [done|]. split; [done|]. split; [by right|done].
Qed.

Lemma unsubscribed_callback_is_not_called_witness :
  exists evs,
    (receive (throwing_handler 2%nat) ["a"; "b"] (subscribed [1; 2; 3]%nat)).2
    = log_all evs (subscribed [1; 2; 3]%nat) /\
    Forall (fun ev => exists h data,
              ev = SerialCallback h data /\
              h ∈ serialMonitorCallbacks (subscribed [1; 2; 3]%nat) /\
              data ∈ ["a"; "b"] /\ h <> 7%nat) evs.
Proof.
  apply (unsubscribed_callback_is_not_called (throwing_handler 2%nat) ["a"; "b"]
           (subscribed [1; 2; 3]%nat) 7%nat).
  simpl. intros H.
  repeat (apply elem_of_cons in H as [H|H]; [discriminate H|]). by apply elem_of_nil in H.
Defined.

(** ** From a scan to a connection *)

Lemma arduino_like_kept (devices kept : list obj) :
  arduino_like devices = Ok kept ->
  Forall (fun device => device ∈ devices /\ likely_arduino device = Ok true) kept.
Proof.
  revert kept. induction devices as [|device rest IH]; intros kept; simpl.
  - intros [= <-]. constructor.
  - destruct (likely_arduino device) as [keep|e] eqn:Hkeep; [|discriminate].
    destruct (arduino_like rest) as [kept'|e]; [|discriminate].
    intros [= <-].
    assert (Hrest : Forall (fun d => d ∈ device :: rest /\ likely_arduino d = Ok true)
                      kept').
    { eapply Forall_impl; [by apply IH|]. simpl. intros d [? ?]. split; [by right|done]. }
    destruct keep; [|done]. constructor; [|done]. split; [by left|done].
Qed.

Lemma scanned_board_origin (env : Env) (s s' : State) (boards : list Board)
    (board : Board) :
  getAvailableBoards env s = (Ok boards, s') ->
  board ∈ boards ->
  (OS env = android /\ exists device,
     device ∈ usb_device_list env (trace s) /\ board = usb_board device) \/
  (OS env = ios /\ exists device,
     device ∈ ble_peripherals env (trace s) /\ likely_arduino device = Ok true /\
     board = ble_board device) \/
  (exists device, device ∈ registry s /\ board = wifi_board device).
Proof.
  intros Hrun Hin. apply scan_returns in Hrun. subst boards.
  apply elem_of_app in Hin as [Hin|Hin]; [|apply elem_of_app in Hin as [Hin|Hin]].
  - left. unfold usb_found, UsbSerial in Hin.
    destruct (OS env); try by apply elem_of_nil in Hin.
    split; [done|]. apply list_elem_of_fmap in Hin as (device & -> & Hin). eauto.
  - right. left. unfold ble_found, BleManager in Hin.
    destruct (OS env); try by apply elem_of_nil in Hin.
    split; [done|].
    destruct (arduino_like _) as [kept|e] eqn:Hkept; [|by apply elem_of_nil in Hin].
    apply list_elem_of_fmap in Hin as (device & -> & Hin).
    apply arduino_like_kept in Hkept.
    apply (proj1 (Forall_forall _ _) Hkept) in Hin as [? ?]. eauto.
  - right. right. unfold wifi_found in Hin.
    apply list_elem_of_fmap in Hin as (device & -> & Hin). eauto.
Qed.

(** X11: every board a scan returns can be handed to [connectToBoard]: its
    type is 'usb' only on Android, 'ble' only on iOS, or 'wifi', always a type
    the platform has loaded a driver for.  So connecting to a scanned board,
    from any state, never throws 'Unsupported board type'; it resolves or
    rethrows the rejection of a driver call. *)
Theorem scanned_boards_are_connectable (env : Env) (s s' : State)
    (boards : list Board) (board : Board) :
  getAvailableBoards env s = (Ok boards, s') ->
  board ∈ boards ->
  (type board = "usb" /\ OS env = android \/
   type board = "ble" /\ OS env = ios \/
   type board = "wifi") /\
  has_driver env (type board) = true /\
  forall s0 e s1, connectToBoard env board s0 = (Throw e, s1) -> is_rejection e.
Proof.
  intros Hrun Hin.
  assert (Htype : type board = "usb" /\ OS env = android \/
                  type board = "ble" /\ OS env = ios \/
                  type board = "wifi").
  { destruct (scanned_board_origin env s s' boards board Hrun Hin)
      as [(Hos & d & _ & ->)|[(Hos & d & _ & _ & ->)|(d & _ & ->)]]; eauto. }
  assert (Hdrv : has_driver env (type board) = true).
  { unfold has_driver, UsbSerial, BleManager, EspOta.
    destruct Htype as [[-> ->] | [[-> ->] | ->]]; reflexivity. }
  split; [done|]. split; [done|].
  intros s0 e s1 Hconn.
  destruct (connect_outcome env board s0 s1 (Throw e) Hconn) as [[_ Hno]|(ev & -> & _)].
  - rewrite Hdrv in Hno. discriminate Hno.
  - apply rejected_is_rejection.
Qed.

Lemma scanned_boards_are_connectable_witness :
  getAvailableBoards (quiet android) shed_registered =
    (Ok [shed_wifi], (getAvailableBoards (quiet android) shed_registered).2) /\
  has_driver (quiet android) (type shed_wifi) = true.
Proof.
  assert (Hrun : getAvailableBoards (quiet android) shed_registered =
                   (Ok [shed_wifi], (getAvailableBoards (quiet android) shed_registered).2))
    by (vm_compute; reflexivity).
  split; [exact Hrun|].
  assert (Hin : shed_wifi ∈ [shed_wifi]) by apply list_elem_of_here.
  exact (proj1 (proj2 (scanned_boards_are_connectable _ _ _ _ _ Hrun Hin))).
Defined.

(** X12: a BLE board in a scan result always carries its peripheral's own
    name: a non-empty string containing 'Arduino', 'ESP32', 'ESP8266' or
    'BLE'.  The fallback name 'BLE Device (<id>)' is never used, since a
    peripheral without a name does not pass the filter. *)
Theorem ble_board_has_peripheral_name (env : Env) (s s' : State)
    (boards : list Board) (board : Board) :
  getAvailableBoards env s = (Ok boards, s') ->
  board ∈ boards -> type board = "ble" ->
  exists n,
    name board = VStr n /\ prop (details board) "name" = VStr n /\ n <> "" /\
    id board = prop (details board) "id" /\
    details board ∈ ble_peripherals env (trace s) /\
    (includes n "Arduino" || includes n "ESP32" ||
     includes n "ESP8266" || includes n "BLE") = true.
Proof.
  intros Hrun Hin Hble.
  destruct (scanned_board_origin env s s' boards board Hrun Hin)
    as [(_ & d & _ & ->)|[(_ & d & Hd & Hkeep & ->)|(d & _ & ->)]];
    [discriminate Hble| |discriminate Hble].
  unfold likely_arduino in Hkeep.
  change (name (ble_board d))
    with (js_or (prop d "name") (VStr ("BLE Device (" +:+ to_string (prop d "id") +:+ ")"))).
  change (details (ble_board d)) with d.
  change (id (ble_board d)) with (prop d "id").
  destruct (prop d "name") as [|n|n] eqn:Hname; [discriminate Hkeep| |].
  - injection Hkeep as Hkeep. apply andb_true_iff in Hkeep as [Htruthy Hincl].
    assert (Ht : truthy (VStr n) = true) by exact Htruthy.
    exists n. unfold js_or. rewrite Ht.
    split; [done|]. split; [done|]. split; [by intros ->|]. by split.
  - destruct (truthy (VNum n)); discriminate Hkeep.
Qed.

Lemma ble_board_has_peripheral_name_witness :
  exists n,
    name nano_ble_board = VStr n /\ prop (details nano_ble_board) "name" = VStr n /\
    n <> "" /\ id nano_ble_board = prop (details nano_ble_board) "id" /\
    details nano_ble_board ∈ ble_peripherals ble_seen_twice (trace initial) /\
    (includes n "Arduino" || includes n "ESP32" ||
     includes n "ESP8266" || includes n "BLE") = true.
Proof.
  assert (Hrun : exists boards,
            nano_ble_board ∈ boards /\
            getAvailableBoards ble_seen_twice initial =
              (Ok boards, (getAvailableBoards ble_seen_twice initial).2)).
  { exists [nano_ble_board; nano_ble_board]. split; [apply list_elem_of_here|].
    vm_compute. reflexivity. }
  destruct Hrun as (boards & Hin & Hrun).
  exact (ble_board_has_peripheral_name ble_seen_twice initial _ boards nano_ble_board
           Hrun Hin eq_refl).
Defined.

(** ** The registry and the scan *)

Section RegistryRuns.

Context (env : Env).

Lemma addEspDevice_ok (device : obj) (s s1 : State) (b : bool) :
  addEspDevice env device s = (Ok b, s1) ->
  b = true /\
  s1 = set_storage (set_esp_devices (json_roundtrip <$> merged device (registry s))
                                    (storage s))
         (log_all [StorageGetItem "esp_devices"; StorageSetItem "esp_devices"] s).
Proof.
  rewrite addEspDevice_run. cbv zeta.
  destruct (rejects env (trace s) _); [discriminate|].
  destruct (rejects env _ _); [discriminate|].
  intros [= <- <-]. split; [done|]. unfold set_storage, log_all, log. simpl.
  by rewrite <- app_assoc.
Qed.

Lemma removeEspDevice_ok (ip : value) (s s1 : State) (b : bool) :
  removeEspDevice env ip s = (Ok b, s1) ->
  b = true /\
  s1 = set_storage (set_esp_devices
                      (json_roundtrip <$> filter (fun d => prop d "ip" <> ip) (registry s))
                      (storage s))
         (log_all [StorageGetItem "esp_devices"; StorageSetItem "esp_devices"] s).
Proof.
  rewrite removeEspDevice_run. cbv zeta.
  destruct (rejects env (trace s) _); [discriminate|].
  destruct (rejects env _ _); [discriminate|].
  intros [= <- <-]. split; [done|]. unfold set_storage, log_all, log. simpl.
  by rewrite <- app_assoc.
Qed.

End RegistryRuns.

Lemma merged_holds_device (device : obj) (l : list obj) :
  exists d,
    d ∈ merged device l /\ prop d "ip" = prop device "ip" /\
    forall k v, device !! k = Some v -> d !! k = Some v.
Proof.
  unfold merged. destruct (list_find _ l) as [[i existing]|] eqn:Hf.
  - apply list_find_Some in Hf as (Hi & Hip & _).
    exists (spread existing device). split; [|split].
    + apply (list_elem_of_lookup_2 _ i), list_lookup_insert_eq.
      by apply lookup_lt_is_Some.
    + by apply prop_spread_r.
    + intros k v Hk. unfold spread. by apply lookup_union_Some_l.
  - exists device. split; [|done]. apply elem_of_app. right. apply list_elem_of_here.
Qed.

Lemma filter_ips_fresh (ip : value) (l : list obj) :
  Forall (fun d => prop d "ip" <> ip) l ->
  filter (fun d => prop d "ip" <> ip) (json_roundtrip <$> l) = json_roundtrip <$> l.
Proof.
  induction 1 as [|d l Hd _ IH]; [done|].
  rewrite fmap_cons, filter_cons_True by (by rewrite prop_json_roundtrip).
  by rewrite IH.
Qed.

(** X13: a device registered with [addEspDevice] shows up in the next scan:
    when both calls resolve, the scan lists a WiFi board whose id is the
    device's ip and whose details hold every field the device was registered
    with, whether the ip was new or already known. *)
Theorem registered_device_is_scanned (env : Env) (device : obj) (s s1 s2 : State)
    (b : bool) (boards : list Board) :
  addEspDevice env device s = (Ok b, s1) ->
  getAvailableBoards env s1 = (Ok boards, s2) ->
  exists board,
    board ∈ boards /\ type board = "wifi" /\ id board = prop device "ip" /\
    forall k v, device !! k = Some v -> prop (details board) k = v.
Proof.
  intros Hadd Hscan.
  apply addEspDevice_ok in Hadd as [_ ->]. apply scan_returns in Hscan. subst boards.
  destruct (merged_holds_device device (registry s)) as (d & Hd & Hip & Hfields).
  exists (wifi_board (json_roundtrip d)). split; [|split; [done|split]].
  - apply elem_of_app. right. apply elem_of_app. right.
    unfold wifi_found. apply list_elem_of_fmap_2.
    change (registry _) with (json_roundtrip <$> merged device (registry s)).
    by apply list_elem_of_fmap_2.
  - change (id (wifi_board (json_roundtrip d))) with (prop (json_roundtrip d) "ip").
    by rewrite prop_json_roundtrip.
  - intros k v Hk.
    change (details (wifi_board (json_roundtrip d))) with (json_roundtrip d).
    rewrite prop_json_roundtrip. unfold prop. by rewrite (Hfields k v Hk).
Qed.

Lemma registered_device_is_scanned_witness :
  exists board,
    type board = "wifi" /\ id board = VStr "192.168.1.50" /\
    prop (details board) "name" = VStr "Greenhouse".
Proof.
  assert (Hadd : addEspDevice (quiet android) shed_esp_renamed shed_registered =
                   (Ok true,
                    (addEspDevice (quiet android) shed_esp_renamed shed_registered).2))
    by (vm_compute; reflexivity).
  assert (Hscan : exists boards,
            getAvailableBoards (quiet android)
              (addEspDevice (quiet android) shed_esp_renamed shed_registered).2 =
            (Ok boards,
             (getAvailableBoards (quiet android)
                (addEspDevice (quiet android) shed_esp_renamed shed_registered).2).2))
    by (eexists; vm_compute; reflexivity).
  destruct Hscan as (boards & Hscan).
  destruct (registered_device_is_scanned _ _ _ _ _ _ _ Hadd Hscan)
    as (board & _ & Htype & Hid & Hfields).
  exists board. split; [exact Htype|]. split; [exact Hid|].
  apply Hfields. vm_compute. reflexivity.
Defined.

(** X14: a device removed with [removeEspDevice] is gone from the next scan:
    when both calls resolve, no WiFi board of the scan has the removed ip as
    its id. *)
Theorem removed_device_is_not_scanned (env : Env) (ip : value) (s s1 s2 : State)
    (b : bool) (boards : list Board) :
  removeEspDevice env ip s = (Ok b, s1) ->
  getAvailableBoards env s1 = (Ok boards, s2) ->
  forall board, board ∈ boards -> type board = "wifi" -> id board <> ip.
Proof.
  intros Hrem Hscan board Hin Hwifi.
  apply removeEspDevice_ok in Hrem as [_ ->].
  destruct (scanned_board_origin env _ _ boards board Hscan Hin)
    as [(_ & d & _ & ->)|[(_ & d & _ & _ & ->)|(d & Hd & ->)]];
    [discriminate Hwifi|discriminate Hwifi|].
  change (registry _)
    with (json_roundtrip <$> filter (fun d => prop d "ip" <> ip) (registry s)) in Hd.
  apply list_elem_of_fmap in Hd as (d0 & -> & Hd0).
  apply list_elem_of_filter in Hd0 as [Hne _].
  change (id (wifi_board (json_roundtrip d0))) with (prop (json_roundtrip d0) "ip").
  by rewrite prop_json_roundtrip.
Qed.

Lemma removed_device_is_not_scanned_witness :
  getAvailableBoards (quiet android)
    (removeEspDevice (quiet android) (VStr "192.168.1.50") two_registered).2 =
  (Ok [wifi_board barn_esp],
   (getAvailableBoards (quiet android)
      (removeEspDevice (quiet android) (VStr "192.168.1.50") two_registered).2).2) /\
  forall board,
    board ∈ [wifi_board barn_esp] -> type board = "wifi" ->
    id board <> VStr "192.168.1.50".
Proof.
  assert (Hrem : removeEspDevice (quiet android) (VStr "192.168.1.50") two_registered =
                   (Ok true,
                    (removeEspDevice (quiet android) (VStr "192.168.1.50")
                       two_registered).2))
    by (vm_compute; reflexivity).
  assert (Hscan :
            getAvailableBoards (quiet android)
              (removeEspDevice (quiet android) (VStr "192.168.1.50") two_registered).2 =
            (Ok [wifi_board barn_esp],
             (getAvailableBoards (quiet android)
                (removeEspDevice (quiet android) (VStr "192.168.1.50")
                   two_registered).2).2))
    by (vm_compute; reflexivity).
  split; [exact Hscan|].
  exact (removed_device_is_not_scanned _ _ _ _ _ _ _ Hrem Hscan).
Defined.

(** X15: registering a device under an ip that no registered device has and
    removing that ip again gives the registry back: the same devices in the
    same order, each as JSON serialisation returns it. *)
Theorem register_then_remove_restores_registry (env : Env) (device : obj)
    (s s1 s2 : State) (b1 b2 : bool) :
  prop device "ip" ∉ ips (registry s) ->
  addEspDevice env device s = (Ok b1, s1) ->
  removeEspDevice env (prop device "ip") s1 = (Ok b2, s2) ->
  registry s2 = json_roundtrip <$> registry s.
Proof.
  intros Hfresh Hadd Hrem.
  apply addEspDevice_ok in Hadd as [_ ->]. apply removeEspDevice_ok in Hrem as [_ ->].
  rewrite !registry_written.
  assert (Hall : Forall (fun d => prop d "ip" <> prop device "ip") (registry s)).
  { apply Forall_forall. intros d Hd Heq. apply Hfresh.
    unfold ips. apply list_elem_of_fmap. by exists d. }
  unfold merged. rewrite (proj2 (list_find_None _ _)) by exact Hall.
  rewrite fmap_app, filter_app, filter_ips_fresh by exact Hall.
  simpl. rewrite filter_cons_False, filter_nil, app_nil_r
    by (rewrite prop_json_roundtrip; by intros H; apply H).
  rewrite <- list_fmap_compose. apply list_fmap_ext. intros _ d _. simpl.
  apply json_roundtrip_idemp.
Qed.

Lemma register_then_remove_restores_registry_witness :
  registry (removeEspDevice (quiet android) (VStr "192.168.1.50")
              (addEspDevice (quiet android) shed_esp initial).2).2 = [].
Proof.
  assert (Hfresh : prop shed_esp "ip" ∉ ips (registry initial)) by apply not_elem_of_nil.
  assert (Hadd : addEspDevice (quiet android) shed_esp initial =
                   (Ok true, (addEspDevice (quiet android) shed_esp initial).2))
    by (vm_compute; reflexivity).
  assert (Hrem : removeEspDevice (quiet android) (prop shed_esp "ip")
                   (addEspDevice (quiet android) shed_esp initial).2 =
                 (Ok true,
                  (removeEspDevice (quiet android) (VStr "192.168.1.50")
                     (addEspDevice (quiet android) shed_esp initial).2).2))
    by (vm_compute; reflexivity).
  exact (register_then_remove_restores_registry _ _ _ _ _ _ _ Hfresh Hadd Hrem).
Defined.

Lemma json_roundtrip_spread_l (a b : obj) :
  json_roundtrip (spread (json_roundtrip a) b) = json_roundtrip (spread a b).
Proof.
  apply map_eq. intros k. unfold json_roundtrip, spread.
  rewrite !map_lookup_filter, !lookup_union, map_lookup_filter.
  destruct (b !! k) as [vb|], (a !! k) as [va|]; simpl; try done;
    repeat (case_guard; simpl); first [done | exfalso; auto].
Qed.

Lemma spread_twice (a b : obj) : spread (spread a b) b = spread a b.
Proof. unfold spread. by rewrite (assoc_L (∪)), (idemp_L (∪)). Qed.

Lemma spread_self (a : obj) : spread a a = a.
Proof. unfold spread. by rewrite (idemp_L (∪)). Qed.

Lemma json_roundtrip_list_idemp (l : list obj) :
  json_roundtrip <$> (json_roundtrip <$> l) = json_roundtrip <$> l.
Proof.
  rewrite <- list_fmap_compose. apply list_fmap_ext. intros _ d _. simpl.
  apply json_roundtrip_idemp.
Qed.

(** Merging a device into a registry that it was just merged into changes
    nothing any more. *)
Lemma merged_again (device : obj) (l : list obj) :
  json_roundtrip <$> merged device (json_roundtrip <$> merged device l) =
  json_roundtrip <$> merged device l.
Proof.
  unfold merged at 2 3.
  destruct (list_find _ l) as [[i existing]|] eqn:Hf.
  - pose proof Hf as Hf'. apply list_find_Some in Hf' as (Hi & Hip & Hbefore).
    assert (Hlt : (i < length l)%nat) by (by apply lookup_lt_is_Some).
    assert (Hfind : list_find (fun d => prop d "ip" = prop device "ip")
                      (json_roundtrip <$> <[i := spread existing device]> l)
                    = Some (i, json_roundtrip (spread existing device))).
    { apply list_find_Some. split; [|split].
      - rewrite list_lookup_fmap, list_lookup_insert_eq by done. done.
      - rewrite prop_json_roundtrip. by apply prop_spread_r.
      - intros j y Hj Hlt'. rewrite list_lookup_fmap, list_lookup_insert_ne in Hj by lia.
        destruct (l !! j) as [y0|] eqn:Hy0; [|discriminate Hj]. injection Hj as <-.
        rewrite prop_json_roundtrip. by apply (Hbefore j). }
    unfold merged. rewrite Hfind.
    rewrite !list_fmap_insert, list_insert_insert_eq, json_roundtrip_list_idemp.
    by rewrite json_roundtrip_spread_l, spread_twice.
  - assert (Hfind : list_find (fun d => prop d "ip" = prop device "ip")
                      (json_roundtrip <$> (l ++ [device]))
                    = Some (length l, json_roundtrip device)).
    { rewrite fmap_app. simpl.
      replace (length l) with (length (json_roundtrip <$> l)) by apply length_fmap.
      apply (list_find_first (fun d => prop d "ip" = prop device "ip"));
        [apply prop_json_roundtrip|].
      apply list_find_None in Hf. apply Forall_fmap. eapply Forall_impl; [exact Hf|].
      simpl. intros d Hd. by rewrite prop_json_roundtrip. }
    unfold merged. rewrite Hfind.
    rewrite !fmap_app. simpl.
    replace (length l) with (length (json_roundtrip <$> l) + 0)%nat
      by (rewrite length_fmap; lia).
    rewrite insert_app_r. simpl.
    rewrite fmap_app, json_roundtrip_list_idemp. simpl.
    by rewrite json_roundtrip_spread_l, spread_self.
Qed.

(** X16: registering is idempotent: registering the same device a second
    time, right after the first, leaves the registry exactly as the first
    registration left it, whether or not its ip was known before. *)
Theorem registering_twice_is_registering_once (env : Env) (device : obj)
    (s s1 s2 : State) (b1 b2 : bool) :
  addEspDevice env device s = (Ok b1, s1) ->
  addEspDevice env device s1 = (Ok b2, s2) ->
  registry s2 = registry s1.
Proof.
  intros Hadd1 Hadd2.
  apply addEspDevice_ok in Hadd1 as [_ ->]. apply addEspDevice_ok in Hadd2 as [_ ->].
  rewrite !registry_written. apply merged_again.
Qed.

Lemma registering_twice_is_registering_once_witness :
  registry (addEspDevice (quiet android) shed_esp_renamed
              (addEspDevice (quiet android) shed_esp_renamed shed_registered).2).2 =
  registry (addEspDevice (quiet android) shed_esp_renamed shed_registered).2.
Proof.
  assert (Hadd1 : addEspDevice (quiet android) shed_esp_renamed shed_registered =
                    (Ok true,
                     (addEspDevice (quiet android) shed_esp_renamed shed_registered).2))
    by (vm_compute; reflexivity).
  assert (Hadd2 : addEspDevice (quiet android) shed_esp_renamed
                    (addEspDevice (quiet android) shed_esp_renamed shed_registered).2 =
                  (Ok true,
                   (addEspDevice (quiet android) shed_esp_renamed
                      (addEspDevice (quiet android) shed_esp_renamed
                         shed_registered).2).2))
    by (vm_compute; reflexivity).
  exact (registering_twice_is_registering_once _ _ _ _ _ _ _ Hadd1 Hadd2).
Defined.

(** ** Downloaded binaries *)

Section DownloadRuns.

Context (env : Env).

(** What a download that resolves leaves on the device: the file, holding
    what the server sent for the binary's url, and the new record. *)
Lemma download_ok_files (compilationId fileName uri : string) (s s' : State) :
  downloadBinary env compilationId fileName s = (Ok uri, s') ->
  uri = (documentDirectory env +:+ "binaries") +:+ "/" +:+ fileName /\
  (exists tr,
     trace s `prefix_of` tr /\
     files s' = <[uri := http_download env tr
                           (API_BASE_URL env +:+ "/v1/binaries/" +:+ compilationId)]>
                  (files s)) /\
  esp_devices (storage s') = esp_devices (storage s) /\
  auth_token (storage s') = auth_token (storage s) /\
  exists record,
    prop record "id" = VStr compilationId /\
    prop record "fileName" = VStr fileName /\
    prop record "uri" = VStr uri /\
    binaries s' = (json_roundtrip <$> binaries s) ++ [record].
Proof.
  intros H. apply try_catch_ok in H.
  apply bind_ok in H as (token & s1 & Htok & H).
  unfold AsyncStorage_getItem in Htok.
  apply bind_ok in Htok as (u & s0 & Hcall & Hget). apply call_ok in Hcall. subst s0.
  injection Hget as <- <-.
  apply bind_ok in H as (dir_exists & s2 & Hinfo & H).
  unfold FileSystem_getInfoAsync in Hinfo.
  apply bind_ok in Hinfo as (u1 & s0 & Hcall & Hget). apply call_ok in Hcall. subst s0.
  injection Hget as <- <-.
  apply bind_ok in H as (u2 & s3 & Hmk & H).
  assert (Hs3 : exists evs, trace s3 = trace s ++ evs /\ storage s3 = storage s /\
                            files s3 = files s).
  { destruct (negb _).
    - unfold FileSystem_makeDirectoryAsync in Hmk.
      apply bind_ok in Hmk as (u3 & s0 & Hcall & Hmod). apply call_ok in Hcall. subst s0.
      injection Hmod as _ <-.
      exists [StorageGetItem "auth_token";
              FsGetInfo (documentDirectory env +:+ "binaries");
              FsMakeDirectory (documentDirectory env +:+ "binaries")].
      split; [|done]. simpl. by rewrite <- !app_assoc.
    - injection Hmk as _ <-.
      exists [StorageGetItem "auth_token";
              FsGetInfo (documentDirectory env +:+ "binaries")].
      split; [|done]. simpl. by rewrite <- !app_assoc. }
  destruct Hs3 as (evs3 & Ht3 & Hst3 & Hf3). clear Hmk.
  apply bind_ok in H as (uri' & s4 & Hdl & H).
  unfold FileSystem_downloadAsync in Hdl.
  apply bind_ok in Hdl as (tr & s0 & Htr & Hdl). injection Htr as <- <-.
  apply bind_ok in Hdl as (u4 & s0 & Hcall & Hdl). apply call_ok in Hcall. subst s0.
  apply bind_ok in Hdl as (u5 & s0 & Hmod & Hret). injection Hmod as _ <-.
  injection Hret as <- <-.
  apply bind_ok in H as (binariesJson & s5 & Hbin & H).
  unfold AsyncStorage_getItem in Hbin.
  apply bind_ok in Hbin as (u6 & s0 & Hcall & Hget). apply call_ok in Hcall. subst s0.
  injection Hget as <- <-.
  apply bind_ok in H as (timestamp & s6 & Hnow & H). injection Hnow as <- <-.
  apply bind_ok in H as (status & s7 & Hstatus & H).
  apply getCompilationStatus_ok in Hstatus as (evs7 & -> & Hd7).
  apply bind_ok in H as (u8 & s8 & Hset & H). injection H as <- <-.
  unfold AsyncStorage_setItem in Hset.
  apply bind_ok in Hset as (u9 & s0 & Hcall & Hmod). apply call_ok in Hcall. subst s0.
  injection Hmod as _ <-.
  split; [reflexivity|]. split; [|split; [|split]].
  - exists (trace s3). split; [rewrite Ht3; by apply prefix_app_r|].
    simpl. by rewrite Hf3.
  - simpl. by rewrite Hst3.
  - simpl. by rewrite Hst3.
  - eexists. unfold binaries at 1. simpl. rewrite fmap_app. simpl.
    rewrite Hst3. fold (binaries s).
    split; [|split; [|split; [|reflexivity]]]; by rewrite prop_json_roundtrip.
Qed.

End DownloadRuns.

Lemma find_binary_json_roundtrip (compilationId : string) (l : list obj) :
  find_binary compilationId (json_roundtrip <$> l) =
  json_roundtrip <$> find_binary compilationId l.
Proof.
  unfold find_binary. rewrite list_find_fmap.
  rewrite (list_find_ext _ (fun b => prop b "id" = VStr compilationId))
    by (intros b; simpl; by rewrite prop_json_roundtrip).
  by destruct (list_find _ l) as [[i b]|].
Qed.

Lemma find_binary_app (compilationId : string) (l : list obj) (record : obj) :
  prop record "id" = VStr compilationId ->
  find_binary compilationId (l ++ [record]) =
  match find_binary compilationId l with
  | Some old => Some old
  | None => Some record
  end.
Proof.
  intros Hid. unfold find_binary.
  destruct (list_find _ l) as [[i old]|] eqn:Hf.
  - by rewrite (list_find_app_l _ _ _ _ _ Hf).
  - rewrite list_find_app_r by done. simpl. by rewrite decide_True.
Qed.

(** X18: binaries are stored per file name, not per compilation.  Two
    downloads under the same file name, for whatever compilations, resolve to
    the same uri; afterwards the file holds what the server sent for the
    second compilation, and that is what the first compilation's record now
    points to. *)
Theorem same_file_name_overwrites_binary (env : Env) (id1 id2 fileName uri1 uri2 : string)
    (s s1 s2 : State) :
  downloadBinary env id1 fileName s = (Ok uri1, s1) ->
  downloadBinary env id2 fileName s1 = (Ok uri2, s2) ->
  uri2 = uri1 /\
  (exists tr,
     trace s1 `prefix_of` tr /\
     files s2 !! uri1 =
       Some (http_download env tr (API_BASE_URL env +:+ "/v1/binaries/" +:+ id2))) /\
  exists record1,
    record1 ∈ binaries s2 /\ prop record1 "id" = VStr id1 /\
    prop record1 "uri" = VStr uri1.
Proof.
  intros H1 H2.
  apply download_ok_files in H1 as (-> & _ & _ & _ & r1 & Hid1 & _ & Huri1 & Hb1).
  apply download_ok_files in H2 as (-> & (tr & Hpre & Hfiles) & _ & _ & r2 & _ & _ & _ & Hb2).
  split; [done|]. split.
  - exists tr. split; [done|]. by rewrite Hfiles, lookup_insert_eq.
  - exists (json_roundtrip r1). rewrite !prop_json_roundtrip. split; [|done].
    rewrite Hb2, Hb1, fmap_app. apply elem_of_app. left. apply elem_of_app. right.
    apply list_elem_of_here.
Qed.

Lemma same_file_name_overwrites_binary_witness :
  exists tr,
    files (downloadBinary uno_server "c43" "blink.bin"
             (downloadBinary uno_server "c42" "blink.bin" initial).2).2
      !! "file:///data/binaries/blink.bin" =
    Some (http_download uno_server tr "https://api.simpiler.com/v1/binaries/c43").
Proof.
  assert (H1 : downloadBinary uno_server "c42" "blink.bin" initial =
                 (Ok "file:///data/binaries/blink.bin",
                  (downloadBinary uno_server "c42" "blink.bin" initial).2))
    by (vm_compute; reflexivity).
  assert (H2 : downloadBinary uno_server "c43" "blink.bin"
                 (downloadBinary uno_server "c42" "blink.bin" initial).2 =
               (Ok "file:///data/binaries/blink.bin",
                (downloadBinary uno_server "c43" "blink.bin"
                   (downloadBinary uno_server "c42" "blink.bin" initial).2).2))
    by (vm_compute; reflexivity).
  destruct (same_file_name_overwrites_binary _ _ _ _ _ _ _ _ _ H1 H2)
    as (_ & (tr & _ & Hfile) & _).
  exists tr. exact Hfile.
Defined.

Section Preserves.

Context (env : Env) {B : Type} (f : State -> B).
Hypothesis f_log : forall ev s, f (log ev s) = f s.

Lemma preserves_ret {A} (a : A) : preserves f (ret a).
Proof. by intros s. Qed.

Lemma preserves_throw {A} (e : exn) : preserves f (@throw A e).
Proof. by intros s. Qed.

Lemma preserves_gets {A} (g : State -> A) : preserves f (gets g).
Proof. by intros s. Qed.

Lemma preserves_call (ev : Event) : preserves f (call env ev).
Proof. intros s. unfold call. destruct (rejects env (trace s) ev); apply f_log. Qed.

Lemma preserves_emit (ev : Event) : preserves f (emit ev).
Proof. intros s. apply f_log. Qed.

Lemma preserves_modify (g : State -> State) :
  (forall s, f (g s) = f s) -> preserves f (modify g).
Proof. intros Hg s. apply Hg. Qed.

Lemma preserves_bind {A C} (m : M A) (k : A -> M C) :
  preserves f m -> (forall a, preserves f (k a)) -> preserves f (bind m k).
Proof.
  intros Hm Hk s. specialize (Hm s). unfold bind.
  destruct (m s) as [[a|e] s1]; simpl in *; [|done]. by rewrite Hk.
Qed.

Lemma preserves_try_catch {A} (m : M A) (h : exn -> M A) :
  preserves f m -> (forall e, preserves f (h e)) -> preserves f (try_catch m h).
Proof.
  intros Hm Hh s. specialize (Hm s). unfold try_catch.
  destruct (m s) as [[a|e] s1]; simpl in *; [done|]. by rewrite Hh.
Qed.

Lemma preserved_on_throw_preserves {A} (m : M A) :
  preserves f m -> preserved_on_throw f m.
Proof. intros Hm s e s' Hrun. specialize (Hm s). by rewrite Hrun in Hm. Qed.

Lemma preserved_on_throw_bind {A C} (m : M A) (k : A -> M C) :
  preserves f m -> (forall a, preserved_on_throw f (k a)) ->
  preserved_on_throw f (bind m k).
Proof.
  intros Hm Hk s e s'. specialize (Hm s). unfold bind.
  destruct (m s) as [[a|e1] s1]; simpl in *.
  - intros Hrun. by rewrite (Hk a s1 e s' Hrun).
  - by intros [= _ <-].
Qed.

Lemma preserved_on_throw_rethrow {A} (m : M A) (label : string) :
  preserved_on_throw f m ->
  preserved_on_throw f
    (try_catch m (fun error => emit (ConsoleError label) ;; throw error)).
Proof.
  intros Hm s e s'. unfold try_catch.
  destruct (m s) as [[a|e1] s1] eqn:Hrun; [discriminate|].
  intros [= _ <-]. rewrite f_log. by apply (Hm s e1 s1).
Qed.

(** A guarded write: nothing is written when the call rejects. *)
Lemma preserved_on_throw_write {A} (ev : Event) (g : State -> State) (a : A) :
  preserved_on_throw f ((call env ev ;; modify g) ;; ret a).
Proof.
  intros s e s'. unfold bind, call, modify, ret.
  destruct (rejects env (trace s) ev); [|discriminate].
  intros [= _ <-]. apply f_log.
Qed.

End Preserves.

Ltac preserves :=
  repeat first
    [ apply preserves_try_catch | apply preserves_bind | apply preserves_ret
    | apply preserves_throw | apply preserves_gets
    | apply preserves_call; by intros ? ?
    | apply preserves_emit; by intros ? ?
    | apply preserves_modify; by intros ?
    | progress intros
    | match goal with
      | |- preserves _ (match ?x with _ => _ end) => destruct x
      | |- preserves _ (if ?x then _ else _) => destruct x
      | |- preserves _ (let _ := _ in _) => cbv zeta
      end ].

(** X19: a [downloadBinary] that throws records nothing: the persisted
    storage, with the list of compiled binaries, the ESP registry and the
    token, is as it was, whichever step failed. *)
Theorem failed_download_records_nothing (env : Env) (compilationId fileName : string)
    (s s' : State) (e : exn) :
  downloadBinary env compilationId fileName s = (Throw e, s') ->
  storage s' = storage s /\ binaries s' = binaries s /\ registry s' = registry s.
Proof.
  intros Hrun.
  assert (Hst : storage s' = storage s); [|by unfold binaries, registry; rewrite Hst].
  revert s e s' Hrun. change (preserved_on_throw storage
                                (downloadBinary env compilationId fileName)).
  unfold downloadBinary. apply preserved_on_throw_rethrow; [done|].
  unfold AsyncStorage_getItem, FileSystem_getInfoAsync,
    FileSystem_makeDirectoryAsync, FileSystem_downloadAsync, getCompilationStatus.
  do 7 (apply preserved_on_throw_bind; [preserves|intros]; cbv zeta).
  unfold AsyncStorage_setItem. by apply preserved_on_throw_write.
Qed.

Lemma failed_download_records_nothing_witness :
  binaries (downloadBinary status_refused "c42" "blink.bin" shed_registered).2 =
  binaries shed_registered.
Proof.
  assert (Hrun : exists e,
            downloadBinary status_refused "c42" "blink.bin" shed_registered =
            (Throw e, (downloadBinary status_refused "c42" "blink.bin" shed_registered).2)).
  { eexists. vm_compute. reflexivity. }
  destruct Hrun as (e & Hrun).
  exact (proj1 (proj2 (failed_download_records_nothing _ _ _ _ _ _ Hrun))).
Defined.

Section Quiet.

Context (env : Env).
Hypothesis quiet_env : never_rejects env.

Lemma call_quiet (ev : Event) (s : State) : call env ev s = (Ok tt, log ev s).
Proof. unfold call. by rewrite quiet_env. Qed.

Lemma getItem_quiet {A} (key : string) (field : Storage -> option A) (s : State) :
  AsyncStorage_getItem env key field s = (Ok (field (storage s)), log (StorageGetItem key) s).
Proof. unfold AsyncStorage_getItem, bind. by rewrite call_quiet. Qed.

Lemma getInfo_quiet (path : string) (s : State) :
  FileSystem_getInfoAsync env path s =
    (Ok (bool_decide (is_Some (files s !! path)) || bool_decide (path ∈ directories s)),
     log (FsGetInfo path) s).
Proof. unfold FileSystem_getInfoAsync, bind. by rewrite call_quiet. Qed.

End Quiet.

Section RequestRuns.

Context (env : Env).

Lemma getCompilationStatus_run (compilationId : string) (s : State) :
  let url := API_BASE_URL env +:+ "/v1/compile/" +:+ compilationId in
  let fetch := FetchGet url (bearer_of (auth_token (storage s))) in
  let response := http_response env (trace s ++ [StorageGetItem "auth_token"]) url in
  let failed := ConsoleError "Get compilation status error:" in
  getCompilationStatus env compilationId s =
    if rejects env (trace s) (StorageGetItem "auth_token") then
      (Throw (Rejected (StorageGetItem "auth_token")),
       log_all [StorageGetItem "auth_token"; failed] s)
    else if rejects env (trace s ++ [StorageGetItem "auth_token"]) fetch then
      (Throw (Rejected fetch), log_all [StorageGetItem "auth_token"; fetch; failed] s)
    else if ok response then
      (Ok (body response), log_all [StorageGetItem "auth_token"; fetch] s)
    else
      (Throw (JsError (to_string (js_or (prop (body response) "message")
                                        (VStr "Failed to get compilation status")))),
       log_all [StorageGetItem "auth_token"; fetch; failed] s).
Proof.
  cbv zeta.
  unfold getCompilationStatus, try_catch, AsyncStorage_getItem.
  unfold bind at 1 2, call at 1.
  destruct (rejects env (trace s) _); [settle|].
  unfold gets at 1, bind at 1, gets at 1, bind at 1, call at 1. simpl.
  destruct (rejects env (trace s ++ _) _); [settle|].
  destruct (ok _); simpl; settle.
Qed.

Lemma getBoardDetails_run (boardId : string) (s : State) :
  let url := API_BASE_URL env +:+ "/v1/boards/" +:+ boardId in
  let fetch := FetchGet url (bearer_of (auth_token (storage s))) in
  let response := http_response env (trace s ++ [StorageGetItem "auth_token"]) url in
  let failed := ConsoleError "Get board details error:" in
  getBoardDetails env boardId s =
    if rejects env (trace s) (StorageGetItem "auth_token") then
      (Throw (Rejected (StorageGetItem "auth_token")),
       log_all [StorageGetItem "auth_token"; failed] s)
    else if rejects env (trace s ++ [StorageGetItem "auth_token"]) fetch then
      (Throw (Rejected fetch), log_all [StorageGetItem "auth_token"; fetch; failed] s)
    else if ok response then
      (Ok (body response), log_all [StorageGetItem "auth_token"; fetch] s)
    else
      (Throw (JsError (to_string (js_or (prop (body response) "message")
                                        (VStr "Failed to get board details")))),
       log_all [StorageGetItem "auth_token"; fetch; failed] s).
Proof.
  cbv zeta.
  unfold getBoardDetails, try_catch, AsyncStorage_getItem.
  unfold bind at 1 2, call at 1.
  destruct (rejects env (trace s) _); [settle|].
  unfold gets at 1, bind at 1, gets at 1, bind at 1, call at 1. simpl.
  destruct (rejects env (trace s ++ _) _); [settle|].
  destruct (ok _); simpl; settle.
Qed.

End RequestRuns.

(** ** Uploads that go through *)

Section QuietUpload.

Context (env : Env).
Hypothesis quiet_env : never_rejects env.

Lemma log_as_log_all (ev : Event) (s : State) : log ev s = log_all [ev] s.
Proof. reflexivity. Qed.

Lemma throws_only_call_quiet (P : exn -> Prop) (ev : Event) : throws_only P (call env ev).
Proof. intros s e s'. by rewrite (call_quiet env quiet_env). Qed.

Lemma upload_chunks_quiet (binary : string) (chunkSize delay : Z)
    (write : string -> Event) (s : State) :
  upload_chunks env binary chunkSize delay write s =
    (Ok tt, log_all (transfer binary chunkSize delay write) s).
Proof.
  destruct (runs_upload_chunks env binary chunkSize delay write s) as (evs & Hs & Hevs).
  destruct (upload_chunks env binary chunkSize delay write s) as [[[]|e] s1] eqn:Hrun;
    simpl in *.
  - by rewrite Hs, Hevs.
  - exfalso. revert Hrun. generalize s e s1. change (throws_only (fun _ => False)
      (upload_chunks env binary chunkSize delay write)).
    unfold upload_chunks, sleep.
    apply throws_only_for_range. intros i.
    repeat (apply throws_only_bind; [apply throws_only_call_quiet|intros _]).
    apply throws_only_emit.
Qed.

Lemma readAsString_quiet (path : string) (bytes : list Byte.byte) (s : State)
    (stored : gmap string (list Byte.byte)) :
  files s = stored -> stored !! path = Some bytes ->
  FileSystem_readAsStringAsync env path s =
    (Ok (base64_encode bytes), log (FsReadAsStringBase64 path) s).
Proof.
  intros <- Hfile. unfold FileSystem_readAsStringAsync, bind at 1.
  rewrite (call_quiet env quiet_env). unfold bind, gets.
  change (files (log (FsReadAsStringBase64 path) s)) with (files s). by rewrite Hfile.
Qed.

Lemma bind_gets_eq {A B} (f : State -> A) (k : A -> M B) (s : State) :
  bind (gets f) k s = k (f s) s.
Proof. reflexivity. Qed.

Lemma bind_emit_eq {B} (ev : Event) (k : unit -> M B) (s : State) :
  bind (emit ev) k s = k tt (log ev s).
Proof. reflexivity. Qed.

Lemma bind_call_quiet {B} (ev : Event) (k : unit -> M B) (s : State) :
  bind (call env ev) k s = k tt (log ev s).
Proof. unfold bind. by rewrite (call_quiet env quiet_env). Qed.

Lemma bind_ok_eq {A B} (m : M A) (k : A -> M B) (s s1 : State) (a : A) :
  m s = (Ok a, s1) -> bind m k s = k a s1.
Proof. intros H. unfold bind. by rewrite H. Qed.

Lemma for_of_progress_quiet (reports : list (Z * Z)) (s : State) :
  for_of reports (fun p => call env (ProgressCallback p.1 p.2)) s =
    (Ok tt, log_all ((fun p => ProgressCallback p.1 p.2) <$> reports) s).
Proof.
  revert s. induction reports as [|p reports IH]; intros s.
  - simpl. by rewrite log_all_nil.
  - cbn [for_of]. rewrite bind_call_quiet, IH. by rewrite log_log_all.
Qed.

Lemma upload_usb_quiet (path : string) (device : Board) (bytes : list Byte.byte)
    (s : State) :
  connectedDevice s = Some device ->
  files s !! path = Some bytes ->
  is_type (connectionType s) "usb" && UsbSerial env = true ->
  uploadBinary env path s =
    (Ok true, log_all (usb_upload_events (id device) path (base64_encode bytes)) s).
Proof.
  intros Hdev Hfile Husb.
  unfold uploadBinary, try_catch, sleep.
  rewrite bind_gets_eq, Hdev.
  rewrite (bind_ok_eq _ _ _ _ _ (getInfo_quiet env quiet_env path s)), Hfile.
  rewrite (bool_decide_eq_true_2 (is_Some (Some bytes))) by eauto. cbn [orb negb].
  rewrite bind_gets_eq.
  change (connectionType (log (FsGetInfo path) s)) with (connectionType s).
  rewrite Husb.
  rewrite !bind_call_quiet, bind_emit_eq, bind_call_quiet, bind_emit_eq, bind_call_quiet.
  match goal with
  | |- context [bind (FileSystem_readAsStringAsync env path) _ ?s0] =>
      rewrite (bind_ok_eq _ _ _ _ _
                 (readAsString_quiet path bytes s0 (files s) eq_refl Hfile))
  end.
  rewrite (bind_ok_eq _ _ _ _ _ (upload_chunks_quiet _ _ _ _ _)).
  rewrite bind_call_quiet, bind_emit_eq, bind_call_quiet.
  unfold ret, usb_upload_events, bootloader_entry, board_reset. f_equal.
  rewrite !log_as_log_all, !log_all_app. cbn [app]. reflexivity.
Qed.

Lemma upload_ble_quiet (path : string) (device : Board) (bytes : list Byte.byte)
    (s : State) :
  connectedDevice s = Some device ->
  files s !! path = Some bytes ->
  is_type (connectionType s) "usb" && UsbSerial env = false ->
  is_type (connectionType s) "ble" && BleManager env = true ->
  uploadBinary env path s =
    (Ok true, log_all (ble_upload_events (id device) path (base64_encode bytes)) s).
Proof.
  intros Hdev Hfile Husb Hble.
  unfold uploadBinary, try_catch.
  rewrite bind_gets_eq, Hdev.
  rewrite (bind_ok_eq _ _ _ _ _ (getInfo_quiet env quiet_env path s)), Hfile.
  rewrite (bool_decide_eq_true_2 (is_Some (Some bytes))) by eauto. cbn [orb negb].
  rewrite bind_gets_eq.
  change (connectionType (log (FsGetInfo path) s)) with (connectionType s).
  rewrite Husb, Hble.
  match goal with
  | |- context [bind (FileSystem_readAsStringAsync env path) _ ?s0] =>
      rewrite (bind_ok_eq _ _ _ _ _
                 (readAsString_quiet path bytes s0 (files s) eq_refl Hfile))
  end.
  rewrite (bind_ok_eq _ _ _ _ _ (upload_chunks_quiet _ _ _ _ _)).
  unfold ret, ble_upload_events. f_equal.
  rewrite !log_as_log_all, !log_all_app. cbn [app]. reflexivity.
Qed.

Lemma upload_wifi_quiet (path : string) (device : Board) (s : State) :
  connectedDevice s = Some device ->
  (is_Some (files s !! path) \/ path ∈ directories s) ->
  is_type (connectionType s) "usb" && UsbSerial env = false ->
  is_type (connectionType s) "ble" && BleManager env = false ->
  is_type (connectionType s) "wifi" && EspOta env = true ->
  uploadBinary env path s =
    (Ok (esp_upload_result env (trace s ++ [FsGetInfo path])),
     log_all (wifi_upload_events env s device path) s).
Proof.
  intros Hdev Hthere Husb Hble Hwifi.
  unfold uploadBinary, try_catch.
  rewrite bind_gets_eq, Hdev.
  rewrite (bind_ok_eq _ _ _ _ _ (getInfo_quiet env quiet_env path s)).
  assert (Hexists : bool_decide (is_Some (files s !! path))
                    || bool_decide (path ∈ directories s) = true).
  { apply orb_true_iff. destruct Hthere as [H|H]; [left|right];
      by apply bool_decide_eq_true_2. }
  rewrite Hexists. cbn [negb].
  rewrite bind_gets_eq.
  change (connectionType (log (FsGetInfo path) s)) with (connectionType s).
  rewrite Husb, Hble, Hwifi.
  rewrite bind_gets_eq, bind_call_quiet.
  rewrite (bind_ok_eq _ _ _ _ _ (for_of_progress_quiet _ _)).
  unfold ret, wifi_upload_events. f_equal.
  rewrite !log_as_log_all, !log_all_app. reflexivity.
Qed.

End QuietUpload.

(** ** Chunks and complete uploads *)

Lemma substring_length (a n : nat) (b : string) :
  String.length (substring a n b) = min n (String.length b - a).
Proof.
  revert a n. induction b as [|c b IH]; intros a n.
  - destruct a, n; reflexivity.
  - destruct a as [|a].
    + destruct n as [|n]; [reflexivity|]. simpl. rewrite IH. f_equal. f_equal. lia.
    + simpl. by rewrite IH.
Qed.

Lemma chunk_at_length (binary : string) (chunkSize i : Z) :
  0 < chunkSize -> 0 <= i < total_chunks binary chunkSize ->
  (1 <= String.length (chunk_at binary chunkSize i) <= Z.to_nat chunkSize)%nat /\
  (i + 1 < total_chunks binary chunkSize ->
   String.length (chunk_at binary chunkSize i) = Z.to_nat chunkSize).
Proof.
  intros Hcs Hi. unfold chunk_at. rewrite substring_length.
  unfold total_chunks, ceil_div in Hi |- *.
  pose proof (Z.div_mod (Z.of_nat (String.length binary) + chunkSize - 1) chunkSize).
  pose proof (Z.mod_pos_bound (Z.of_nat (String.length binary) + chunkSize - 1) chunkSize).
  split; [|intros Hnext]; nia.
Qed.

Lemma chunks_written_app (a b : list Event) :
  chunks_written (a ++ b) = chunks_written a ++ chunks_written b.
Proof. unfold chunks_written. apply omap_app. Qed.

Lemma progress_reported_app (a b : list Event) :
  progress_reported (a ++ b) = progress_reported a ++ progress_reported b.
Proof. unfold progress_reported. apply omap_app. Qed.

Lemma usb_chunks_written (dev : value) (path binary : string) :
  chunks_written (usb_upload_events dev path binary) =
    chunk_at binary 128 <$> seqZ 0 (total_chunks binary 128).
Proof.
  unfold usb_upload_events. rewrite !chunks_written_app. unfold transfer.
  rewrite chunks_written_rounds by done. simpl. by rewrite app_nil_r.
Qed.

Lemma ble_chunks_written (dev : value) (path binary : string) :
  chunks_written (ble_upload_events dev path binary) =
    chunk_at binary 20 <$> seqZ 0 (total_chunks binary 20).
Proof.
  unfold ble_upload_events. rewrite !chunks_written_app. unfold transfer.
  by rewrite chunks_written_rounds.
Qed.

Lemma chunks_in_range (binary : string) (chunkSize : Z) :
  0 < chunkSize ->
  Forall (fun chunk => (1 <= String.length chunk <= Z.to_nat chunkSize)%nat)
         (chunk_at binary chunkSize <$> seqZ 0 (total_chunks binary chunkSize)).
Proof.
  intros Hcs. apply Forall_fmap, Forall_forall. intros i Hi. simpl.
  apply elem_of_seqZ in Hi. apply chunk_at_length; [done|lia].
Qed.

(** What an upload over a chunked connection has written when it ends,
    whether it resolved or threw: some first chunks of the text. *)
Lemma upload_chunks_written (env : Env) (path : string) (device : Board) (s s' : State)
    (r : Result bool) (chunkSize : Z) :
  connectedDevice s = Some device ->
  chunked_connection env s chunkSize ->
  uploadBinary env path s = (r, s') ->
  chunks_written (drop (length (trace s)) (trace s'))
    `prefix_of` chunk_at (stored_binary s path) chunkSize
                  <$> seqZ 0 (total_chunks (stored_binary s path) chunkSize).
Proof.
  intros Hdev Hconn Hrun.
  assert (Hlog : exists expected,
            runs_logged (uploadBinary env path) s expected upload_error /\
            chunks_written expected =
              chunk_at (stored_binary s path) chunkSize
                <$> seqZ 0 (total_chunks (stored_binary s path) chunkSize)).
  { destruct Hconn as [[Husb ->]|(Husb & Hble & ->)].
    - eexists. split; [by apply upload_usb_runs|apply usb_chunks_written].
    - eexists. split; [by apply upload_ble_runs|apply ble_chunks_written]. }
  destruct Hlog as (expected & (evs & Hlog) & <-).
  rewrite Hrun in Hlog. simpl in Hlog.
  assert (Hpre : evs `prefix_of` expected /\
                 chunks_written (drop (length (trace s)) (trace s')) = chunks_written evs).
  { destruct r; destruct Hlog as [Hevs ->]; simpl; rewrite drop_app_length.
    - by subst.
    - split; [done|]. rewrite chunks_written_app. simpl. by rewrite app_nil_r. }
  destruct Hpre as [[k ->] ->]. rewrite chunks_written_app. by apply prefix_app_r.
Qed.

(** X21: no chunk overruns the transport.  In every upload over USB or
    BLE, resolved or not, each chunk written has at least one character and at
    most 128 (USB) or 20 (BLE); every chunk that is followed by another one
    has exactly that many. *)
Theorem chunks_fit_the_transport (env : Env) (path : string) (device : Board)
    (s s' : State) (r : Result bool) (chunkSize : Z) :
  connectedDevice s = Some device ->
  chunked_connection env s chunkSize ->
  uploadBinary env path s = (r, s') ->
  let written := chunks_written (drop (length (trace s)) (trace s')) in
  Forall (fun chunk => (1 <= String.length chunk <= Z.to_nat chunkSize)%nat) written /\
  (forall (i : nat) chunk,
     written !! i = Some chunk -> is_Some (written !! S i) ->
     String.length chunk = Z.to_nat chunkSize).
Proof.
  intros Hdev Hconn Hrun written.
  assert (Hcs : 0 < chunkSize) by (destruct Hconn as [[_ ->]|(_ & _ & ->)]; lia).
  pose proof (upload_chunks_written env path device s s' r chunkSize Hdev Hconn Hrun)
    as Hpre.
  fold written in Hpre. split.
  - eapply Forall_prefix; [exact Hpre|]. by apply chunks_in_range.
  - intros i chunk Hi [next Hnext].
    pose proof (prefix_lookup_Some _ _ _ _ Hi Hpre) as Hi'.
    pose proof (prefix_lookup_Some _ _ _ _ Hnext Hpre) as Hnext'.
    rewrite list_lookup_fmap in Hi', Hnext'.
    destruct (seqZ 0 _ !! i) as [j|] eqn:Hj; [|discriminate Hi'].
    destruct (seqZ 0 _ !! S i) as [j'|] eqn:Hj'; [|discriminate Hnext'].
    apply lookup_seqZ in Hj as [-> Hlt]. apply lookup_seqZ in Hj' as [_ Hlt'].
    injection Hi' as <-.
    apply chunk_at_length; [done|lia|lia].
Qed.

Lemma chunks_fit_the_transport_witness :
  Forall (fun chunk => (1 <= String.length chunk <= 128)%nat)
    (chunks_written
       (drop (length (trace usb_ready))
          (trace (uploadBinary (quiet android) "fw.bin" usb_ready).2))).
Proof.
  assert (Hdev : connectedDevice usb_ready = Some uno_usb) by reflexivity.
  assert (Hconn : chunked_connection (quiet android) usb_ready 128)
    by (left; split; reflexivity).
  assert (Hrun : uploadBinary (quiet android) "fw.bin" usb_ready =
                   (Ok true, (uploadBinary (quiet android) "fw.bin" usb_ready).2))
    by (vm_compute; reflexivity).
  exact (proj1 (chunks_fit_the_transport _ _ _ _ _ _ _ Hdev Hconn Hrun)).
Defined.

(** X22: when no outside call rejects, the binary is on the device and the
    connection fields agree, [uploadBinary] resolves, having let out the whole
    sequence of its transport.  Over USB and BLE it resolves to true; over
    WiFi it makes one OTA call, to the registered ip and port (8266 when none
    is registered), passes on the progress the OTA driver reports, and
    resolves to whatever the driver resolved to. *)
Theorem upload_resolves_when_nothing_rejects (env : Env) (path : string)
    (device : Board) (bytes : list Byte.byte) (s : State) :
  never_rejects env ->
  connection_consistent env s ->
  connectedDevice s = Some device ->
  files s !! path = Some bytes ->
  exists result evs,
    uploadBinary env path s = (Ok result, log_all evs s) /\
    (type device = "usb" /\ result = true /\
     evs = usb_upload_events (id device) path (base64_encode bytes) \/
     type device = "ble" /\ result = true /\
     evs = ble_upload_events (id device) path (base64_encode bytes) \/
     type device = "wifi" /\
     result = esp_upload_result env (trace s ++ [FsGetInfo path]) /\
     evs = [FsGetInfo path;
            EspUploadBinary (prop (details device) "ip")
                            (js_or (prop (details device) "port") (VNum 8266)) path]
           ++ ((fun p => ProgressCallback p.1 p.2)
                 <$> esp_upload_progress env (trace s ++ [FsGetInfo path]))).
Proof.
  intros Hq Hs Hdev Hfile.
  destruct (consistent_connected env s device Hs Hdev) as [Hct Hdrv].
  destruct (is_type (connectionType s) "usb" && UsbSerial env) eqn:Husb.
  { eexists _, _. split; [by apply upload_usb_quiet|]. left.
    apply andb_true_iff in Husb as [Husb _]. rewrite Hct, is_type_Some in Husb.
    apply String.eqb_eq in Husb. done. }
  destruct (is_type (connectionType s) "ble" && BleManager env) eqn:Hble.
  { eexists _, _. split; [by apply upload_ble_quiet|]. right. left.
    apply andb_true_iff in Hble as [Hble _]. rewrite Hct, is_type_Some in Hble.
    apply String.eqb_eq in Hble. done. }
  simpl in Hdrv.
  eexists _, _. split; [apply upload_wifi_quiet; eauto|]. right. right.
  apply andb_true_iff in Hdrv as [Hwifi _]. rewrite Hct, is_type_Some in Hwifi.
  apply String.eqb_eq in Hwifi. done.
Qed.

Lemma upload_resolves_when_nothing_rejects_witness :
  exists result evs,
    uploadBinary (quiet android) "fw.bin" usb_ready = (Ok result, log_all evs usb_ready) /\
    result = true.
Proof.
  assert (Hq : never_rejects (quiet android)) by (intros tr ev; reflexivity).
  assert (Hs : connection_consistent (quiet android) usb_ready)
    by (split; reflexivity).
  assert (Hfile : files usb_ready !! "fw.bin" = Some (payload 5))
    by (vm_compute; reflexivity).
  destruct (upload_resolves_when_nothing_rejects (quiet android) "fw.bin" uno_usb
              (payload 5) usb_ready Hq Hs eq_refl Hfile)
    as (result & evs & Hrun & [(_ & Hres & _)|[(Hble & _)|(Hwifi & _)]]).
  - exists result, evs. by split.
  - discriminate Hble.
  - discriminate Hwifi.
Defined.

Lemma transfer_empty (chunkSize delay : Z) (write : string -> Event) :
  0 < chunkSize -> transfer "" chunkSize delay write = [].
Proof.
  intros Hcs. unfold transfer, total_chunks, ceil_div. simpl String.length.
  rewrite Z.div_small by lia. reflexivity.
Qed.

(** X23: the upload of an empty binary goes through without a single
    chunk: when no call rejects, it resolves to true over USB and BLE, the
    progress callback is never called, nothing is written, and over USB the
    board is still put in bootloader mode and reset. *)
Theorem empty_binary_uploads_nothing (env : Env) (path : string) (device : Board)
    (s : State) :
  never_rejects env ->
  connectedDevice s = Some device ->
  files s !! path = Some [] ->
  (is_type (connectionType s) "usb" && UsbSerial env = true ->
   uploadBinary env path s =
     (Ok true,
      log_all ([FsGetInfo path] ++ bootloader_entry (id device) ++
               [FsReadAsStringBase64 path] ++ board_reset (id device)) s)) /\
  (is_type (connectionType s) "usb" && UsbSerial env = false ->
   is_type (connectionType s) "ble" && BleManager env = true ->
   uploadBinary env path s =
     (Ok true, log_all [FsGetInfo path; FsReadAsStringBase64 path] s)).
Proof.
  intros Hq Hdev Hfile. split.
  - intros Husb. rewrite (upload_usb_quiet env Hq path device [] s Hdev Hfile Husb).
    unfold usb_upload_events. change (base64_encode []) with "".
    by rewrite transfer_empty.
  - intros Husb Hble.
    rewrite (upload_ble_quiet env Hq path device [] s Hdev Hfile Husb Hble).
    unfold ble_upload_events. change (base64_encode []) with "".
    by rewrite transfer_empty.
Qed.

Lemma empty_binary_uploads_nothing_witness :
  uploadBinary (quiet android) "empty.bin" (with_file "empty.bin" [] usb_ready) =
    (Ok true,
     log_all ([FsGetInfo "empty.bin"] ++ bootloader_entry (VNum 1002) ++
              [FsReadAsStringBase64 "empty.bin"] ++ board_reset (VNum 1002))
       (with_file "empty.bin" [] usb_ready)).
Proof.
  assert (Hq : never_rejects (quiet android)) by (intros tr ev; reflexivity).
  assert (Hfile : files (with_file "empty.bin" [] usb_ready) !! "empty.bin" = Some [])
    by (vm_compute; reflexivity).
  destruct (empty_binary_uploads_nothing (quiet android) "empty.bin" uno_usb
              (with_file "empty.bin" [] usb_ready) Hq eq_refl Hfile) as [Husb _].
  exact (Husb eq_refl).
Defined.

(** ** Which operation may change what *)

Lemma only_logs_preserves {A B} (f : State -> B) (m : M A) :
  (forall evs s, f (log_all evs s) = f s) -> only_logs m -> preserves f m.
Proof. intros Hf Hm s. destruct (Hm s) as (evs & ->). apply Hf. Qed.

(** Reduces a goal [f (m s).2 = f s] to [preserves f m] and proves that for
    a method built from calls, reads and writes that leave [f] alone. *)
Ltac frame :=
  match goal with
  | |- ?f (?m ?s).2 = ?f ?s =>
      revert s; change (preserves f m);
      first
        [ apply only_logs_preserves;
          [by intros ? ?
          |first [ apply uploadBinary_only_logs | apply sendData_only_logs
                 | apply getAvailableBoards_only_logs | apply dataListener_only_logs
                 | apply getCompilationStatus_only_logs ]]
        | unfold connectToBoard, disconnectFromBoard, addEspDevice, removeEspDevice,
            downloadBinary, getCompilationStatus, addSerialMonitorCallback,
            removeSerialMonitorCallback, AsyncStorage_getItem, AsyncStorage_setItem,
            FileSystem_getInfoAsync, FileSystem_makeDirectoryAsync,
            FileSystem_downloadAsync;
          preserves ]
  end.

Lemma unsubscribe_frame {B} (f : State -> B) (callback : nat) (s : State) :
  (forall l s0, f (set_callbacks l s0) = f s0) ->
  f (removeSerialMonitorCallback callback s).2 = f s.
Proof.
  intros Hf. unfold removeSerialMonitorCallback, modify. simpl.
  destruct (list_find _ _) as [[index c]|]; [apply Hf|done].
Qed.

Lemma perform_frame (env : Env) (op : Operation) (s : State) :
  (changes_subscriptions op = false ->
   serialMonitorCallbacks (perform env op s) = serialMonitorCallbacks s) /\
  (changes_connection op = false ->
   connectedDevice (perform env op s) = connectedDevice s /\
   connectionType (perform env op s) = connectionType s) /\
  (changes_registry op = false -> registry (perform env op s) = registry s) /\
  (changes_binaries op = false ->
   binaries (perform env op s) = binaries s /\ files (perform env op s) = files s /\
   directories (perform env op s) = directories s) /\
  token (perform env op s) = token s.
Proof.
  destruct op; cbn [perform changes_subscriptions changes_connection changes_registry
                    changes_binaries];
    (split; [intros Hc|split; [intros Hc|split; [intros Hc|split; [intros Hc|]]]]);
    try discriminate Hc; try clear Hc;
    repeat match goal with |- _ /\ _ => split end;
    first [ by apply unsubscribe_frame | frame ].
Qed.

(** X24: every operation minds its own part of the state.  Over any
    sequence of calls, returned or thrown: the subscriptions change only by
    subscribing and unsubscribing, the connection only by connecting and
    disconnecting, the ESP registry only by registering and removing, the
    downloaded binaries and the files only by downloading, and the stored
    token never. *)
Theorem operations_mind_their_own_state (env : Env) (ops : list Operation) (s : State) :
  (Forall (fun op => changes_subscriptions op = false) ops ->
   serialMonitorCallbacks (perform_all env ops s) = serialMonitorCallbacks s) /\
  (Forall (fun op => changes_connection op = false) ops ->
   connectedDevice (perform_all env ops s) = connectedDevice s /\
   connectionType (perform_all env ops s) = connectionType s) /\
  (Forall (fun op => changes_registry op = false) ops ->
   registry (perform_all env ops s) = registry s) /\
  (Forall (fun op => changes_binaries op = false) ops ->
   binaries (perform_all env ops s) = binaries s /\
   files (perform_all env ops s) = files s /\
   directories (perform_all env ops s) = directories s) /\
  token (perform_all env ops s) = token s.
Proof.
  revert s. induction ops as [|op ops IH]; intros s.
  { repeat split. }
  destruct (IH (perform env op s)) as (IH1 & IH2 & IH3 & IH4 & IH5).
  destruct (perform_frame env op s) as (H1 & H2 & H3 & H4 & H5).
  cbn [perform_all foldl]. fold (perform_all env ops (perform env op s)).
  split; [|split; [|split; [|split]]].
  - intros Hall. apply Forall_cons in Hall as [Hop Hall]. by rewrite IH1, H1.
  - intros Hall. apply Forall_cons in Hall as [Hop Hall].
    destruct (IH2 Hall) as [-> ->]. by apply H2.
  - intros Hall. apply Forall_cons in Hall as [Hop Hall]. by rewrite IH3, H3.
  - intros Hall. apply Forall_cons in Hall as [Hop Hall].
    destruct (IH4 Hall) as (-> & -> & ->). by apply H4.
  - by rewrite IH5, H5.
Qed.

Lemma operations_mind_their_own_state_witness :
  serialMonitorCallbacks
    (perform_all usb_close_fails
       [DoConnect uno_usb; DoUpload "fw.bin"; DoReceive "ok"; DoConnect mega_usb;
        DoDisconnect]
       (subscribed [1; 2]%nat))
  = [1; 2]%nat.
Proof.
  destruct (operations_mind_their_own_state usb_close_fails
              [DoConnect uno_usb; DoUpload "fw.bin"; DoReceive "ok"; DoConnect mega_usb;
               DoDisconnect]
              (subscribed [1; 2]%nat)) as (Hsubs & _).
  apply Hsubs. by repeat constructor.
Defined.

Lemma sendData_resolved (env : Env) (data : string) (s s' : State) (r : bool) :
  sendData env data s = (Ok r, s') ->
  r = true /\
  exists device,
    connectedDevice s = Some device /\
    (is_type (connectionType s) "usb" && UsbSerial env = true /\
     s' = log_all [UsbWrite (id device) data] s \/
     is_type (connectionType s) "ble" && BleManager env = true /\
     s' = log_all [BleWrite (id device) "FFE0" "FFE1" data] s).
Proof.
  unfold sendData, try_catch, bind at 1, gets at 1.
  destruct (connectedDevice s) as [device|]; [|discriminate].
  unfold bind at 1, gets at 1.
  destruct (is_type (connectionType s) "usb" && UsbSerial env).
  { unfold bind, call, ret. destruct (rejects env (trace s) _); [discriminate|].
    intros [= <- <-]. split; [done|]. exists device. split; [done|]. by left. }
  destruct (is_type (connectionType s) "ble" && BleManager env); [|discriminate].
  unfold bind, call, ret. destruct (rejects env (trace s) _); [discriminate|].
  intros [= <- <-]. split; [done|]. exists device. split; [done|]. by right.
Qed.

(** X25: once [connectToBoard] has resolved, the service holds that board
    with its own type, and data sent afterwards goes to that board's id: over
    USB for a USB board, over BLE (service FFE0, characteristic FFE1) for a
    BLE board, and not at all for a WiFi board, for which [sendData] never
    resolves. *)
Theorem data_goes_to_the_connected_board (env : Env) (board : Board) (s s1 : State)
    (b : bool) :
  connectToBoard env board s = (Ok b, s1) ->
  b = true /\ connectedDevice s1 = Some board /\ connectionType s1 = Some (type board) /\
  forall data r s2,
    sendData env data s1 = (Ok r, s2) ->
    type board = "usb" /\ s2 = log_all [UsbWrite (id board) data] s1 \/
    type board = "ble" /\ s2 = log_all [BleWrite (id board) "FFE0" "FFE1" data] s1.
Proof.
  intros Hrun.
  destruct (connect_cases env board s)
    as [H|[(e' & evs & _ & _ & H)|(e' & evs & _ & H)]];
    rewrite H in Hrun; [|discriminate..]. injection Hrun as <- <-.
  split; [done|]. split; [done|]. split; [done|].
  intros data r s2 Hsend.
  apply sendData_resolved in Hsend as (_ & device & Hdev & Hcase).
  injection Hdev as <-.
  change (connectionType (set_connection _ _ _)) with (Some (type board)) in Hcase.
  rewrite !is_type_Some in Hcase.
  destruct Hcase as [[Ht ->]|[Ht ->]]; apply andb_true_iff in Ht as [Ht _];
    apply String.eqb_eq in Ht; [by left|by right].
Qed.

Lemma data_goes_to_the_connected_board_witness :
  sendData (quiet android) "ping" (connectToBoard (quiet android) uno_usb initial).2 =
    (Ok true,
     log_all [UsbWrite (VNum 1002) "ping"]
       (connectToBoard (quiet android) uno_usb initial).2).
Proof.
  assert (Hconn : connectToBoard (quiet android) uno_usb initial =
                    (Ok true, (connectToBoard (quiet android) uno_usb initial).2))
    by (vm_compute; reflexivity).
  assert (Hsend : sendData (quiet android) "ping"
                    (connectToBoard (quiet android) uno_usb initial).2 =
                  (Ok true,
                   (sendData (quiet android) "ping"
                      (connectToBoard (quiet android) uno_usb initial).2).2))
    by (vm_compute; reflexivity).
  destruct (data_goes_to_the_connected_board _ _ _ _ _ Hconn) as (_ & _ & _ & Hdata).
  destruct (Hdata _ _ _ Hsend) as [[_ Hs2]|[Hble _]]; [|discriminate Hble].
  rewrite Hsend at 1. by rewrite Hs2.
Defined.

(** ** The callers' file names and the details request *)

Lemma replace_non_alphanumeric_length (name : code_units) :
  String.length (replace_non_alphanumeric name) = length name.
Proof. induction name as [|u name IH]; [done|]. simpl. by rewrite IH. Qed.

Lemma is_alphanumeric_small (u : N) : is_alphanumeric u = true -> (u < 128)%N.
Proof.
  unfold is_alphanumeric. intros H.
  apply orb_true_iff in H as [H|H]; [apply orb_true_iff in H as [H|H]|];
    apply andb_true_iff in H as [_ H]; apply N.leb_le in H; lia.
Qed.

Lemma replace_non_alphanumeric_chars (name : code_units) :
  Forall (fun c => is_alphanumeric (N_of_ascii c) = true \/ c = "_"%char)
         (list_ascii_of_string (replace_non_alphanumeric name)).
Proof.
  induction name as [|u name IH]; [constructor|]. simpl. constructor; [|exact IH].
  destruct (is_alphanumeric u) eqn:Hu; [left|by right].
  rewrite N_ascii_embedding; [done|]. apply is_alphanumeric_small in Hu. lia.
Qed.

Lemma replace_non_alphanumeric_idemp (name : code_units) :
  replace_non_alphanumeric (code_units_of (replace_non_alphanumeric name))
  = replace_non_alphanumeric name.
Proof.
  induction name as [|u name IH]; [done|].
  cbn [replace_non_alphanumeric]. unfold code_units_of in *.
  cbn [list_ascii_of_string fmap list_fmap replace_non_alphanumeric].
  fold (@fmap list _ _ _ N_of_ascii). rewrite IH. f_equal.
  destruct (is_alphanumeric u) eqn:Hu.
  - rewrite N_ascii_embedding by (apply is_alphanumeric_small in Hu; lia).
    by rewrite Hu.
  - reflexivity.
Qed.

Lemma includes_slash (text : string) :
  Forall (fun c => c <> "/"%char) (list_ascii_of_string text) ->
  includes text "/" = false.
Proof.
  induction text as [|c text IH]; intros Hall; [reflexivity|].
  apply Forall_cons in Hall as [Hc Hall]. cbn [includes String.prefix].
  destruct (ascii_dec "/" c) as [<-|_]; [done|]. simpl. by apply IH.
Qed.

Lemma list_ascii_of_string_app (a b : string) :
  list_ascii_of_string (a +:+ b) = list_ascii_of_string a ++ list_ascii_of_string b.
Proof. induction a as [|c a IH]; [done|]. simpl. by rewrite <- IH. Qed.

Lemma list_ascii_of_replace (name : code_units) :
  list_ascii_of_string (replace_non_alphanumeric name) =
    (fun u => if is_alphanumeric u then ascii_of_N u else "_"%char) <$> name.
Proof. induction name as [|u name IH]; [done|]. simpl. by rewrite IH. Qed.

(** X26: the file name the compile handler downloads a binary under is safe
    to put under the binaries directory, whatever the project is called.  Code
    unit for code unit of the project name, a letter or digit is kept and
    anything else, non-ASCII characters and both halves of a surrogate pair
    included, is replaced by an underscore; '.bin' follows.  The name contains
    no '/', so the uri [downloadBinary] builds from it names a file directly
    inside the binaries directory.  Names that differ only in replaced
    characters get the same file name. *)
Theorem binary_file_name_is_safe (projectName : code_units) :
  exists stem,
    binary_file_name projectName = stem +:+ ".bin" /\
    list_ascii_of_string stem =
      (fun u => if is_alphanumeric u then ascii_of_N u else "_"%char) <$> projectName /\
    String.length stem = length projectName /\
    Forall (fun c => is_alphanumeric (N_of_ascii c) = true \/ c = "_"%char)
           (list_ascii_of_string stem) /\
    includes (binary_file_name projectName) "/" = false /\
    binary_file_name (code_units_of stem) = binary_file_name projectName.
Proof.
  exists (replace_non_alphanumeric projectName).
  split; [reflexivity|]. split; [apply list_ascii_of_replace|].
  split; [apply replace_non_alphanumeric_length|].
  split; [apply replace_non_alphanumeric_chars|]. split.
  - apply includes_slash. unfold binary_file_name. rewrite list_ascii_of_string_app.
    apply Forall_app. split.
    + eapply Forall_impl; [apply replace_non_alphanumeric_chars|].
      simpl. intros c [Hc | Hc] Heq; subst c; [vm_compute in Hc|]; discriminate.
    + repeat constructor; discriminate.
  - unfold binary_file_name. by rewrite replace_non_alphanumeric_idemp.
Qed.

(** The project name 'Płytka 1' has eight code units, of which U+0142 and the
    space are replaced. *)
Lemma binary_file_name_of_Plytka_1 :
  binary_file_name [80; 322; 121; 116; 107; 97; 32; 49]%N = "P_ytka_1.bin".
Proof. reflexivity. Qed.

Lemma last_logged (evs : list Event) (ev : Event) (s : State) :
  last (trace (log_all (evs ++ [ev]) s)) = Some ev.
Proof. simpl. by rewrite app_assoc, last_snoc. Qed.

Section DetailsRequest.

Context (env : Env).

(** X27: [getBoardDetails] makes one GET request, to /v1/boards/<id> of the
    API, after reading the stored token, and resolves to the body of the
    response when the server answers ok; otherwise it throws the message of
    the error body, or 'Failed to get board details' when the body has none.
    Every failure, that of a rejected call too, is logged once before it is
    rethrown. *)
Theorem getBoardDetails_outcomes (boardId : string) (s s' : State) (r : Result obj) :
  getBoardDetails env boardId s = (r, s') ->
  let url := API_BASE_URL env +:+ "/v1/boards/" +:+ boardId in
  let fetch := FetchGet url (bearer_of (token s)) in
  let response := http_response env (trace s ++ [StorageGetItem "auth_token"]) url in
  match r with
  | Ok details =>
      ok response = true /\ details = body response /\
      s' = log_all [StorageGetItem "auth_token"; fetch] s
  | Throw e =>
      last (trace s') = Some (ConsoleError "Get board details error:") /\
      (is_rejection e \/
       ok response = false /\
       e = JsError (match prop (body response) "message" with
                    | VUndefined => "Failed to get board details"
                    | message =>
                        if truthy message then to_string message
                        else "Failed to get board details"
                    end) /\
       s' = log_all [StorageGetItem "auth_token"; fetch;
                     ConsoleError "Get board details error:"] s)
  end.
Proof.
  rewrite getBoardDetails_run. cbv zeta. unfold token.
  destruct (rejects env (trace s) _).
  { intros [= <- <-]. split; [apply (last_logged [_])|]. left.
    apply rejected_is_rejection. }
  destruct (rejects env (trace s ++ _) _).
  { intros [= <- <-]. split; [apply (last_logged [_; _])|]. left.
    apply rejected_is_rejection. }
  destruct (ok _) eqn:Hok.
  { by intros [= <- <-]. }
  intros [= <- <-]. split; [apply (last_logged [_; _])|]. right.
  split; [done|]. split; [|done]. f_equal. unfold js_or.
  by destruct (prop _ "message") as [|m|n]; [|destruct (truthy _)..].
Qed.

End DetailsRequest.

Lemma getBoardDetails_outcomes_witness :
  getBoardDetails status_refused "uno" initial =
    (Throw (JsError "Compilation not found"),
     log_all [StorageGetItem "auth_token";
              FetchGet "https://api.simpiler.com/v1/boards/uno" None;
              ConsoleError "Get board details error:"] initial).
Proof.
  assert (Hrun : exists e,
            getBoardDetails status_refused "uno" initial =
            (Throw e, (getBoardDetails status_refused "uno" initial).2))
    by (eexists; vm_compute; reflexivity).
  destruct Hrun as (e & Hrun).
  destruct (getBoardDetails_outcomes status_refused "uno" initial _ _ Hrun)
    as (_ & [Hrej|(_ & He & Hs)]).
  - exfalso. destruct Hrej as [ev ->]. vm_compute in Hrun. discriminate Hrun.
  - rewrite Hrun, He, Hs. reflexivity.
Defined.

Lemma js_or_label (v : value) (label : string) :
  truthy (VStr label) = true -> truthy (js_or v (VStr label)) = true.
Proof. intros Hlabel. unfold js_or. by destruct (truthy v) eqn:Hv. Qed.

(** X28: every board a scan returns can be shown and told apart by
    transport: its name is truthy (the device's own name, or for a USB or WiFi
    device without one the label built from its ids), its details are the
    object the driver or the registry gave, and its id is that object's
    deviceId (USB), id (BLE) or ip (WiFi). *)
Theorem scanned_boards_are_labelled (env : Env) (s s' : State)
    (boards : list Board) (board : Board) :
  getAvailableBoards env s = (Ok boards, s') ->
  board ∈ boards ->
  truthy (name board) = true /\
  (type board = "usb" /\ id board = prop (details board) "deviceId" /\
   details board ∈ usb_device_list env (trace s) \/
   type board = "ble" /\ id board = prop (details board) "id" /\
   details board ∈ ble_peripherals env (trace s) \/
   type board = "wifi" /\ id board = prop (details board) "ip" /\
   details board ∈ registry s).
Proof.
  intros Hrun Hin.
  destruct (scanned_board_origin env s s' boards board Hrun Hin)
    as [(_ & d & Hd & ->)|[(_ & d & Hd & Hkeep & ->)|(d & Hd & ->)]].
  - split; [by apply js_or_label|]. by left.
  - split; [|by right; left].
    change (name (ble_board d))
      with (js_or (prop d "name")
              (VStr ("BLE Device (" +:+ to_string (prop d "id") +:+ ")"))).
    by apply js_or_label.
  - split; [by apply js_or_label|]. by right; right.
Qed.

Lemma scanned_boards_are_labelled_witness :
  truthy (name (wifi_board barn_esp)) = true.
Proof.
  assert (Hrun : getAvailableBoards (quiet android) two_registered =
                   (Ok [wifi_board shed_esp; wifi_board barn_esp],
                    (getAvailableBoards (quiet android) two_registered).2))
    by (vm_compute; reflexivity).
  assert (Hin : wifi_board barn_esp ∈ [wifi_board shed_esp; wifi_board barn_esp])
    by (apply list_elem_of_further, list_elem_of_here).
  exact (proj1 (scanned_boards_are_labelled _ _ _ _ _ Hrun Hin)).
Defined.

(** ** From a download to an upload *)

(** X17: the upload handler of the editor finds what the compile handler
    downloaded.  After [downloadBinary] resolves, the file at the returned uri
    holds exactly what the server sent for the binary's url.  Looking the
    compilation id up in the persisted list gives a record: when no earlier
    record had that id it is the new one, carrying that uri; when an earlier
    record had the id, the lookup still gives that earlier record, as
    serialised again, not the new one.  And when no call rejects,
    [uploadBinary] of the returned uri to the connected USB or BLE board
    resolves to true, having sent the Base64 text of the bytes the server
    sent. *)
Theorem downloaded_binary_is_found (env : Env) (compilationId fileName uri : string)
    (s s' : State) :
  downloadBinary env compilationId fileName s = (Ok uri, s') ->
  let bytes :=
    http_download env (trace s ++ download_prelude env s)
      (API_BASE_URL env +:+ "/v1/binaries/" +:+ compilationId) in
  files s' !! uri = Some bytes /\
  match find_binary compilationId (binaries s) with
  | Some old => find_binary compilationId (binaries s') = Some (json_roundtrip old)
  | None =>
      exists record,
        find_binary compilationId (binaries s') = Some record /\
        prop record "uri" = VStr uri /\ prop record "fileName" = VStr fileName
  end /\
  (forall device,
     never_rejects env ->
     connectedDevice s = Some device ->
     (is_type (connectionType s) "usb" && UsbSerial env = true ->
      uploadBinary env uri s' =
        (Ok true,
         log_all (usb_upload_events (id device) uri (base64_encode bytes)) s')) /\
     (is_type (connectionType s) "usb" && UsbSerial env = false ->
      is_type (connectionType s) "ble" && BleManager env = true ->
      uploadBinary env uri s' =
        (Ok true,
         log_all (ble_upload_events (id device) uri (base64_encode bytes)) s'))).
Proof.
  intros Hrun bytes.
  destruct (downloadBinary_keeps_service env compilationId fileName s)
    as (Hdev & Hct & _).
  rewrite Hrun in Hdev, Hct. simpl in Hdev, Hct.
  apply download_ok_trace in Hrun
    as (-> & _ & Hfiles & record & Hid & Hname & Huri & Hbin).
  assert (Hfile : files s' !! ((documentDirectory env +:+ "binaries") +:+ "/" +:+ fileName)
                  = Some bytes) by (by rewrite Hfiles, lookup_insert_eq).
  split; [exact Hfile|]. split.
  - rewrite Hbin, (find_binary_app _ _ _ Hid), find_binary_json_roundtrip.
    destruct (find_binary compilationId (binaries s)) as [old|]; [done|]. simpl.
    by exists record.
  - intros device Hq Hconn. rewrite <- Hdev in Hconn. rewrite <- Hct. split.
    + intros Husb. by apply upload_usb_quiet.
    + intros Husb Hble. by apply upload_ble_quiet.
Qed.

Lemma downloaded_binary_is_found_witness :
  files (downloadBinary uno_server "c42" "blink.bin" usb_ready).2
    !! "file:///data/binaries/blink.bin" = Some (payload 5) /\
  uploadBinary uno_server "file:///data/binaries/blink.bin"
      (downloadBinary uno_server "c42" "blink.bin" usb_ready).2 =
    (Ok true,
     log_all (usb_upload_events (VNum 1002) "file:///data/binaries/blink.bin" "VVVVVVU=")
       (downloadBinary uno_server "c42" "blink.bin" usb_ready).2).
Proof.
  assert (Hrun : downloadBinary uno_server "c42" "blink.bin" usb_ready =
                   (Ok "file:///data/binaries/blink.bin",
                    (downloadBinary uno_server "c42" "blink.bin" usb_ready).2))
    by (vm_compute; reflexivity).
  destruct (downloaded_binary_is_found uno_server "c42" "blink.bin" _ usb_ready _ Hrun)
    as (Hfile & _ & Hupload).
  split; [exact Hfile|].
  assert (Hq : never_rejects uno_server) by (intros tr ev; reflexivity).
  destruct (Hupload uno_usb Hq eq_refl) as [Husb _].
  exact (Husb eq_refl).
Defined.

(** X20: the file is written before the record.  When no call rejects and
    the server sends the binary but does not answer ok to the status request
    that follows, [downloadBinary] throws the message of the server's error
    body, or 'Failed to get compilation status' when the body has none, and
    records nothing; yet the downloaded file stays on the device under the uri
    the call would have returned.  The calls made are those of a download that
    resolves up to the status request, then the two error logs. *)
Theorem refused_status_leaves_unrecorded_file (env : Env)
    (compilationId fileName : string) (s : State) :
  let url := API_BASE_URL env +:+ "/v1/binaries/" +:+ compilationId in
  let statusUrl := API_BASE_URL env +:+ "/v1/compile/" +:+ compilationId in
  let destination := (documentDirectory env +:+ "binaries") +:+ "/" +:+ fileName in
  let bearer := bearer_of (auth_token (storage s)) in
  let before := trace s ++ download_prelude env s in
  let response :=
    http_response env
      (before ++ [FsDownload url destination bearer;
                  StorageGetItem "compiled_binaries"; StorageGetItem "auth_token"])
      statusUrl in
  never_rejects env ->
  ok response = false ->
  exists s',
    downloadBinary env compilationId fileName s =
      (Throw (JsError (to_string (js_or (prop (body response) "message")
                                        (VStr "Failed to get compilation status")))),
       s') /\
    files s' !! destination = Some (http_download env before url) /\
    storage s' = storage s /\
    trace s' =
      before ++ [FsDownload url destination bearer;
                 StorageGetItem "compiled_binaries"; StorageGetItem "auth_token";
                 FetchGet statusUrl bearer;
                 ConsoleError "Get compilation status error:"; download_error].
Proof.
  intros url statusUrl destination bearer before response Hq Hrefused.
  unfold downloadBinary, try_catch.
  rewrite (bind_ok_eq _ _ _ _ _ (getItem_quiet env Hq _ _ _)). cbv zeta.
  rewrite (bind_ok_eq _ _ _ _ _ (getInfo_quiet env Hq _ _)).
  change (files (log (StorageGetItem "auth_token") s)) with (files s).
  change (directories (log (StorageGetItem "auth_token") s)) with (directories s).
  set (s1 := log (FsGetInfo _) _).
  assert (Hmk : exists s2,
            (if negb (bool_decide (is_Some (files s !! (documentDirectory env +:+ "binaries")))
                      || bool_decide ((documentDirectory env +:+ "binaries")
                                      ∈ directories s))
             then FileSystem_makeDirectoryAsync env (documentDirectory env +:+ "binaries")
             else ret tt) s1 = (Ok tt, s2) /\
            files s2 = files s /\ storage s2 = storage s /\ trace s2 = before).
  { subst before. unfold download_prelude. cbv zeta.
    destruct (bool_decide _ || bool_decide _); cbn [negb].
    - eexists. split; [reflexivity|]. split; [done|]. split; [done|].
      simpl. by rewrite <- !app_assoc.
    - unfold FileSystem_makeDirectoryAsync, bind. rewrite (call_quiet env Hq).
      eexists. split; [reflexivity|]. split; [done|]. split; [done|].
      simpl. by rewrite <- !app_assoc. }
  destruct Hmk as (s2 & Hmk & Hf2 & Hst2 & Ht2).
  rewrite (bind_ok_eq _ _ _ _ _ Hmk).
  unfold FileSystem_downloadAsync.
  unfold bind at 1. rewrite bind_gets_eq, (bind_call_quiet env Hq).
  cbn [modify ret bind].
  rewrite (bind_ok_eq _ _ _ _ _ (getItem_quiet env Hq _ _ _)).
  rewrite bind_gets_eq.
  unfold bind at 1. rewrite getCompilationStatus_run. cbv zeta.
  rewrite !Hq.
  cbn [trace log set_files storage auth_token].
  rewrite Ht2, Hst2.
  fold url statusUrl destination bearer.
  replace (http_response env _ statusUrl) with response
    by (subst response; f_equal; by rewrite <- !app_assoc).
  rewrite Hrefused.
  eexists. split; [reflexivity|]. split; [|split].
  - cbn. rewrite Hf2. apply lookup_insert_eq.
  - cbn. exact Hst2.
  - cbn. rewrite Ht2. by rewrite <- !app_assoc.
Qed.

Lemma refused_status_leaves_unrecorded_file_witness :
  exists s',
    downloadBinary status_refused "c42" "blink.bin" initial =
      (Throw (JsError "Compilation not found"), s') /\
    files s' !! "file:///data/binaries/blink.bin" = Some (payload 5) /\
    storage s' = storage initial.
Proof.
  assert (Hq : never_rejects status_refused) by (intros tr ev; reflexivity).
  destruct (refused_status_leaves_unrecorded_file status_refused "c42" "blink.bin"
              initial Hq eq_refl) as (s' & Hrun & Hfile & Hst & _).
  exists s'. split; [exact Hrun|]. split; [exact Hfile|exact Hst].
Defined.
